(** * FlashTrade trading agent: decision core and per-symbol trading loop

    Shallow embedding of the [TradingAgent] class that owns the
    configuration [{name, riskTolerance, maxPositionSize, minConfidence}]
    (confidence scoring, decision rule, position sizing, trade execution
    wrapper, trading loop, stop), and of the signal analysis of
    [ai-agents/src/agents/TradingAgent.ts].

    Numbers.  A JavaScript [number] is modelled as an exact rational
    ([Q]): NaN, the infinities, signed zero and rounding are outside the
    model.  Numeric results are compared with [==] ([Qeq]).  The module
    [Binary64] evaluates the numeric core on IEEE doubles for the
    concrete scenarios.

    Effects.  An [async] method is a function from the world to a
    completion (returned value or thrown error) and the world after it.
    The collaborators whose code is not part of the agent (random source,
    clock, predictor inference, chain client, number formatting) are the
    fields of a [Runtime]. *)

From Stdlib Require Import QArith Qabs Qminmax Qround Lqa ZArith Lia List String Bool DecimalString.
From Stdlib Require Import Floats.
Import ListNotations.
Set Warnings "-inexact-float".
Open Scope string_scope.
Open Scope list_scope.
Open Scope Q_scope.

(** ** JavaScript primitives used by the agent *)

(** [a < b] on numbers. *)
Definition Qltb (a b : Q) : bool :=
  match a ?= b with
  | Lt => true
  | _ => false
  end.

(** [a > b] on numbers. *)
Definition Qgtb (a b : Q) : bool := Qltb b a.

Definition Math_abs (x : Q) : Q := Qabs x.
Definition Math_max (x y : Q) : Q := Qmax x y.
Definition Math_min (x y : Q) : Q := Qmin x y.

Definition Math_sign (x : Q) : Q :=
  match Qnum x with
  | Z0 => 0
  | Zpos _ => 1
  | Zneg _ => -1
  end.

(** [x || d] for an optional number: [undefined] and [0] are falsy. *)
Definition or_else (x : option Q) (d : Q) : Q :=
  match x with
  | Some v => if Qeq_bool v 0 then d else v
  | None => d
  end.

(** ** Data model (interfaces of the agent) *)

Inductive Action := buy | sell | hold.

Record TradingDecision := mkDecision {
  action : Action;
  confidence : Q;
  amount : option Q;
  reason : string
}.

Record MarketData := mkMarketData {
  symbol : string;
  price : Q;
  volume : Q;
  timestamp : Q;
  high24h : option Q;
  low24h : option Q;
  change24h : option Q
}.

Record Position := mkPosition {
  pos_symbol : string;
  pos_amount : Q;
  pos_value : Q
}.

Record Portfolio := mkPortfolio {
  balance : Q;
  positions : list Position
}.

Record TradingContext := mkContext {
  ctx_marketData : MarketData;
  ctx_prediction : Q;
  ctx_confidence : Q;
  ctx_portfolio : Portfolio
}.

Record Config := mkConfig {
  name : string;
  riskTolerance : Q;
  maxPositionSize : Q;
  minConfidence : Q
}.

(** Argument of [hyperionClient.executeTrade]. *)
Record TradeRequest := mkTradeRequest {
  req_action : Action;
  req_symbol : string;
  req_amount : Q;
  req_maxSlippage : Q
}.

(** A thrown value. *)
Record JsError := mkError { message : string }.

(** Outcome of a call: a returned value or a thrown error. *)
Inductive completion (A : Type) :=
| Return (a : A)
| Throw (e : JsError).
Arguments Return {A} a.
Arguments Throw {A} e.

(** ** Confidence scoring and position sizing (pure) *)

Definition calculateConfidence (marketData : MarketData) (prediction : Q) : Q :=
  let volatility :=
    Math_abs (or_else (high24h marketData) (price marketData)
              - or_else (low24h marketData) (price marketData))
    / price marketData in
  let priceDirection := Math_sign (prediction - price marketData) in
  let trendConfidence :=
    if Qgtb (Math_abs (or_else (change24h marketData) 0)) 0.02 then 0.8 else 0.6 in
  let baseConfidence := Math_max 0.1 (1 - volatility) in
  Math_min 0.95 (baseConfidence * trendConfidence).

Definition calculatePositionSize (config : Config) (balance confidence : Q) : Q :=
  let maxRisk := balance * riskTolerance config in
  let confidenceAdjusted := maxRisk * confidence in
  Math_min confidenceAdjusted (balance * maxPositionSize config).

(** A call of [calculatePositionSize]: the body validates nothing and
    has no [throw], so the call completes with the computed amount. *)
Definition calculatePositionSize_call (config : Config) (balance confidence : Q)
  : completion Q :=
  Return (calculatePositionSize config balance confidence).

(** Inputs the configuration contract excludes: a fraction outside [0,1]
    or a negative balance. *)
Definition invalid_sizing_input (config : Config) (balance : Q) : Prop :=
  ~ (0 <= riskTolerance config <= 1)
  \/ ~ (0 <= maxPositionSize config <= 1)
  \/ balance < 0.

(** Position sizing as a validating operation: every call with an
    invalid input throws. *)
Definition sizing_rejects_invalid_input : Prop :=
  forall config balance confidence,
    invalid_sizing_input config balance ->
    exists e, calculatePositionSize_call config balance confidence = Throw e.

(** ** Collaborators and the world *)

(** What the agent takes from outside its own code: the random source and
    the clock used by the mock market data, the predictor (its inference
    runs TensorFlow; a call returns a price or throws), the chain client
    (its [executeTrade] resolves to a boolean or throws), and the
    formatting of numbers ([x.toFixed(d)] and string interpolation). *)
Record Runtime := mkRuntime {
  Env : Type;
  Math_random : Env -> Q * Env;
  Date_now : Env -> Q * Env;
  predictor_initialize : Env -> completion unit * Env;
  predictor_predict : list Q -> Env -> completion Q * Env;
  hyperionClient_initialize : Env -> completion unit * Env;
  hyperionClient_executeTrade : TradeRequest -> Env -> completion bool * Env;
  toFixed : Q -> nat -> string;
  Number_toString : Q -> string
}.

Inductive Level := INFO | ERROR.

(** Values of the metadata object passed to the logger. *)
Inductive Meta :=
| MString (s : string)
| MNumber (q : Q)
| MAction (a : Action)
| MDecision (d : TradingDecision)
| MError (e : JsError)
| MStrings (l : list string).

Record LogEntry := mkLog {
  level : Level;
  log_message : string;
  meta : list (string * Meta)
}.

(** Metadata of the log line that closes a market analysis. *)
Definition analysisMeta (symbol : string) (decision : TradingDecision)
  : list (string * Meta) :=
  [("symbol", MString symbol);
   ("decision", MAction (action decision));
   ("confidence", MNumber (confidence decision))].

(** The placeholder Alith agent object. *)
Record AlithAgent := mkAlithAgent { agent_name : string }.

(** Fields of the agent, the logger's output and the outside world. *)
Record World (rt : Runtime) := mkWorld {
  isInitialized : bool;
  agent : option AlithAgent;
  logs : list LogEntry;
  env : Env rt
}.
Arguments mkWorld {rt} _ _ _ _.
Arguments isInitialized {rt} _.
Arguments agent {rt} _.
Arguments logs {rt} _.
Arguments env {rt} _.

Section Agent.

Variable rt : Runtime.
Variable config : Config.

(** An [async] method: state passing with exceptions. *)
Definition M (A : Type) : Type := World rt -> completion A * World rt.

Definition ret {A} (a : A) : M A := fun w => (Return a, w).

Definition throw {A} (e : JsError) : M A := fun w => (Throw e, w).

Definition bind {A B} (m : M A) (k : A -> M B) : M B :=
  fun w =>
    match m w with
    | (Return a, w') => k a w'
    | (Throw e, w') => (Throw e, w')
    end.

(** [try { m } catch (error) { h error }]. *)
Definition try_catch {A} (m : M A) (h : JsError -> M A) : M A :=
  fun w =>
    match m w with
    | (Return a, w') => (Return a, w')
    | (Throw e, w') => h e w'
    end.

Notation "x <- m ;; k" := (bind m (fun x => k))
  (at level 61, m at next level, right associativity).
Notation "m ;; k" := (bind m (fun _ => k))
  (at level 61, right associativity).

Definition set_logs (w : World rt) (l : list LogEntry) : World rt :=
  mkWorld (isInitialized w) (agent w) l (env w).

Definition set_env (w : World rt) (e : Env rt) : World rt :=
  mkWorld (isInitialized w) (agent w) (logs w) e.

Definition set_isInitialized (w : World rt) (b : bool) : World rt :=
  mkWorld b (agent w) (logs w) (env w).

Definition set_agent (w : World rt) (a : option AlithAgent) : World rt :=
  mkWorld (isInitialized w) a (logs w) (env w).

(** The logger appends a line to its output and does nothing else. *)
Definition log_to (lvl : Level) (msg : string) (m : list (string * Meta))
  (w : World rt) : World rt :=
  set_logs w (logs w ++ [mkLog lvl msg m]).

Definition logger_info (msg : string) (m : list (string * Meta)) : M unit :=
  fun w => (Return tt, log_to INFO msg m w).

Definition logger_error (msg : string) (m : list (string * Meta)) : M unit :=
  fun w => (Return tt, log_to ERROR msg m w).

(** A call into the outside world. *)
Definition external {A} (f : Env rt -> completion A * Env rt) : M A :=
  fun w => let (r, e) := f (env w) in (r, set_env w e).

Definition random : M Q :=
  external (fun e => let (x, e') := Math_random rt e in (Return x, e')).

Definition now : M Q :=
  external (fun e => let (x, e') := Date_now rt e in (Return x, e')).

(** [await new Promise(resolve => setTimeout(resolve, ms))]: the clock is
    not part of the sequential model; the timed model is [EventLoop]. *)
Definition sleep (ms : Z) : M unit := ret tt.

(** ** Methods of the agent *)

Definition createAlithAgent : M AlithAgent :=
  ret (mkAlithAgent (name config)).

Definition initialize : M unit :=
  try_catch
    (logger_info "Initializing TradingAgent..." [("name", MString (name config))] ;;
     external (predictor_initialize rt) ;;
     logger_info "Price predictor initialized" [] ;;
     external (hyperionClient_initialize rt) ;;
     logger_info "Hyperion client initialized" [] ;;
     a <- createAlithAgent ;;
     (fun w => (Return tt, set_agent w (Some a))) ;;
     logger_info "Alith agent initialized" [] ;;
     (fun w => (Return tt, set_isInitialized w true)) ;;
     logger_info "TradingAgent fully initialized" [])
    (fun error =>
       logger_error "Failed to initialize TradingAgent" [("error", MError error)] ;;
       throw error).

Definition getMarketData (symbol : string) : M MarketData :=
  r1 <- random ;;
  let mockPrice := 100 + r1 * 10 in
  r2 <- random ;;
  t <- now ;;
  r3 <- random ;;
  ret (mkMarketData symbol mockPrice (r2 * 1000000) t
         (Some (mockPrice * 1.05)) (Some (mockPrice * 0.95))
         (Some ((r3 - 0.5) * 0.1))).

Definition getPortfolioStatus : M Portfolio :=
  ret (mkPortfolio 1000
         [mkPosition "ETH" 0.5 1600; mkPosition "METIS" 100 3500]).

(** [makeDecision].  The quotient [priceChange] is that of the rationals,
    which is the code's for every price other than 0.  At price 0 the
    code divides by zero and gets an infinity or NaN, which the rationals
    do not have: what is said of the three branches after the gate is said
    of a price other than 0. *)
Definition makeDecision (context : TradingContext) : TradingDecision :=
  let marketData := ctx_marketData context in
  let prediction := ctx_prediction context in
  let confidence := ctx_confidence context in
  let portfolio := ctx_portfolio context in
  if Qltb confidence (minConfidence config) then
    mkDecision hold confidence None
      ("Confidence " ++ toFixed rt confidence 2 ++ " below threshold "
         ++ Number_toString rt (minConfidence config))%string
  else
    let priceChange := (prediction - price marketData) / price marketData in
    let expectedProfit := Math_abs priceChange in
    let riskAdjustedAmount :=
      calculatePositionSize config (balance portfolio) confidence in
    if Qgtb priceChange 0.02 && Qgtb expectedProfit 0.01 then
      mkDecision buy confidence (Some riskAdjustedAmount)
        ("Predicted price increase of " ++ toFixed rt (priceChange * 100) 2 ++ "%")%string
    else if Qltb priceChange (-0.02) && Qgtb expectedProfit 0.01 then
      mkDecision sell confidence (Some riskAdjustedAmount)
        ("Predicted price decrease of " ++ toFixed rt (priceChange * 100) 2 ++ "%")%string
    else
      mkDecision hold confidence None
        ("Price change " ++ toFixed rt (priceChange * 100) 2
           ++ "% insufficient for action")%string.

Definition analyzeMarket (symbol : string) : M TradingDecision :=
  fun w =>
    if negb (isInitialized w) then throw (mkError "Agent not initialized") w
    else
      try_catch
        (logger_info "Analyzing market" [("symbol", MString symbol)] ;;
         marketData <- getMarketData symbol ;;
         prediction <- external (predictor_predict rt [price marketData]) ;;
         let confidence := calculateConfidence marketData prediction in
         portfolio <- getPortfolioStatus ;;
         let context := mkContext marketData prediction confidence portfolio in
         let decision := makeDecision context in
         logger_info "Market analysis complete" (analysisMeta symbol decision) ;;
         ret decision)
        (fun error =>
           logger_error "Market analysis failed"
             [("symbol", MString symbol); ("error", MError error)] ;;
           throw error)
        w.

(** [analyzeMarket symbol] up to its call of the predictor: the snapshot
    it passes and the world in which the predictor is called. *)
Definition beforePrediction (symbol : string) : M MarketData :=
  logger_info "Analyzing market" [("symbol", MString symbol)] ;;
  getMarketData symbol.

(** The predictor throws when [analyzeMarket symbol] calls it in [w]. *)
Definition prediction_fails (symbol : string) (w : World rt) : Prop :=
  exists marketData w1 error e2,
    beforePrediction symbol w = (Return marketData, w1)
    /\ predictor_predict rt [price marketData] (env w1) = (Throw error, e2).

(** Recovery of a prediction failure inside the analysis: whenever the
    predictor throws, [analyzeMarket] still returns a HOLD decision. *)
Definition prediction_failure_recovered : Prop :=
  forall symbol w,
    isInitialized w = true ->
    prediction_fails symbol w ->
    exists decision w',
      analyzeMarket symbol w = (Return decision, w')
      /\ action decision = hold.

Definition executeTrade (decision : TradingDecision) (symbol : string) : M bool :=
  match action decision with
  | hold =>
      logger_info "No action required"
        [("symbol", MString symbol); ("decision", MDecision decision)] ;;
      ret true
  | _ =>
      try_catch
        (logger_info "Executing trade"
           [("symbol", MString symbol); ("decision", MDecision decision)] ;;
         success <- external (hyperionClient_executeTrade rt
                      (mkTradeRequest (action decision) symbol
                         (or_else (amount decision) 0) 0.005)) ;;
         (if (success : bool) then
            logger_info "Trade executed successfully"
              [("symbol", MString symbol); ("decision", MDecision decision)]
          else
            logger_error "Trade execution failed"
              [("symbol", MString symbol); ("decision", MDecision decision)]) ;;
         ret success)
        (fun error =>
           logger_error "Trade execution error"
             [("symbol", MString symbol); ("decision", MDecision decision);
              ("error", MError error)] ;;
           ret false)
  end.

(** Body of the [for] loop of [tradingLoop] for one symbol, inside its
    [try]: analysis, execution, then the one-second pause. *)
Definition symbolCycle (symbol : string) : M unit :=
  decision <- analyzeMarket symbol ;;
  executeTrade decision symbol ;;
  sleep 1000.

Definition loopHandler (symbol : string) (error : JsError) : M unit :=
  logger_error "Trading loop error"
    [("symbol", MString symbol); ("error", MError error)].

(** One iteration of the [for] loop: the cycle under its [catch]. *)
Definition iteration (symbol : string) : M unit :=
  try_catch (symbolCycle symbol) (loopHandler symbol).

(** The closure [tradingLoop] of [startTrading], run from its first
    symbol to its last with nothing interleaved. *)
Fixpoint tradingLoop (symbols : list string) : M unit :=
  match symbols with
  | [] => ret tt
  | symbol :: rest => iteration symbol ;; tradingLoop rest
  end.

Definition stop : M unit :=
  logger_info "Stopping TradingAgent" [("name", MString (name config))] ;;
  (fun w => (Return tt, set_isInitialized w false)).

Definition getStatus (w : World rt) : string * bool * Config :=
  (name config, isInitialized w, config).

End Agent.

(** The metadata and the request that [executeTrade] builds. *)
Definition tradeMeta (decision : TradingDecision) (symbol : string)
  : list (string * Meta) :=
  [("symbol", MString symbol); ("decision", MDecision decision)].

Definition tradeRequest (decision : TradingDecision) (symbol : string)
  : TradeRequest :=
  mkTradeRequest (action decision) symbol (or_else (amount decision) 0) 0.005.

(** ** The timer-driven scheduler of [startTrading]

    [startTrading] awaits one run of [tradingLoop] and then hands the
    same closure to [setInterval]; [stop] only clears [isInitialized].
    The event loop below interleaves the runs: a run of [tradingLoop] is
    suspended at its [setTimeout(resolve, 1000)] between symbols, and
    timers fire in the order of their due times.  The calls awaited while
    one symbol is analysed and traded complete within the step that
    starts them. *)

(** A timer registered by [setInterval(tradingLoop, intervalMs)]. *)
Record Interval := mkInterval {
  iv_symbols : list string;
  iv_period : Z;
  iv_due : Z
}.

(** A run of [tradingLoop] suspended in its one-second pause: the
    symbols still to process, when the pause ends, and, for the run that
    [startTrading] awaits, the [setInterval] call that follows it. *)
Record Pass := mkPass {
  remaining : list string;
  wakeAt : Z;
  onDone : option (list string * Z)
}.

Record EventLoop (rt : Runtime) := mkEventLoop {
  world : World rt;
  clock : Z;
  passes : list Pass;
  intervals : list Interval
}.
Arguments mkEventLoop {rt} _ _ _ _.
Arguments world {rt} _.
Arguments clock {rt} _.
Arguments passes {rt} _.
Arguments intervals {rt} _.

Inductive Event :=
| CallStartTrading (symbols : list string) (intervalMs : Z)
| CallStop
| TimerFires (i : nat)
| PassWakes (j : nat)
| TimePasses (t : Z).

Definition defaultIntervalMs : Z := 30000.

Fixpoint remove_nth {A} (n : nat) (l : list A) : list A :=
  match n, l with
  | _, [] => []
  | O, _ :: l' => l'
  | S n', x :: l' => x :: remove_nth n' l'
  end.

Fixpoint replace_nth {A} (n : nat) (y : A) (l : list A) : list A :=
  match n, l with
  | _, [] => []
  | O, _ :: l' => y :: l'
  | S n', x :: l' => x :: replace_nth n' y l'
  end.

Section Scheduler.

Variable rt : Runtime.
Variable config : Config.

(** Run [tradingLoop] over [symbols] until it suspends in the pause that
    follows a symbol ([Some rest]) or returns ([None]).  A symbol whose
    cycle throws is logged by the [catch] and the loop goes on to the
    next symbol without pausing. *)
Fixpoint runPass (symbols : list string) (w : World rt)
  : option (list string) * World rt :=
  match symbols with
  | [] => (None, w)
  | symbol :: rest =>
      match bind rt (analyzeMarket rt config symbol)
                    (fun decision => executeTrade rt decision symbol) w with
      | (Return _, w') => (Some rest, w')
      | (Throw error, w') => runPass rest (snd (loopHandler rt symbol error w'))
      end
  end.

(** What a run of [tradingLoop] leaves of [w] when every symbol is
    refused by the guard of [analyzeMarket]: one error line per symbol. *)
Fixpoint rejected (symbols : list string) (w : World rt) : World rt :=
  match symbols with
  | [] => w
  | symbol :: rest =>
      rejected rest
        (log_to rt ERROR "Trading loop error"
           [("symbol", MString symbol);
            ("error", MError (mkError "Agent not initialized"))] w)
  end.

Definition set_world (L : EventLoop rt) (w : World rt) : EventLoop rt :=
  mkEventLoop w (clock L) (passes L) (intervals L).

(** [setInterval(callback, ms)]: a delay below 1 ms is taken as 1 ms. *)
Definition setInterval (symbols : list string) (ms : Z) (L : EventLoop rt)
  : EventLoop rt :=
  mkEventLoop (world L) (clock L) (passes L)
    (intervals L ++ [mkInterval symbols (Z.max 1 ms) (clock L + Z.max 1 ms)]).

(** Start or resume a run of [tradingLoop] over [symbols]. *)
Definition continuePass (symbols : list string)
  (after : option (list string * Z)) (L : EventLoop rt) : EventLoop rt :=
  match runPass symbols (world L) with
  | (Some rest, w') =>
      mkEventLoop w' (clock L)
        (passes L ++ [mkPass rest (clock L + 1000) after]) (intervals L)
  | (None, w') =>
      match after with
      | Some (symbols', ms) => setInterval symbols' ms (set_world L w')
      | None => set_world L w'
      end
  end.

(** [startTrading(symbols, intervalMs)] up to its first suspension; a
    call on an agent that is not initialized rejects and changes nothing. *)
Definition startTrading (symbols : list string) (intervalMs : Z)
  (L : EventLoop rt) : EventLoop rt :=
  if negb (isInitialized (world L)) then L
  else
    continuePass symbols (Some (symbols, intervalMs))
      (set_world L
         (log_to rt INFO "Starting automated trading"
            [("symbols", MStrings symbols);
             ("intervalMs", MNumber (inject_Z intervalMs))] (world L))).

(** No timer is due before [t]. *)
Definition nothing_due_before (t : Z) (L : EventLoop rt) : bool :=
  forallb (fun iv => (t <=? iv_due iv)%Z) (intervals L)
  && forallb (fun p => (t <=? wakeAt p)%Z) (passes L).

(** One step of the event loop; [None] when the event cannot happen. *)
Definition step (ev : Event) (L : EventLoop rt) : option (EventLoop rt) :=
  match ev with
  | CallStartTrading symbols intervalMs => Some (startTrading symbols intervalMs L)
  | CallStop => Some (set_world L (snd (stop rt config (world L))))
  | TimerFires i =>
      match nth_error (intervals L) i with
      | Some iv =>
          if (iv_due iv <=? clock L)%Z then
            Some (continuePass (iv_symbols iv) None
                    (mkEventLoop (world L) (clock L) (passes L)
                       (replace_nth i
                          (mkInterval (iv_symbols iv) (iv_period iv)
                             (clock L + iv_period iv))
                          (intervals L))))
          else None
      | None => None
      end
  | PassWakes j =>
      match nth_error (passes L) j with
      | Some p =>
          if (wakeAt p <=? clock L)%Z then
            Some (continuePass (remaining p) (onDone p)
                    (mkEventLoop (world L) (clock L)
                       (remove_nth j (passes L)) (intervals L)))
          else None
      | None => None
      end
  | TimePasses t =>
      if (clock L <=? t)%Z && nothing_due_before t L
      then Some (mkEventLoop (world L) t (passes L) (intervals L))
      else None
  end.

Fixpoint run (evs : list Event) (L : EventLoop rt) : option (EventLoop rt) :=
  match evs with
  | [] => Some L
  | ev :: evs' =>
      match step ev L with
      | Some L' => run evs' L'
      | None => None
      end
  end.

(** The events of [evs] can happen in this order from [L]. *)
Definition executable (evs : list Event) (L : EventLoop rt) : bool :=
  match run evs L with
  | Some _ => true
  | None => false
  end.

(** A run of [tradingLoop] is in flight with symbols still to process. *)
Definition pass_in_flight (L : EventLoop rt) : bool :=
  existsb (fun p => match remaining p with [] => false | _ => true end)
          (passes L).

(** No timer starts a run of [tradingLoop] after a call of [stop]. *)
Fixpoint no_tick_after_stop (stopped : bool) (evs : list Event) : bool :=
  match evs with
  | [] => true
  | CallStop :: evs' => no_tick_after_stop true evs'
  | TimerFires _ :: evs' => negb stopped && no_tick_after_stop stopped evs'
  | _ :: evs' => no_tick_after_stop stopped evs'
  end.

(** No timer starts a run of [tradingLoop] while another run still has
    symbols to process. *)
Fixpoint no_tick_overlap (evs : list Event) (L : EventLoop rt) : bool :=
  match evs with
  | [] => true
  | ev :: evs' =>
      match step ev L with
      | Some L' =>
          match ev with
          | TimerFires _ => negb (pass_in_flight L)
          | _ => true
          end
          && no_tick_overlap evs' L'
      | None => true
      end
  end.

(** The tick discipline of the scheduler: from [L], every run of the
    event loop starts no tick after [stop] and overlaps no two ticks. *)
Definition tick_discipline (L : EventLoop rt) : Prop :=
  forall evs L', run evs L = Some L' ->
    no_tick_after_stop false evs = true /\ no_tick_overlap evs L = true.

End Scheduler.

(** ** Signal analysis of [ai-agents/src/agents/TradingAgent.ts] *)

Module AiAgents.

Inductive SignalAction := BUY | SELL | HOLD | ADD_LIQUIDITY.

Inductive RiskLevel := LOW | MEDIUM | HIGH.

Record MarketData := mkMarketData {
  pair : string;
  reserveA : string;
  reserveB : string;
  price : Q;
  volume24h : Q;
  timestamp : Q
}.

(** [confidence] is on the scale 0..100. *)
Record TradingSignal := mkSignal {
  action : SignalAction;
  confidence : Q;
  amount : option string;
  expectedPrice : Q;
  riskLevel : RiskLevel;
  mevRisk : bool
}.

(** The Alith agent and the rendering of the prompt (its template calls
    [toISOString], which throws on an invalid date). *)
Record Runtime := mkRuntime {
  Env : Type;
  renderPrompt : MarketData -> completion string;
  agent_run : string -> MarketData -> Env -> completion string * Env
}.

Record World (rt : Runtime) := mkWorld {
  errors : list (string * JsError);
  env : Env rt
}.
Arguments mkWorld {rt} _ _.
Arguments errors {rt} _.
Arguments env {rt} _.

Section Analysis.

Variable rt : Runtime.

Definition parseAIResponse (response : string) (marketData : MarketData)
  : TradingSignal :=
  mkSignal HOLD 50 None (price marketData) MEDIUM false.

Definition generateFallbackSignal (marketData : MarketData) : TradingSignal :=
  mkSignal HOLD 30 None (price marketData) HIGH false.

(** The [try] block of [analyzeMarketAndGenerateSignal]. *)
Definition askAgent (marketData : MarketData) (w : World rt)
  : completion TradingSignal * World rt :=
  match renderPrompt rt marketData with
  | Throw e => (Throw e, w)
  | Return prompt =>
      match agent_run rt prompt marketData (env w) with
      | (Return content, e') =>
          (Return (parseAIResponse content marketData), mkWorld (errors w) e')
      | (Throw e, e') => (Throw e, mkWorld (errors w) e')
      end
  end.

Definition analyzeMarketAndGenerateSignal (marketData : MarketData)
  (w : World rt) : completion TradingSignal * World rt :=
  match askAgent marketData w with
  | (Return signal, w') => (Return signal, w')
  | (Throw error, w') =>
      (Return (generateFallbackSignal marketData),
       mkWorld (errors w' ++ [("Error generating trading signal:", error)])
               (env w'))
  end.

(** The guard of the trading loop: [signal.confidence > 70]. *)
Definition highConfidence (signal : TradingSignal) : bool :=
  Qgtb (confidence signal) 70.

End Analysis.

End AiAgents.

(** ** The numeric core on IEEE binary64 numbers *)

Module Binary64.

Local Open Scope float_scope.

Definition is_zero (x : float) : bool :=
  match classify x with
  | FloatClass.PZero | FloatClass.NZero => true
  | _ => false
  end.

(** [x || d]: [undefined], NaN and both zeros are falsy. *)
Definition or_else (x : option float) (d : float) : float :=
  match x with
  | Some v => if is_nan v || is_zero v then d else v
  | None => d
  end.

(** [Math.min] and [Math.max]: NaN if an argument is NaN; -0 is below +0. *)
Definition Math_min (x y : float) : float :=
  if is_nan x || is_nan y then nan
  else if x <? y then x
  else if y <? x then y
  else match classify x with FloatClass.NZero => x | _ => y end.

Definition Math_max (x y : float) : float :=
  if is_nan x || is_nan y then nan
  else if x <? y then y
  else if y <? x then x
  else match classify x with FloatClass.PZero => x | _ => y end.

Definition calculateConfidence (price : float)
  (high24h low24h change24h : option float) (prediction : float) : float :=
  let volatility :=
    abs (or_else high24h price - or_else low24h price) / price in
  let trendConfidence :=
    if 0.02 <? abs (or_else change24h 0) then 0.8 else 0.6 in
  let baseConfidence := Math_max 0.1 (1 - volatility) in
  Math_min 0.95 (baseConfidence * trendConfidence).

Definition calculatePositionSize (riskTolerance maxPositionSize : float)
  (balance confidence : float) : float :=
  let maxRisk := balance * riskTolerance in
  let confidenceAdjusted := maxRisk * confidence in
  Math_min confidenceAdjusted (balance * maxPositionSize).

(** The action chosen by [makeDecision]. *)
Definition makeDecision_action (minConfidence price prediction confidence : float)
  : Action :=
  if confidence <? minConfidence then hold
  else
    let priceChange := (prediction - price) / price in
    let expectedProfit := abs priceChange in
    if (0.02 <? priceChange) && (0.01 <? expectedProfit) then buy
    else if (priceChange <? -0.02) && (0.01 <? expectedProfit) then sell
    else hold.

End Binary64.

(** ** A scripted runtime for concrete runs *)

Module Scripted.

(** Decimal rendering of [x] with [d] fraction digits, the nearest value
    with ties away from zero (what [toFixed] gives on exact values). *)
Fixpoint zeros (n : nat) : string :=
  match n with
  | O => ""
  | S n' => "0" ++ zeros n'
  end.

Definition toFixed (x : Q) (d : nat) : string :=
  let n := Qfloor (Qabs x * inject_Z (10 ^ Z.of_nat d) + 0.5) in
  let digits := NilZero.string_of_uint (N.to_uint (Z.to_N n)) in
  let padded := (zeros (S d - String.length digits) ++ digits)%string in
  let k := (String.length padded - d)%nat in
  ((if Qltb x 0 then "-" else "")
   ++ substring 0 k padded
   ++ (match d with O => "" | _ => "." ++ substring k d padded end))%string.

Definition is_integer (x : Q) : bool := Qeq_bool (inject_Z (Qfloor x)) x.

(** The least number of fraction digits, up to [fuel], that renders [x]
    exactly. *)
Fixpoint fraction_digits (fuel d : nat) (x : Q) : nat :=
  match fuel with
  | O => d
  | S fuel' =>
      if is_integer (x * inject_Z (10 ^ Z.of_nat d)) then d
      else fraction_digits fuel' (S d) x
  end.

Definition Number_toString (x : Q) : string :=
  toFixed x (fraction_digits 17 0 x).

(** The outside world as a script: the values the random source will
    give, the clock, the outcomes of the next predictions and of the
    next trade requests, and the requests received so far. *)
Record Script := mkScript {
  randoms : list Q;
  time : Q;
  predictions : list (completion Q);
  tradeOutcomes : list (completion bool);
  requests : list TradeRequest
}.

Definition Math_random (s : Script) : Q * Script :=
  match randoms s with
  | [] => (0.5, s)
  | r :: rs =>
      (r, mkScript rs (time s) (predictions s) (tradeOutcomes s) (requests s))
  end.

Definition Date_now (s : Script) : Q * Script := (time s, s).

(** Without a scripted outcome the predictor repeats the last price. *)
Definition predict (sequence : list Q) (s : Script) : completion Q * Script :=
  match predictions s with
  | [] => (Return (last sequence 0), s)
  | p :: ps =>
      (p, mkScript (randoms s) (time s) ps (tradeOutcomes s) (requests s))
  end.

Definition client_executeTrade (request : TradeRequest) (s : Script)
  : completion bool * Script :=
  match tradeOutcomes s with
  | [] =>
      (Return true,
       mkScript (randoms s) (time s) (predictions s) []
         (requests s ++ [request]))
  | o :: os =>
      (o, mkScript (randoms s) (time s) (predictions s) os
            (requests s ++ [request]))
  end.

Definition runtime : Runtime :=
  mkRuntime Script Math_random Date_now
    (fun s => (Return tt, s)) predict
    (fun s => (Return tt, s)) client_executeTrade
    toFixed Number_toString.

(** An Alith agent that answers as scripted; without a scripted outcome
    it throws. *)
Definition agent_run (prompt : string) (marketData : AiAgents.MarketData)
  (answers : list (completion string))
  : completion string * list (completion string) :=
  match answers with
  | [] => (Throw (mkError "request failed"), [])
  | a :: rest => (a, rest)
  end.

Definition aiRuntime : AiAgents.Runtime :=
  AiAgents.mkRuntime (list (completion string))
    (fun marketData => Return ("Market: " ++ AiAgents.pair marketData)%string)
    agent_run.

Definition config : Config := mkConfig "agent" 0.1 0.05 0.5.

Definition quiet : Script := mkScript [] 0 [] [] [].

(** The snapshot the mock market data gives when every random draw is
    0.5 and the clock reads 0. *)
Definition snapshot (symbol : string) : MarketData :=
  mkMarketData symbol (100 + 0.5 * 10) (0.5 * 1000000) 0
    (Some ((100 + 0.5 * 10) * 1.05)) (Some ((100 + 0.5 * 10) * 0.95))
    (Some ((0.5 - 0.5) * 0.1)).

(** An initialized agent in a world that follows [s]. *)
Definition initialized (s : Script) : World runtime :=
  @mkWorld runtime true (Some (mkAlithAgent "agent")) [] s.

Definition eventLoop (s : Script) : EventLoop runtime :=
  mkEventLoop (initialized s) 0 [] [].

(** Two symbols on a 500 ms interval: the run awaited by [startTrading]
    ends at 2000 and registers the timer; the timer fires at 2500 and
    again at 3000, while the run started at 2500 is paused before "BTC". *)
Definition overlapTrace : list Event :=
  [CallStartTrading ["ETH"; "BTC"] 500;
   TimePasses 1000; PassWakes 0;
   TimePasses 2000; PassWakes 0;
   TimePasses 2500; TimerFires 0;
   TimePasses 3000; TimerFires 0].

(** One symbol on the default interval; [stop] is called after the first
    run has ended, and the timer fires 30 s after its registration. *)
Definition stopTrace : list Event :=
  [CallStartTrading ["ETH"] defaultIntervalMs;
   TimePasses 1000; PassWakes 0;
   CallStop;
   TimePasses 31000; TimerFires 0].

(** The event loop of [stopTrace] when its timer is about to fire. *)
Definition afterStop : EventLoop runtime :=
  match run runtime config (removelast stopTrace) (eventLoop quiet) with
  | Some L => L
  | None => eventLoop quiet
  end.

End Scripted.


(** * Further code of the repository *)

From Stdlib Require Import Ascii.

(** ** Reading the log of the trading agent *)

(** The line that opens the analysis of [symbol]. *)
Definition analyzingLine (symbol : string) : LogEntry :=
  mkLog INFO "Analyzing market" [("symbol", MString symbol)].

Definition is_analyzing (entry : LogEntry) : bool :=
  String.eqb (log_message entry) "Analyzing market".

(** The timers of an event loop: those registered, and those that the
    runs awaited by [startTrading] will register when they return. *)
Definition awaited (p : Pass) : bool :=
  match onDone p with
  | Some _ => true
  | None => false
  end.

Definition timers {rt : Runtime} (L : EventLoop rt) : nat :=
  (List.length (intervals L) + List.length (filter awaited (passes L)))%nat.

(** The snapshot [getMarketData] builds from the outside world [e] (three
    random draws and the clock), and the outside world after it. *)
Definition mockSnapshot (rt : Runtime) (symbol : string) (e : Env rt)
  : MarketData * Env rt :=
  let (r1, e1) := Math_random rt e in
  let (r2, e2) := Math_random rt e1 in
  let (t, e3) := Date_now rt e2 in
  let (r3, e4) := Math_random rt e3 in
  (mkMarketData symbol (100 + r1 * 10) (r2 * 1000000) t
     (Some ((100 + r1 * 10) * 1.05)) (Some ((100 + r1 * 10) * 0.95))
     (Some ((r3 - 0.5) * 0.1)),
   e4).

(** The portfolio [getPortfolioStatus] returns. *)
Definition mockPortfolio : Portfolio :=
  mkPortfolio 1000 [mkPosition "ETH" 0.5 1600; mkPosition "METIS" 100 3500].


(** ** The price predictor of [ai-agents/src/models/PricePredictor.ts]

    The predictor the trading agent constructs with sequence length 60.
    TensorFlow is outside the model: building and compiling the network,
    and one inference on a normalized sequence (tensor creation,
    [model.predict] and [data()]), are calls that return or throw. *)

Module Predictor.

(** [sequenceLength] is a positive whole number. *)
Record PredictorConfig := mkPredictorConfig {
  sequenceLength : positive;
  hiddenUnits : Q;
  learningRate : Q
}.

Record Scaler := mkScaler { scaler_min : Q; scaler_max : Q }.

Record Runtime := mkRuntime {
  Env : Type;
  tf_sequential : Env -> completion unit * Env;
  tf_compile : Env -> completion unit * Env;
  tf_predict : list Q -> Env -> completion Q * Env
}.

(** Fields of the predictor ([model] is true when it is not null), the
    logger's output and the state of TensorFlow. *)
Record State (rt : Runtime) := mkState {
  model : bool;
  isInitialized : bool;
  scaler : option Scaler;
  logs : list LogEntry;
  env : Env rt
}.
Arguments mkState {rt} _ _ _ _ _.
Arguments model {rt} _.
Arguments isInitialized {rt} _.
Arguments scaler {rt} _.
Arguments logs {rt} _.
Arguments env {rt} _.

(** [Math.min(...l)] and [Math.max(...l)] of a non-empty list (of an
    empty list they are the infinities, which the rationals do not have:
    [predict] never meets the case, and what is said of [train] is said
    of data with at least one value). *)
Definition list_min (l : list Q) : Q :=
  match l with
  | [] => 0
  | x :: rest => fold_left Qmin rest x
  end.

Definition list_max (l : list Q) : Q :=
  match l with
  | [] => 0
  | x :: rest => fold_left Qmax rest x
  end.

(** [l.slice(-n)] for [n >= 1]: the last [n] elements. *)
Definition slice_last {A} (n : nat) (l : list A) : list A :=
  skipn (List.length l - n) l.

(** The sequence [predict] builds when the length is not
    [sequenceLength]: copies of [priceSequence[0] || 0] are put in front
    until the length is reached, then the last [n] values are kept. *)
Definition resize (n : nat) (priceSequence : list Q) : list Q :=
  let paddedSequence :=
    repeat (or_else (hd_error priceSequence) 0) (n - List.length priceSequence)
    ++ priceSequence in
  slice_last n paddedSequence.

Section Methods.

Variable rt : Runtime.
Variable config : PredictorConfig.

Definition log (lvl : Level) (msg : string) (m : list (string * Meta))
  (s : State rt) : State rt :=
  mkState (model s) (isInitialized s) (scaler s)
    (logs s ++ [mkLog lvl msg m]) (env s).

Definition set_env (s : State rt) (e : Env rt) : State rt :=
  mkState (model s) (isInitialized s) (scaler s) (logs s) e.

Definition normalize (sc : option Scaler) (value : Q) : Q :=
  match sc with
  | None => value
  | Some k => (value - scaler_min k) / (scaler_max k - scaler_min k)
  end.

Definition denormalizePrediction (sc : option Scaler) (normalizedValue : Q) : Q :=
  match sc with
  | None => normalizedValue
  | Some k => normalizedValue * (scaler_max k - scaler_min k) + scaler_min k
  end.

(** [normalizeSequence]: without a scaler, one is made from the sequence
    and kept. *)
Definition normalizeSequence (sequence : list Q) (s : State rt)
  : list Q * State rt :=
  let s' :=
    match scaler s with
    | Some _ => s
    | None =>
        mkState (model s) (isInitialized s)
          (Some (mkScaler (list_min sequence * 0.9) (list_max sequence * 1.1)))
          (logs s) (env s)
    end in
  (map (normalize (scaler s')) sequence, s').

Definition buildModel (s : State rt) : completion unit * State rt :=
  match tf_sequential rt (env s) with
  | (Throw e, e1) => (Throw e, set_env s e1)
  | (Return _, e1) =>
      let s1 := mkState true (isInitialized s) (scaler s) (logs s) e1 in
      match tf_compile rt e1 with
      | (Throw e, e2) => (Throw e, set_env s1 e2)
      | (Return _, e2) =>
          (Return tt, log INFO "CNN-LSTM model built successfully" [] (set_env s1 e2))
      end
  end.

Definition initialize (s : State rt) : completion unit * State rt :=
  match buildModel (log INFO "Initializing PricePredictor..." [] s) with
  | (Return _, s1) =>
      (Return tt,
       log INFO "PricePredictor initialized successfully" []
         (mkState (model s1) true (scaler s1) (logs s1) (env s1)))
  | (Throw error, s1) =>
      (Throw error,
       log ERROR "Failed to initialize PricePredictor" [("error", MError error)] s1)
  end.

(** The [try] block of [predict], for a sequence of the right length. *)
Definition infer (priceSequence : list Q) (s : State rt)
  : completion Q * State rt :=
  let (normalizedSequence, s1) := normalizeSequence priceSequence s in
  match tf_predict rt normalizedSequence (env s1) with
  | (Return predictionValue, e') =>
      (Return (denormalizePrediction (scaler s1) predictionValue), set_env s1 e')
  | (Throw error, e') =>
      (Throw error,
       log ERROR "Prediction failed" [("error", MError error)] (set_env s1 e'))
  end.

(** [predict]; [None] when [fuel] nested calls do not suffice. *)
Fixpoint predict (fuel : nat) (priceSequence : list Q) (s : State rt)
  : option (completion Q * State rt) :=
  match fuel with
  | O => None
  | S fuel' =>
      if negb (model s) || negb (isInitialized s) then
        Some (Throw (mkError "Model not initialized"), s)
      else if negb (List.length priceSequence =? Pos.to_nat (sequenceLength config))%nat
      then predict fuel' (resize (Pos.to_nat (sequenceLength config)) priceSequence) s
      else Some (infer priceSequence s)
  end.

Definition dispose (s : State rt) : State rt :=
  if model s then
    log INFO "PricePredictor disposed" []
      (mkState false false (scaler s) (logs s) (env s))
  else s.

End Methods.

(** [train].  Making the two tensors is a call that returns or throws;
    the fit is a call that gives the lines its [onEpochEnd] callback
    logged (one for every tenth epoch it reached) and then returns the
    final loss and validation loss, or throws. *)
Section Training.

Variable rt : Runtime.
Variable tf_tensors : list (list Q) -> list Q -> Env rt -> completion unit * Env rt.
Variable tf_fit : nat -> Env rt -> list string * completion (Q * Q) * Env rt.

(** [normalizeData]: the scaler becomes the least and the greatest of
    all values, whatever it was. *)
Definition normalizeData (sequences : list (list Q)) (targets : list Q)
  (s : State rt) : (list (list Q) * list Q) * State rt :=
  let allValues := List.concat sequences ++ targets in
  let k := mkScaler (list_min allValues) (list_max allValues) in
  let s' := mkState (model s) (isInitialized s) (Some k) (logs s) (env s) in
  ((map (map (normalize (scaler s'))) sequences,
    map (normalize (scaler s')) targets), s').

Definition train (sequences : list (list Q)) (targets : list Q) (epochs : nat)
  (s : State rt) : completion unit * State rt :=
  if negb (model s) then (Throw (mkError "Model not initialized"), s)
  else
    let s1 :=
      log rt INFO "Starting model training"
        [("epochs", MNumber (inject_Z (Z.of_nat epochs)));
         ("samples", MNumber (inject_Z (Z.of_nat (List.length sequences))))] s in
    let (normalized, s2) := normalizeData sequences targets s1 in
    match tf_tensors (fst normalized) (snd normalized) (env s2) with
    | (Throw e, e1) => (Throw e, set_env rt s2 e1)
    | (Return _, e1) =>
        let '(epochLines, outcome, e2) := tf_fit epochs e1 in
        let s3 :=
          fold_left (fun st line => log rt INFO line [] st) epochLines
            (set_env rt s2 e2) in
        match outcome with
        | Return (finalLoss, finalValLoss) =>
            (Return tt,
             log rt INFO "Model training completed"
               [("finalLoss", MNumber finalLoss);
                ("finalValLoss", MNumber finalValLoss)] s3)
        | Throw e => (Throw e, s3)
        end
    end.

End Training.

(** A network that answers every inference with [y]. *)
Definition constant (y : Q) : Runtime :=
  mkRuntime unit (fun e => (Return tt, e)) (fun e => (Return tt, e))
    (fun _ e => (Return y, e)).

(** The configuration the trading agent passes. *)
Definition agentConfig : PredictorConfig := mkPredictorConfig 60 50 0.001.

Definition fresh (rt : Runtime) (e : Env rt) : State rt :=
  mkState false false None [] e.

End Predictor.

(** ** State passing with exceptions, for the classes below *)

Definition ST (S A : Type) : Type := S -> completion A * S.

Definition retS {S A} (a : A) : ST S A := fun s => (Return a, s).

Definition throwS {S A} (e : JsError) : ST S A := fun s => (Throw e, s).

Definition bindS {S A B} (m : ST S A) (k : A -> ST S B) : ST S B :=
  fun s =>
    match m s with
    | (Return a, s') => k a s'
    | (Throw e, s') => (Throw e, s')
    end.

(** [try { m } catch (error) { h error }]. *)
Definition catchS {S A} (m : ST S A) (h : JsError -> ST S A) : ST S A :=
  fun s =>
    match m s with
    | (Return a, s') => (Return a, s')
    | (Throw e, s') => h e s'
    end.

Declare Scope st_scope.
Delimit Scope st_scope with st.
Notation "x <- m ;; k" := (bindS m (fun x => k))
  (at level 61, m at next level, right associativity) : st_scope.
Notation "m ;; k" := (bindS m (fun _ => k))
  (at level 61, right associativity) : st_scope.

(** A line of a logger made by [createLogger]: [logger.info(text)],
    [logger.warn(text)] or [logger.error(text, error)]. *)
Inductive Line :=
| Info (text : string)
| Warn (text : string)
| Error (text : string) (error : JsError).

(** [s.split(sep)] for a one-character separator. *)
Fixpoint split (sep : ascii) (s : string) : list string :=
  match s with
  | EmptyString => [EmptyString]
  | String c rest =>
      if Ascii.eqb c sep then EmptyString :: split sep rest
      else
        match split sep rest with
        | [] => [String c EmptyString]
        | part :: parts => String c part :: parts
        end
  end.

(** [const [tokenA, tokenB] = pair.split("/")]. *)
Definition splitPair (pair : string) : option string * option string :=
  let parts := split "/"%char pair in
  (nth_error parts 0, nth_error parts 1).

(** [s] has no ["/"]. *)
Fixpoint no_slash (s : string) : bool :=
  match s with
  | EmptyString => true
  | String c rest => negb (Ascii.eqb c "/"%char) && no_slash rest
  end.

(** ** The chain client of [HyperionClient] *)

Module Hyperion.

(** [tokenIn] and [tokenOut] are absent when the caller passes
    [undefined]. *)
Record TradeParams := mkTradeParams {
  tokenIn : option string;
  tokenOut : option string;
  amountIn : string;
  minAmountOut : string;
  useParallel : option bool
}.

Record LiquidityParams := mkLiquidityParams {
  pair : string;
  amountA : string;
  amountB : string
}.

(** The call [contract.trade(tokenIn, tokenOut, amountIn, minAmountOut,
    deadline)]. *)
Record TradeCall := mkTradeCall {
  call_tokenIn : option string;
  call_tokenOut : option string;
  call_amountIn : string;
  call_minAmountOut : string;
  call_deadline : Z
}.

(** The call [contract.addLiquidity(tokenA, tokenB, amountADesired,
    amountBDesired, amountAMin, amountBMin)]. *)
Record LiquidityCall := mkLiquidityCall {
  liq_tokenA : option string;
  liq_tokenB : option string;
  liq_amountADesired : string;
  liq_amountBDesired : string;
  liq_amountAMin : string;
  liq_amountBMin : string
}.

(** The tuple [getPairDetails] of the contract returns, and the object
    the client makes of it. *)
Record PairTuple := mkPairTuple {
  t_tokenA : string;
  t_tokenB : string;
  t_reserveA : Z;
  t_reserveB : Z;
  t_lastUpdateTime : Z;
  t_isActive : bool;
  t_totalLiquidity : Z;
  t_feeRate : Z
}.

Record PairDetails := mkPairDetails {
  tokenA : string;
  tokenB : string;
  reserveA : string;
  reserveB : string;
  lastUpdateTime : Z;
  isActive : bool;
  totalLiquidity : string;
  feeRate : Z
}.

(** The provider, the contract and a sent transaction ([wait]) are
    calls that return or throw; [now] is [Date.now()] in milliseconds;
    [show] renders an integer as a string. *)
Record Runtime := mkRuntime {
  Chain : Type;
  now : Chain -> Z * Chain;
  getNetwork : Chain -> completion (string * Z) * Chain;
  getBalance : Chain -> completion string * Chain;
  contract_trade : TradeCall -> Chain -> completion string * Chain;
  contract_addLiquidity : LiquidityCall -> Chain -> completion string * Chain;
  tx_wait : string -> Chain -> completion Z * Chain;
  contract_getActivePairs : Chain -> completion (list string) * Chain;
  contract_getPairDetails : string -> Chain -> completion PairTuple * Chain;
  show : Z -> string
}.

Record State (rt : Runtime) := mkState {
  lines : list Line;
  chain : Chain rt
}.
Arguments mkState {rt} _ _.
Arguments lines {rt} _.
Arguments chain {rt} _.

Section Client.

Variable rt : Runtime.

Local Open Scope st_scope.

Definition info (text : string) : ST (State rt) unit :=
  fun s => (Return tt, mkState (lines s ++ [Info text]) (chain s)).

Definition error (text : string) (e : JsError) : ST (State rt) unit :=
  fun s => (Return tt, mkState (lines s ++ [Error text e]) (chain s)).

Definition call {A} (f : Chain rt -> completion A * Chain rt) : ST (State rt) A :=
  fun s => let (r, c) := f (chain s) in (r, mkState (lines s) c).

Definition or_undefined (x : option string) : string :=
  match x with
  | Some v => v
  | None => "undefined"
  end.

Definition connect : ST (State rt) unit :=
  catchS
    (network <- call (getNetwork rt) ;;
     info ("Connected to Hyperion network: " ++ fst network ++ " ("
             ++ show rt (snd network) ++ ")") ;;
     balance <- call (getBalance rt) ;;
     info ("Wallet balance: " ++ balance ++ " METIS"))
    (fun e => error "Failed to connect to Hyperion:" e ;; throwS e).

Definition disconnect : ST (State rt) unit :=
  info "Disconnecting from Hyperion".

(** [Math.floor(Date.now() / 1000) + 300]. *)
Definition deadlineAt (nowMs : Z) : Z := (nowMs / 1000 + 300)%Z.

Definition executeTrade (params : TradeParams) : ST (State rt) string :=
  catchS
    (info ("Executing trade: " ++ amountIn params ++ " "
             ++ or_undefined (tokenIn params) ++ " -> "
             ++ or_undefined (tokenOut params)) ;;
     t <- call (fun c => let (t, c') := now rt c in (Return t, c')) ;;
     let deadline := deadlineAt t in
     hash <- call (contract_trade rt
                     (mkTradeCall (tokenIn params) (tokenOut params)
                        (amountIn params) (minAmountOut params) deadline)) ;;
     info ("Trade transaction sent: " ++ hash) ;;
     blockNumber <- call (tx_wait rt hash) ;;
     info ("Trade confirmed in block: " ++ show rt blockNumber) ;;
     retS hash)
    (fun e => error "Trade execution failed:" e ;; throwS e).

Definition addLiquidity (params : LiquidityParams) : ST (State rt) string :=
  catchS
    (info ("Adding liquidity to " ++ pair params ++ ": " ++ amountA params
             ++ " + " ++ amountB params) ;;
     let (tokenA, tokenB) := splitPair (pair params) in
     hash <- call (contract_addLiquidity rt
                     (mkLiquidityCall tokenA tokenB (amountA params)
                        (amountB params) "0" "0")) ;;
     info ("Liquidity transaction sent: " ++ hash) ;;
     blockNumber <- call (tx_wait rt hash) ;;
     info ("Liquidity confirmed in block: " ++ show rt blockNumber) ;;
     retS hash)
    (fun e => error "Add liquidity failed:" e ;; throwS e).

Definition getActivePairs : ST (State rt) (list string) :=
  catchS
    (pairIds <- call (contract_getActivePairs rt) ;;
     retS pairIds)
    (fun e => error "Failed to get active pairs:" e ;; retS []).

(** [null] is [None]. *)
Definition getPairDetails (pairId : string) : ST (State rt) (option PairDetails) :=
  catchS
    (details <- call (contract_getPairDetails rt pairId) ;;
     retS (Some (mkPairDetails (t_tokenA details) (t_tokenB details)
                   (show rt (t_reserveA details)) (show rt (t_reserveB details))
                   (t_lastUpdateTime details) (t_isActive details)
                   (show rt (t_totalLiquidity details)) (t_feeRate details))))
    (fun e => error "Failed to get pair details:" e ;; retS None).

End Client.

(** A chain that cannot be reached: every call to the provider or the
    contract throws. *)
Definition unreachable : Runtime :=
  mkRuntime unit
    (fun c => (0%Z, c))
    (fun c => (Throw (mkError "network unreachable"), c))
    (fun c => (Throw (mkError "network unreachable"), c))
    (fun _ c => (Throw (mkError "network unreachable"), c))
    (fun _ c => (Throw (mkError "network unreachable"), c))
    (fun _ c => (Throw (mkError "network unreachable"), c))
    (fun c => (Throw (mkError "network unreachable"), c))
    (fun _ c => (Throw (mkError "network unreachable"), c))
    (fun _ => "0").

End Hyperion.

(** ** Trading loop and signal execution of
       [ai-agents/src/agents/TradingAgent.ts] *)

Module AiTrading.

(** What the tool handler passes to [generateRecommendation]. *)
Record PricePrediction := mkPricePrediction {
  predictedPrice : Q;
  pp_confidence : Q;
  trend : Q;
  volatility : Q
}.

Record LiquidityAnalysis := mkLiquidityAnalysis { la_confidence : Q }.

Record MevRisk := mkMevRisk {
  level : AiAgents.RiskLevel;
  detected : bool
}.

(** The other collaborators: the market data provider and the liquidity
    optimizer are calls that return or throw; [Ext] is their state and
    that of the price predictor and of the MEV detector, which only the
    tool handlers of the Alith agent use.  [showNumber] renders a number
    in a template. *)
Record Services := mkServices {
  Ext : Type;
  provider_connect : Ext -> completion unit * Ext;
  provider_disconnect : Ext -> completion unit * Ext;
  provider_getAllMarketData : Ext -> completion (list AiAgents.MarketData) * Ext;
  optimizer_calculateOptimalAmounts :
    AiAgents.MarketData -> Q -> Ext -> completion (string * string) * Ext;
  showNumber : Q -> string
}.

Section Agent.

Variable art : AiAgents.Runtime.
Variable hrt : Hyperion.Runtime.
Variable sv : Services.

(** The running flag, the lines of the agent's logger, the Alith agent,
    the chain client and the other collaborators. *)
Record State := mkState {
  isRunning : bool;
  lines : list Line;
  agentEnv : AiAgents.Env art;
  client : Hyperion.State hrt;
  ext : Ext sv
}.

Local Open Scope st_scope.

Definition info (text : string) : ST State unit :=
  fun s =>
    (Return tt,
     mkState (isRunning s) (lines s ++ [Info text]) (agentEnv s) (client s) (ext s)).

Definition error (text : string) (e : JsError) : ST State unit :=
  fun s =>
    (Return tt,
     mkState (isRunning s) (lines s ++ [Error text e]) (agentEnv s) (client s)
       (ext s)).

Definition set_isRunning (b : bool) : ST State unit :=
  fun s => (Return tt, mkState b (lines s) (agentEnv s) (client s) (ext s)).

(** A method of the chain client. *)
Definition onClient {A} (m : ST (Hyperion.State hrt) A) : ST State A :=
  fun s =>
    let (r, c) := m (client s) in
    (r, mkState (isRunning s) (lines s) (agentEnv s) c (ext s)).

Definition onExt {A} (f : Ext sv -> completion A * Ext sv) : ST State A :=
  fun s =>
    let (r, x) := f (ext s) in
    (r, mkState (isRunning s) (lines s) (agentEnv s) (client s) x).

(** All that a run of the Alith agent can reach: its own state and,
    through the handlers that [setupToolHandlers] registers on it, the
    chain client ([execute_trade] calls [hyperionClient.executeTrade])
    and the other collaborators ([analyze_market_data],
    [predict_price_movement], [optimize_liquidity] and [detect_mev_risk]
    call the predictor, the optimizer and the detector). *)
Definition Reach : Type :=
  (AiAgents.Env art * Hyperion.State hrt * Ext sv)%type.

(** [agent.run] of the agent that carries these handlers: a call that
    returns or throws, and that may change all it reaches. *)
Variable run :
  string -> AiAgents.MarketData -> Reach -> completion string * Reach.

(** The Alith agent with its tools, as the analysis sees it. *)
Definition agentWithTools : AiAgents.Runtime :=
  AiAgents.mkRuntime Reach (AiAgents.renderPrompt art) run.

(** [analyzeMarketAndGenerateSignal] on what the agent reaches; the
    error lines it logs join the lines of the logger. *)
Definition analyze (marketData : AiAgents.MarketData)
  : ST State AiAgents.TradingSignal :=
  fun s =>
    let (r, w) :=
      AiAgents.analyzeMarketAndGenerateSignal agentWithTools marketData
        (@AiAgents.mkWorld agentWithTools [] (agentEnv s, client s, ext s)) in
    let '(a, c, x) := AiAgents.env w in
    (r,
     mkState (isRunning s)
       (lines s ++ map (fun l => Error (fst l) (snd l)) (AiAgents.errors w))
       a c x).

(** The agent calls no tool that reaches the chain client. *)
Definition leaves_client : Prop :=
  forall prompt marketData a c x,
    snd (fst (snd (run prompt marketData (a, c, x)))) = c.

Definition actionName (a : AiAgents.SignalAction) : string :=
  match a with
  | AiAgents.BUY => "BUY"
  | AiAgents.SELL => "SELL"
  | AiAgents.HOLD => "HOLD"
  | AiAgents.ADD_LIQUIDITY => "ADD_LIQUIDITY"
  end.

Definition isBuy (a : AiAgents.SignalAction) : bool :=
  match a with
  | AiAgents.BUY => true
  | _ => false
  end.

(** [x || d] for an optional string: [undefined] and [""] are falsy. *)
Definition or_default (x : option string) (d : string) : string :=
  match x with
  | Some EmptyString => d
  | Some v => v
  | None => d
  end.

(** The parameters [executeTrade] passes to the chain client. *)
Definition tradeParams (signal : AiAgents.TradingSignal)
  (marketData : AiAgents.MarketData) : Hyperion.TradeParams :=
  let (tokenA, tokenB) := splitPair (AiAgents.pair marketData) in
  Hyperion.mkTradeParams
    (if isBuy (AiAgents.action signal) then tokenB else tokenA)
    (if isBuy (AiAgents.action signal) then tokenA else tokenB)
    (or_default (AiAgents.amount signal) "1000000000000000000")
    "0"
    (Some (AiAgents.mevRisk signal)).

Definition executeTrade (signal : AiAgents.TradingSignal)
  (marketData : AiAgents.MarketData) : ST State unit :=
  onClient (Hyperion.executeTrade hrt (tradeParams signal marketData)) ;;
  info ("Executed " ++ actionName (AiAgents.action signal) ++ " for "
          ++ AiAgents.pair marketData ++ " with confidence "
          ++ showNumber sv (AiAgents.confidence signal) ++ "%").

Definition addLiquidity (signal : AiAgents.TradingSignal)
  (marketData : AiAgents.MarketData) : ST State unit :=
  optimizedAmounts <-
    onExt (optimizer_calculateOptimalAmounts sv marketData
             (AiAgents.expectedPrice signal)) ;;
  onClient (Hyperion.addLiquidity hrt
              (Hyperion.mkLiquidityParams (AiAgents.pair marketData)
                 (fst optimizedAmounts) (snd optimizedAmounts))) ;;
  info ("Added optimized liquidity for " ++ AiAgents.pair marketData).

Definition executeTradingSignal (signal : AiAgents.TradingSignal)
  (marketData : AiAgents.MarketData) : ST State unit :=
  info ("Executing trading signal: " ++ actionName (AiAgents.action signal)
          ++ " for " ++ AiAgents.pair marketData) ;;
  catchS
    (match AiAgents.action signal with
     | AiAgents.BUY | AiAgents.SELL => executeTrade signal marketData
     | AiAgents.ADD_LIQUIDITY => addLiquidity signal marketData
     | AiAgents.HOLD =>
         info ("Holding position for " ++ AiAgents.pair marketData)
     end)
    (fun e => error "Error executing trading signal:" e).

(** The [for] loop of [startTradingLoop] over the markets of one round. *)
Fixpoint forMarkets (markets : list AiAgents.MarketData) : ST State unit :=
  match markets with
  | [] => retS tt
  | market :: rest =>
      signal <- analyze market ;;
      (if AiAgents.highConfidence signal
       then executeTradingSignal signal market
       else retS tt) ;;
      forMarkets rest
  end.

(** What the analyses of [markets] alone leave of the state. *)
Definition analysed (markets : list AiAgents.MarketData) (s : State) : State :=
  fold_left (fun st market => snd (analyze market st)) markets s.

(** One round of the [while] loop of [startTradingLoop]; the two pauses
    ([updateInterval], and 5000 ms after an error) take no part in the
    state. *)
Definition round : ST State unit :=
  catchS
    (marketData <- onExt (provider_getAllMarketData sv) ;;
     forMarkets marketData)
    (fun e => error "Error in trading loop:" e).

(** [start] up to the launch of the loop, which it does not await. *)
Definition start : ST State unit :=
  info "Starting FlashTrade AI Trading Agent..." ;;
  set_isRunning true ;;
  onClient (Hyperion.connect hrt) ;;
  onExt (provider_connect sv).

Definition stop : ST State unit :=
  info "Stopping Trading Agent..." ;;
  set_isRunning false ;;
  onClient (Hyperion.disconnect hrt) ;;
  onExt (provider_disconnect sv) ;;
  info "Trading Agent stopped".

Definition generateRecommendation (pricePrediction : PricePrediction)
  (liquidityAnalysis : LiquidityAnalysis) (mevRisk : MevRisk)
  : AiAgents.TradingSignal :=
  AiAgents.mkSignal
    (if Qgtb (trend pricePrediction) 0 then AiAgents.BUY else AiAgents.SELL)
    (Math_min (pp_confidence pricePrediction) (la_confidence liquidityAnalysis))
    None
    (predictedPrice pricePrediction)
    (level mevRisk)
    (detected mevRisk).

End Agent.

(** A provider without markets and an optimizer that proposes nothing. *)
Definition idle : Services :=
  mkServices unit
    (fun e => (Return tt, e))
    (fun e => (Return tt, e))
    (fun e => (Return [], e))
    (fun _ _ e => (Return ("0", "0"), e))
    (fun _ => "0").

End AiTrading.

(** ** The market predictor (the [PricePredictor] that works on market
       data and keeps a history)

    TensorFlow, and the functions [Math.log], [Math.tanh], [Math.sqrt]
    and [parseFloat], are outside the model: one inference on the
    prepared rows, the making of the training tensors and one fit are
    calls that return or throw. *)

Module MarketPredictor.

Definition sequenceLength : nat := 60.

Record Runtime := mkRuntime {
  Env : Type;
  tf_predict : list (Q * Q * Q) -> Env -> completion Q * Env;
  tf_tensors : list (list (Q * Q * Q)) -> list Q -> Env -> completion unit * Env;
  tf_fit : Env -> completion unit * Env;
  Date_now : Env -> Q * Env;
  Math_log : Q -> Q;
  Math_tanh : Q -> Q;
  Math_sqrt : Q -> Q;
  parseFloat : string -> Q
}.

Record State (rt : Runtime) := mkState {
  model : bool;
  isTraining : bool;
  historicalData : list AiAgents.MarketData;
  lines : list Line;
  env : Env rt
}.
Arguments mkState {rt} _ _ _ _ _.
Arguments model {rt} _.
Arguments isTraining {rt} _.
Arguments historicalData {rt} _.
Arguments lines {rt} _.
Arguments env {rt} _.

(** The result of [predictMovement]. *)
Record Movement := mkMovement {
  m_pair : string;
  m_timeframe : string;
  currentPrice : Q;
  m_predictedPrice : Q;
  priceChange : Q;
  m_confidence : Q;
  m_trend : Q;
  m_volatility : Q;
  m_timestamp : Q
}.

(** [l.slice(-n)] for [n >= 1]. *)
Definition lastn {A} (n : nat) (l : list A) : list A :=
  skipn (List.length l - n) l.

Definition sum (l : list Q) : Q := fold_left Qplus l 0.

Section Methods.

Variable rt : Runtime.

Local Open Scope st_scope.

Definition log (l : Line) : ST (State rt) unit :=
  fun s =>
    (Return tt,
     mkState (model s) (isTraining s) (historicalData s) (lines s ++ [l]) (env s)).

Definition set_history (h : list AiAgents.MarketData) : ST (State rt) unit :=
  fun s => (Return tt, mkState (model s) (isTraining s) h (lines s) (env s)).

Definition set_isTraining (b : bool) : ST (State rt) unit :=
  fun s => (Return tt, mkState (model s) b (historicalData s) (lines s) (env s)).

Definition get {A} (f : State rt -> A) : ST (State rt) A :=
  fun s => (Return (f s), s).

Definition call {A} (f : Env rt -> completion A * Env rt) : ST (State rt) A :=
  fun s =>
    let (r, e) := f (env s) in
    (r, mkState (model s) (isTraining s) (historicalData s) (lines s) e).

Definition normalizePrice (price : Q) : Q := Math_log rt (price + 1) / 10.

Definition normalizeVolume (volume : Q) : Q := Math_min (volume / 1000000) 1.

Definition normalizeReserveRatio (reserveA reserveB : string) : Q :=
  let ratio := parseFloat rt reserveA / parseFloat rt reserveB in
  Math_tanh rt ratio.

Definition row (data : AiAgents.MarketData) : Q * Q * Q :=
  (normalizePrice (AiAgents.price data),
   normalizeVolume (AiAgents.volume24h data),
   normalizeReserveRatio (AiAgents.reserveA data) (AiAgents.reserveB data)).

(** The rows [prepareInputData] gives to the network. *)
Definition prepareInputData (history : list AiAgents.MarketData)
  : list (Q * Q * Q) :=
  map row (lastn sequenceLength history).

Definition calculateConfidence (history : list AiAgents.MarketData) : Q :=
  let dataQuality := Math_min (inject_Z (Z.of_nat (List.length history)) / 100) 1 in
  let recencyFactor := 0.8 in
  dataQuality * recencyFactor * 100.

Definition analyzeTrend (currentPrice predictedPrice : Q) : Q :=
  let change := (predictedPrice - currentPrice) / currentPrice in
  if Qgtb change 0.02 then 1
  else if Qltb change (-0.02) then -1
  else 0.

Definition calculateVolatility (history : list AiAgents.MarketData) : Q :=
  if (List.length history <? 20)%nat then 0.5
  else
    let prices := map AiAgents.price (lastn 20 history) in
    let mean := sum prices / inject_Z (Z.of_nat (List.length prices)) in
    let variance :=
      fold_left (fun a b => a + (b - mean) * (b - mean)) prices 0
      / inject_Z (Z.of_nat (List.length prices)) in
    Math_sqrt rt variance / mean.

Definition getTimeframeMultiplier (timeframe : string) : Q :=
  if String.eqb timeframe "1m" then 1.001
  else if String.eqb timeframe "5m" then 1.005
  else if String.eqb timeframe "15m" then 1.015
  else if String.eqb timeframe "1h" then 1.06
  else if String.eqb timeframe "4h" then 1.24
  else if String.eqb timeframe "1d" then 1.5
  else 1.1.

Definition getBasicPrediction (marketData : AiAgents.MarketData)
  : AiTrading.PricePrediction :=
  AiTrading.mkPricePrediction (AiAgents.price marketData * 1.001) 30 0 0.1.

Definition predict (marketData : AiAgents.MarketData)
  : ST (State rt) AiTrading.PricePrediction :=
  catchS
    (present <- get model ;;
     (if present then retS tt else throwS (mkError "Model not initialized")) ;;
     h <- get historicalData ;;
     set_history (h ++ [marketData]) ;;
     h <- get historicalData ;;
     (if (1000 <? List.length h)%nat then set_history (lastn 1000 h) else retS tt) ;;
     h <- get historicalData ;;
     if (List.length h <? sequenceLength)%nat then
       retS (getBasicPrediction marketData)
     else
       predictedPrice <- call (tf_predict rt (prepareInputData h)) ;;
       let confidence := calculateConfidence h in
       let trend := analyzeTrend (AiAgents.price marketData) predictedPrice in
       let volatility := calculateVolatility h in
       retS (AiTrading.mkPricePrediction predictedPrice confidence trend volatility))
    (fun e => log (Error "Prediction failed:" e) ;;
              retS (getBasicPrediction marketData)).

(** [null] is [None]. *)
Definition predictMovement (pair timeframe : string)
  (provided : option (list AiAgents.MarketData))
  : ST (State rt) (option Movement) :=
  catchS
    (match provided with
     | Some (d :: l) => set_history (lastn 1000 (d :: l))
     | _ => retS tt
     end ;;
     h <- get historicalData ;;
     match last (map Some h) None with
     | None => throwS (mkError "No data available for prediction")
     | Some latestData =>
         prediction <- predict latestData ;;
         let timeframeMultiplier := getTimeframeMultiplier timeframe in
         t <- call (fun e => let (t, e') := Date_now rt e in (Return t, e')) ;;
         retS (Some (mkMovement pair timeframe (AiAgents.price latestData)
                       (AiTrading.predictedPrice prediction * timeframeMultiplier)
                       ((AiTrading.predictedPrice prediction
                         - AiAgents.price latestData)
                        / AiAgents.price latestData * 100)
                       (AiTrading.pp_confidence prediction)
                       (AiTrading.trend prediction)
                       (AiTrading.volatility prediction) t))
     end)
    (fun e => log (Error "Movement prediction failed:" e) ;; retS None).

(** The history [predictMovement] works on: the last 1000 of the data it
    is given, or the history it holds when it is given none. *)
Definition adopted (provided : option (list AiAgents.MarketData))
  (history : list AiAgents.MarketData) : list AiAgents.MarketData :=
  match provided with
  | Some (d :: l) => lastn 1000 (d :: l)
  | _ => history
  end.

(** The sequences and targets of [prepareTrainingData], for the indices
    [i] from [sequenceLength] up to the length of the history. *)
Definition trainingPairs (history : list AiAgents.MarketData)
  : list (list (Q * Q * Q) * Q) :=
  flat_map
    (fun i =>
       match nth_error history i with
       | Some target =>
           [(map row (firstn sequenceLength (skipn (i - sequenceLength) history)),
             normalizePrice (AiAgents.price target))]
       | None => []
       end)
    (seq sequenceLength (List.length history - sequenceLength)).

Definition trainIncremental (newData : list AiAgents.MarketData)
  : ST (State rt) unit :=
  fun s =>
    if isTraining s || negb (model s) then (Return tt, s)
    else
      let body :=
        set_isTraining true ;;
        log (Info "Starting incremental training...") ;;
        h <- get historicalData ;;
        set_history (h ++ newData) ;;
        h <- get historicalData ;;
        let pairs := trainingPairs h in
        call (tf_tensors rt (map fst pairs) (map snd pairs)) ;;
        if (List.length pairs <? 10)%nat then
          log (Warn "Insufficient data for training")
        else
          call (tf_fit rt) ;;
          log (Info "Incremental training completed") in
      let (r, s1) := catchS body (fun e => log (Error "Training failed:" e)) s in
      (r, snd (set_isTraining false s1)).

End Methods.

(** A runtime whose network answers [y] to every inference and whose
    tensors and fits succeed; the clock stands at [0], and the
    mathematical functions, which only feed the network, are the
    identity. *)
Definition constant (y : Q) : Runtime :=
  mkRuntime unit
    (fun _ e => (Return y, e))
    (fun _ _ e => (Return tt, e))
    (fun e => (Return tt, e))
    (fun e => (0, e))
    (fun x => x) (fun x => x) (fun x => x)
    (fun _ => 1).

(** A runtime whose TensorFlow calls all throw. *)
Definition broken : Runtime :=
  mkRuntime unit
    (fun _ e => (Throw (mkError "tf"), e))
    (fun _ _ e => (Throw (mkError "tf"), e))
    (fun e => (Throw (mkError "tf"), e))
    (fun e => (0, e))
    (fun x => x) (fun x => x) (fun x => x)
    (fun _ => 1).

(** The predictor once the constructor's [initializeModel] has set the
    model: no data, not training. *)
Definition fresh (rt : Runtime) (e : Env rt) : State rt :=
  mkState true false [] [] e.

(** A data point at price [p]. *)
Definition tick (p : Q) : AiAgents.MarketData :=
  AiAgents.mkMarketData "METIS/USDC" "1000" "2000" p 500000 0.

End MarketPredictor.


(** * Properties *)

(** ** Comparisons *)

Lemma Qltb_lt (a b : Q) : Qltb a b = true <-> a < b.
Proof.
  unfold Qltb. rewrite Qlt_alt. destruct (a ?= b); split; congruence.
Qed.

Lemma Qltb_ge (a b : Q) : Qltb a b = false <-> b <= a.
Proof.
  split; intro H.
  - apply Qnot_lt_le. intro Hlt. apply Qltb_lt in Hlt. congruence.
  - destruct (Qltb a b) eqn:E; [|reflexivity].
    apply Qltb_lt in E. exfalso. exact (Qlt_not_le _ _ E H).
Qed.

Lemma Qgtb_gt (a b : Q) : Qgtb a b = true <-> b < a.
Proof. apply Qltb_lt. Qed.

(** ** Confidence scoring *)

Lemma volatility_nonneg (a b p : Q) : 0 < p -> 0 <= Math_abs (a - b) / p.
Proof.
  intro Hp. apply Qle_shift_div_l; [exact Hp|].
  rewrite Qmult_0_l. apply Qabs_nonneg.
Qed.

Lemma baseConfidence_bounds (v : Q) :
  0 <= v -> 0.1 <= Math_max 0.1 (1 - v) <= 1.
Proof.
  intro Hv. unfold Math_max. split.
  - apply Q.le_max_l.
  - apply Q.max_lub; lra.
Qed.

Lemma trendConfidence_cases (c : option Q) :
  (if Qgtb (Math_abs (or_else c 0)) 0.02 then 0.8 else 0.6) = 0.8
  \/ (if Qgtb (Math_abs (or_else c 0)) 0.02 then 0.8 else 0.6) = 0.6.
Proof. destruct (Qgtb _ _); [left|right]; reflexivity. Qed.

Lemma capped_product_bounds (b t : Q) :
  0.1 <= b <= 1 -> t = 0.8 \/ t = 0.6 ->
  0.06 <= Math_min 0.95 (b * t) <= 0.8.
Proof.
  intros [Hlo Hhi] Ht. unfold Math_min.
  destruct (Q.min_spec 0.95 (b * t)) as [[Hlt ->]|[Hle ->]];
    destruct Ht as [-> | ->]; lra.
Qed.

(** C5. For a snapshot with positive price, whatever the optional fields
    and the predicted price, the confidence lies in [0.05, 0.95]; the
    effective minimum is 0.06 (baseConfidence >= 0.1 times
    trendConfidence in {0.6, 0.8}), reached when the 24 h range is as
    wide as the price; the cap 0.95 bounds it above. *)
Theorem calculateConfidence_range (marketData : MarketData) (prediction : Q) :
  0 < price marketData ->
  0.05 <= calculateConfidence marketData prediction <= 0.95
  /\ 0.06 <= calculateConfidence marketData prediction
  /\ (exists snapshot,
        0 < price snapshot /\ calculateConfidence snapshot prediction == 0.06).
Proof.
  intro Hp. split; [|split].
  - unfold calculateConfidence.
    pose proof (volatility_nonneg
                  (or_else (high24h marketData) (price marketData))
                  (or_else (low24h marketData) (price marketData)) _ Hp) as Hv.
    pose proof (baseConfidence_bounds _ Hv) as Hb.
    pose proof (capped_product_bounds _ _ Hb
                  (trendConfidence_cases (change24h marketData))) as [H1 H2].
    cbv zeta. split; lra.
  - unfold calculateConfidence.
    pose proof (volatility_nonneg
                  (or_else (high24h marketData) (price marketData))
                  (or_else (low24h marketData) (price marketData)) _ Hp) as Hv.
    pose proof (baseConfidence_bounds _ Hv) as Hb.
    pose proof (capped_product_bounds _ _ Hb
                  (trendConfidence_cases (change24h marketData))) as [H1 H2].
    cbv zeta. lra.
  - exists (mkMarketData "ETH" 100 0 0 (Some 200) (Some 100) None).
    split; reflexivity.
Qed.

(** Price 100 between low 95 and high 105 with a 3% daily change:
    volatility 0.1, base 0.9, trend 0.8, confidence 0.72. *)
Lemma calculateConfidence_range_witness :
  0.05 <= calculateConfidence
            (mkMarketData "ETH" 100 5000 0 (Some 105) (Some 95) (Some 0.03)) 103
       <= 0.95
  /\ 0.06 <= calculateConfidence
               (mkMarketData "ETH" 100 5000 0 (Some 105) (Some 95) (Some 0.03)) 103
  /\ (exists snapshot,
        0 < price snapshot /\ calculateConfidence snapshot 103 == 0.06).
Proof.
  apply (calculateConfidence_range
           (mkMarketData "ETH" 100 5000 0 (Some 105) (Some 95) (Some 0.03)) 103).
  reflexivity.
Defined.

(** C9. The confidence depends only on the price, high24h, low24h and
    change24h of the snapshot: two calls on snapshots that agree on these
    fields return the same value whatever the two predicted prices (and
    whatever the symbol, volume and timestamp); in particular two calls
    on one snapshot with different predictions agree. *)
Theorem calculateConfidence_ignores_prediction
  (marketData1 marketData2 : MarketData) (prediction1 prediction2 : Q) :
  price marketData1 = price marketData2 ->
  high24h marketData1 = high24h marketData2 ->
  low24h marketData1 = low24h marketData2 ->
  change24h marketData1 = change24h marketData2 ->
  calculateConfidence marketData1 prediction1
  = calculateConfidence marketData2 prediction2.
Proof.
  intros Hp Hh Hl Hc. unfold calculateConfidence.
  rewrite Hp, Hh, Hl, Hc. reflexivity.
Qed.

(** One snapshot, predictions 90 and 110. *)
Lemma calculateConfidence_ignores_prediction_witness :
  calculateConfidence
    (mkMarketData "ETH" 100 5000 0 (Some 105) (Some 95) (Some 0.03)) 90
  = calculateConfidence
      (mkMarketData "ETH" 100 5000 0 (Some 105) (Some 95) (Some 0.03)) 110.
Proof.
  apply (calculateConfidence_ignores_prediction
           (mkMarketData "ETH" 100 5000 0 (Some 105) (Some 95) (Some 0.03))
           (mkMarketData "ETH" 100 5000 0 (Some 105) (Some 95) (Some 0.03))
           90 110); reflexivity.
Defined.

(** ** Position sizing *)

(** C3. For balance >= 0, confidence in [0,1] and riskTolerance,
    maxPositionSize in [0,1], the position size is exactly
    min(balance * riskTolerance * confidence, balance * maxPositionSize)
    and lies in [0, balance * maxPositionSize]; balance 1000,
    riskTolerance 0.1, maxPositionSize 0.05, confidence 0.8 give 50. *)
Theorem calculatePositionSize_spec (config : Config) (balance confidence : Q) :
  0 <= balance ->
  0 <= confidence <= 1 ->
  0 <= riskTolerance config <= 1 ->
  0 <= maxPositionSize config <= 1 ->
  calculatePositionSize config balance confidence
    == Qmin (balance * riskTolerance config * confidence)
            (balance * maxPositionSize config)
  /\ 0 <= calculatePositionSize config balance confidence
       <= balance * maxPositionSize config
  /\ (forall n m, calculatePositionSize (mkConfig n 0.1 0.05 m) 1000 0.8 == 50).
Proof.
  intros Hb [Hc0 Hc1] [Hr0 Hr1] [Hm0 Hm1].
  split; [reflexivity|]. unfold calculatePositionSize, Math_min. cbv zeta.
  split; [split|].
  - apply Q.min_glb.
    + apply Qmult_le_0_compat; [apply Qmult_le_0_compat|]; assumption.
    + apply Qmult_le_0_compat; assumption.
  - apply Q.le_min_r.
  - intros n m. reflexivity.
Qed.

Lemma calculatePositionSize_spec_witness :
  calculatePositionSize Scripted.config 1000 0.8
    == Qmin (1000 * 0.1 * 0.8) (1000 * 0.05)
  /\ 0 <= calculatePositionSize Scripted.config 1000 0.8 <= 1000 * 0.05
  /\ (forall n m, calculatePositionSize (mkConfig n 0.1 0.05 m) 1000 0.8 == 50).
Proof.
  apply (calculatePositionSize_spec Scripted.config 1000 0.8); simpl; lra.
Defined.

(** C4, counterexample.  With balance -1000 (riskTolerance 0.1,
    maxPositionSize 0.05, confidence 0.8) the call returns an amount,
    -80; with riskTolerance 2 and balance 1000 it returns 50. *)
Lemma sizing_accepts_invalid_input :
  ~ sizing_rejects_invalid_input
  /\ (exists a, calculatePositionSize_call Scripted.config (-1000) 0.8 = Return a
                /\ a == -80)
  /\ (exists a, calculatePositionSize_call (mkConfig "agent" 2 0.05 0.5) 1000 0.8
                  = Return a /\ a == 50).
Proof.
  split; [|split].
  - intro H.
    destruct (H Scripted.config (-1000) 0.8) as [e He].
    + right; right. reflexivity.
    + discriminate He.
  - eexists; split; reflexivity.
  - eexists; split; reflexivity.
Qed.

(** C4, as the code has it.  Position sizing checks nothing and never
    fails: for every configuration, balance and confidence, valid or not,
    the call returns min(balance * riskTolerance * confidence,
    balance * maxPositionSize). *)
Theorem calculatePositionSize_total (config : Config) (balance confidence : Q) :
  exists a,
    calculatePositionSize_call config balance confidence = Return a
    /\ a == Qmin (balance * riskTolerance config * confidence)
                 (balance * maxPositionSize config).
Proof. eexists; split; reflexivity. Qed.

(** ** Decision rule *)

Section Decision.

Variable rt : Runtime.
Variable config : Config.

(** C1. When the confidence is strictly below [minConfidence] the
    decision is HOLD, without amount, and its reason cites the confidence
    and the threshold, whatever the predicted price and the snapshot. *)
Theorem makeDecision_confidence_gate (context : TradingContext) :
  ctx_confidence context < minConfidence config ->
  makeDecision rt config context
  = mkDecision hold (ctx_confidence context) None
      ("Confidence " ++ toFixed rt (ctx_confidence context) 2
         ++ " below threshold " ++ Number_toString rt (minConfidence config))%string.
Proof.
  intro H. apply Qltb_lt in H. unfold makeDecision. cbv zeta. rewrite H.
  reflexivity.
Qed.

(** C2. When the confidence gate is passed and the price is not 0, with
    priceChange = (prediction - price) / price: BUY when
    priceChange > 0.02 and |priceChange| > 0.01, SELL when
    priceChange < -0.02 and |priceChange| > 0.01, otherwise HOLD with the
    reason "Price change ...% insufficient for action".  Price 100,
    prediction 103, confidence 0.8, minConfidence 0.5 give BUY; price 100,
    prediction 98.5, confidence 0.9 give HOLD.  (At price 0 the code
    divides by zero and priceChange is an infinity or NaN, which the
    rationals do not have.) *)
Theorem makeDecision_rule (context : TradingContext) :
  minConfidence config <= ctx_confidence context ->
  ~ price (ctx_marketData context) == 0 ->
  let priceChange :=
    (ctx_prediction context - price (ctx_marketData context))
    / price (ctx_marketData context) in
  let size :=
    calculatePositionSize config (balance (ctx_portfolio context))
      (ctx_confidence context) in
  (0.02 < priceChange /\ 0.01 < Qabs priceChange ->
   makeDecision rt config context
   = mkDecision buy (ctx_confidence context) (Some size)
       ("Predicted price increase of " ++ toFixed rt (priceChange * 100) 2 ++ "%")%string)
  /\ (priceChange < -0.02 /\ 0.01 < Qabs priceChange ->
      makeDecision rt config context
      = mkDecision sell (ctx_confidence context) (Some size)
          ("Predicted price decrease of " ++ toFixed rt (priceChange * 100) 2 ++ "%")%string)
  /\ (~ (0.02 < priceChange /\ 0.01 < Qabs priceChange) ->
      ~ (priceChange < -0.02 /\ 0.01 < Qabs priceChange) ->
      makeDecision rt config context
      = mkDecision hold (ctx_confidence context) None
          ("Price change " ++ toFixed rt (priceChange * 100) 2
             ++ "% insufficient for action")%string)
  /\ (forall n r m md p,
        price md = 100 ->
        action (makeDecision rt (mkConfig n r m 0.5) (mkContext md 103 0.8 p)) = buy)
  /\ (forall cfg md p,
        price md = 100 ->
        action (makeDecision rt cfg (mkContext md 98.5 0.9 p)) = hold).
Proof.
  intros Hgate _ priceChange size.
  apply Qltb_ge in Hgate.
  assert (Hbuy : Qgtb priceChange 0.02 && Qgtb (Math_abs priceChange) 0.01 = true
                 <-> 0.02 < priceChange /\ 0.01 < Qabs priceChange).
  { rewrite andb_true_iff, !Qgtb_gt. reflexivity. }
  assert (Hsell : Qltb priceChange (-0.02) && Qgtb (Math_abs priceChange) 0.01 = true
                  <-> priceChange < -0.02 /\ 0.01 < Qabs priceChange).
  { rewrite andb_true_iff, Qltb_lt, Qgtb_gt. reflexivity. }
  repeat split.
  - intro H. apply Hbuy in H. unfold makeDecision. cbv zeta. rewrite Hgate.
    fold priceChange. rewrite H. reflexivity.
  - intro H. assert (Hnb : ~ (0.02 < priceChange /\ 0.01 < Qabs priceChange)).
    { intros [H1 _]. destruct H as [H2 _]. lra. }
    apply Hsell in H. unfold makeDecision. cbv zeta. rewrite Hgate.
    fold priceChange.
    destruct (Qgtb priceChange 0.02 && Qgtb (Math_abs priceChange) 0.01) eqn:E.
    + exfalso. apply Hnb, Hbuy. reflexivity.
    + rewrite H. reflexivity.
  - intros Hnb Hns. unfold makeDecision. cbv zeta. rewrite Hgate.
    fold priceChange.
    destruct (Qgtb priceChange 0.02 && Qgtb (Math_abs priceChange) 0.01) eqn:E.
    { exfalso. apply Hnb, Hbuy. reflexivity. }
    destruct (Qltb priceChange (-0.02) && Qgtb (Math_abs priceChange) 0.01) eqn:E'.
    { exfalso. apply Hns, Hsell. reflexivity. }
    reflexivity.
  - intros n r m md p Hp. unfold makeDecision. cbv zeta. simpl. rewrite Hp.
    reflexivity.
  - intros cfg md p Hp. unfold makeDecision. cbv zeta. simpl. rewrite Hp.
    destruct (Qltb 0.9 (minConfidence cfg)); reflexivity.
Qed.

End Decision.

(** Scenario C: price 100, prediction 105, confidence 0.3, threshold 0.5. *)
Lemma makeDecision_confidence_gate_witness :
  makeDecision Scripted.runtime Scripted.config
    (mkContext (mkMarketData "ETH" 100 0 0 None None None) 105 0.3
       (mkPortfolio 1000 []))
  = mkDecision hold 0.3 None "Confidence 0.30 below threshold 0.5".
Proof.
  apply (makeDecision_confidence_gate Scripted.runtime Scripted.config
           (mkContext (mkMarketData "ETH" 100 0 0 None None None) 105 0.3
              (mkPortfolio 1000 []))).
  reflexivity.
Defined.

(** Scenario A: price 100, prediction 103, confidence 0.8, threshold 0.5. *)
Lemma makeDecision_rule_witness :
  makeDecision Scripted.runtime Scripted.config
    (mkContext (mkMarketData "ETH" 100 0 0 None None None) 103 0.8
       (mkPortfolio 1000 []))
  = mkDecision buy 0.8 (Some (calculatePositionSize Scripted.config 1000 0.8))
      "Predicted price increase of 3.00%".
Proof.
  apply (makeDecision_rule Scripted.runtime Scripted.config
           (mkContext (mkMarketData "ETH" 100 0 0 None None None) 103 0.8
              (mkPortfolio 1000 []))).
  - simpl. lra.
  - simpl. lra.
  - split; reflexivity.
Defined.

(** ** Trade execution wrapper *)

Section Execution.

Variable rt : Runtime.

Lemma executeTrade_hold (decision : TradingDecision) (symbol : string)
  (w : World rt) :
  action decision = hold ->
  executeTrade rt decision symbol w
  = (Return true, log_to rt INFO "No action required" (tradeMeta decision symbol) w).
Proof. intro H. unfold executeTrade. rewrite H. reflexivity. Qed.

Lemma executeTrade_client (decision : TradingDecision) (symbol : string)
  (w : World rt) :
  action decision <> hold ->
  executeTrade rt decision symbol w
  = let w1 := log_to rt INFO "Executing trade" (tradeMeta decision symbol) w in
    match hyperionClient_executeTrade rt (tradeRequest decision symbol) (env w) with
    | (Return true, e) =>
        (Return true,
         log_to rt INFO "Trade executed successfully" (tradeMeta decision symbol)
           (set_env rt w1 e))
    | (Return false, e) =>
        (Return false,
         log_to rt ERROR "Trade execution failed" (tradeMeta decision symbol)
           (set_env rt w1 e))
    | (Throw error, e) =>
        (Return false,
         log_to rt ERROR "Trade execution error"
           (tradeMeta decision symbol ++ [("error", MError error)])
           (set_env rt w1 e))
    end.
Proof.
  intro H. unfold executeTrade.
  destruct (action decision) eqn:Ha; try congruence;
    unfold try_catch, bind, external, logger_info, logger_error, ret; simpl;
    fold (tradeRequest decision symbol); unfold tradeRequest; rewrite Ha;
    destruct (hyperionClient_executeTrade rt _ (env w)) as [[[|]|error] e];
    reflexivity.
Qed.

End Execution.

Section ExecutionTotal.

Variable rt : Runtime.

(** C10. [executeTrade] always returns a boolean and never throws; a
    HOLD decision returns true, only logs, and leaves the outside world
    untouched (the client is not called); an exception of the client is
    caught and turned into false. *)
Theorem executeTrade_never_throws (decision : TradingDecision)
  (symbol : string) (w : World rt) :
  (exists b w', executeTrade rt decision symbol w = (Return b, w'))
  /\ (action decision = hold ->
      executeTrade rt decision symbol w
      = (Return true,
         log_to rt INFO "No action required" (tradeMeta decision symbol) w)
      /\ env (snd (executeTrade rt decision symbol w)) = env w)
  /\ (forall error e,
        action decision <> hold ->
        hyperionClient_executeTrade rt (tradeRequest decision symbol) (env w)
        = (Throw error, e) ->
        fst (executeTrade rt decision symbol w) = Return false).
Proof.
  split; [|split].
  - destruct (action decision) eqn:Ha.
    1,2: rewrite executeTrade_client by congruence; cbv zeta;
      destruct (hyperionClient_executeTrade rt _ (env w)) as [[[|]|error] e];
      eexists; eexists; reflexivity.
    rewrite executeTrade_hold by assumption. eexists; eexists; reflexivity.
  - intro Ha. rewrite executeTrade_hold by assumption. split; reflexivity.
  - intros error e Ha Hc. rewrite executeTrade_client by assumption.
    cbv zeta. rewrite Hc. reflexivity.
Qed.

End ExecutionTotal.

(** A SELL whose request the client rejects by throwing: the wrapper
    returns false; the request was received once. *)
Lemma executeTrade_never_throws_witness :
  let decision := mkDecision sell 0.8 (Some 50) "Predicted price decrease of 3.00%" in
  let w := Scripted.initialized
             (Scripted.mkScript [] 0 [] [Throw (mkError "nonce too low")] []) in
  fst (executeTrade Scripted.runtime decision "ETH" w) = Return false.
Proof.
  intros decision w.
  apply (proj2 (proj2 (executeTrade_never_throws Scripted.runtime decision "ETH" w))
           (mkError "nonce too low")
           (Scripted.mkScript [] 0 [] [] [tradeRequest decision "ETH"])).
  - discriminate.
  - reflexivity.
Defined.

(** ** The trading loop *)

Section Loop.

Variable rt : Runtime.
Variable config : Config.

Lemma iteration_returns (symbol : string) (w : World rt) :
  fst (iteration rt config symbol w) = Return tt.
Proof.
  unfold iteration, try_catch.
  destruct (symbolCycle rt config symbol w) as [[[]|e] w']; reflexivity.
Qed.

Lemma tradingLoop_cons (symbol : string) (rest : list string) (w : World rt) :
  tradingLoop rt config (symbol :: rest) w
  = tradingLoop rt config rest (snd (iteration rt config symbol w)).
Proof.
  simpl. unfold bind.
  pose proof (iteration_returns symbol w) as H.
  destruct (iteration rt config symbol w) as [r w']. simpl in *. subst r.
  reflexivity.
Qed.

Lemma tradingLoop_returns (symbols : list string) (w : World rt) :
  fst (tradingLoop rt config symbols w) = Return tt.
Proof.
  revert w. induction symbols as [|symbol rest IH]; intro w.
  - reflexivity.
  - rewrite tradingLoop_cons. apply IH.
Qed.

Lemma tradingLoop_app (pre post : list string) (w : World rt) :
  tradingLoop rt config (pre ++ post) w
  = tradingLoop rt config post (snd (tradingLoop rt config pre w)).
Proof.
  revert w. induction pre as [|symbol pre IH]; intro w.
  - reflexivity.
  - rewrite <- app_comm_cons, !tradingLoop_cons. apply IH.
Qed.

(** C7. One tick over [symbols] always completes, and for every symbol
    of the list, whatever happened to the symbols before it: its full
    cycle (analysis, execution, pause) is run in the world they left; if
    the cycle throws, the error is logged with the symbol and nothing
    else changes; and the remaining symbols are processed afterwards. *)
Theorem tradingLoop_isolates_failures (symbols : list string) (w : World rt) :
  fst (tradingLoop rt config symbols w) = Return tt
  /\ forall pre symbol post,
       symbols = pre ++ symbol :: post ->
       let w1 := snd (tradingLoop rt config pre w) in
       let w2 :=
         match symbolCycle rt config symbol w1 with
         | (Return _, w') => w'
         | (Throw error, w') =>
             log_to rt ERROR "Trading loop error"
               [("symbol", MString symbol); ("error", MError error)] w'
         end in
       tradingLoop rt config symbols w = tradingLoop rt config post w2.
Proof.
  split; [apply tradingLoop_returns|].
  intros pre symbol post -> w1 w2.
  rewrite tradingLoop_app, tradingLoop_cons. fold w1. f_equal.
  unfold iteration, try_catch, w2.
  destruct (symbolCycle rt config symbol w1) as [[[]|e] w']; reflexivity.
Qed.

End Loop.

(** Scenario E: three symbols, the prediction for the second one fails.
    The first and the third are analysed and traded, the failure of the
    second is logged, and the tick completes. *)
Lemma tradingLoop_isolates_failures_witness :
  let w := Scripted.initialized
             (Scripted.mkScript [] 0
                [Return 110; Throw (mkError "inference failed"); Return 100]
                [] []) in
  let r := tradingLoop Scripted.runtime Scripted.config ["ETH"; "BTC"; "METIS"] w in
  fst r = Return tt
  /\ map log_message (logs (snd r))
     = ["Analyzing market"; "Market analysis complete";
        "Executing trade"; "Trade executed successfully";
        "Analyzing market"; "Market analysis failed"; "Trading loop error";
        "Analyzing market"; "Market analysis complete";
        "Executing trade"; "Trade executed successfully"]
  /\ map (fun q => (req_action q, req_symbol q)) (Scripted.requests (env (snd r)))
     = [(buy, "ETH"); (sell, "METIS")].
Proof.
  intros w r. split.
  - apply (tradingLoop_isolates_failures Scripted.runtime Scripted.config).
  - unfold r.
    rewrite (proj2 (tradingLoop_isolates_failures Scripted.runtime
                      Scripted.config ["ETH"; "BTC"; "METIS"] w)
               ["ETH"] "BTC" ["METIS"] eq_refl).
    vm_compute. split; reflexivity.
Defined.

(** ** Prediction failure *)

Section PredictionFailure.

Variable rt : Runtime.
Variable config : Config.

Lemma analyzeMarket_prediction_throws (symbol : string) (w : World rt)
  (marketData : MarketData) (w1 : World rt) (error : JsError) (e2 : Env rt) :
  isInitialized w = true ->
  beforePrediction rt symbol w = (Return marketData, w1) ->
  predictor_predict rt [price marketData] (env w1) = (Throw error, e2) ->
  analyzeMarket rt config symbol w
  = (Throw error,
     log_to rt ERROR "Market analysis failed"
       [("symbol", MString symbol); ("error", MError error)]
       (set_env rt w1 e2)).
Proof.
  intros Hi Hb Hp. unfold analyzeMarket. rewrite Hi. simpl negb. cbv iota.
  unfold beforePrediction in Hb. unfold try_catch.
  unfold bind at 1.
  unfold bind in Hb at 1.
  destruct (logger_info rt "Analyzing market" _ w) as [[[]|e0] w0] eqn:El;
    [|discriminate El].
  unfold bind at 1. rewrite Hb.
  unfold bind at 1. unfold external at 1. rewrite Hp. reflexivity.
Qed.

End PredictionFailure.

Lemma iteration_analysis_throws (rt : Runtime) (config : Config)
  (symbol : string) (w w' : World rt) (error : JsError) :
  analyzeMarket rt config symbol w = (Throw error, w') ->
  iteration rt config symbol w
  = (Return tt,
     log_to rt ERROR "Trading loop error"
       [("symbol", MString symbol); ("error", MError error)] w').
Proof.
  intro H. unfold iteration, try_catch, symbolCycle. unfold bind at 1.
  rewrite H. reflexivity.
Qed.

Lemma analyzeMarketAndGenerateSignal_returns (art : AiAgents.Runtime)
  (marketData : AiAgents.MarketData) (w : AiAgents.World art) :
  exists signal w',
    AiAgents.analyzeMarketAndGenerateSignal art marketData w = (Return signal, w').
Proof.
  unfold AiAgents.analyzeMarketAndGenerateSignal.
  destruct (AiAgents.askAgent art marketData w) as [[signal|error] w'];
    eexists; eexists; reflexivity.
Qed.

(** C6, counterexample.  An initialized agent whose predictor throws
    "inference failed": [analyzeMarket "ETH"] throws that error instead
    of returning a HOLD decision. *)
Lemma prediction_failure_not_recovered :
  ~ prediction_failure_recovered Scripted.runtime Scripted.config.
Proof.
  intro H.
  destruct (H "ETH"
              (Scripted.initialized
                 (Scripted.mkScript [] 0 [Throw (mkError "inference failed")] [] [])))
    as (d & w' & Hd & _).
  - reflexivity.
  - exists (Scripted.snapshot "ETH"),
           (log_to Scripted.runtime INFO "Analyzing market"
              [("symbol", MString "ETH")]
              (Scripted.initialized
                 (Scripted.mkScript [] 0 [Throw (mkError "inference failed")] [] []))),
           (mkError "inference failed"), Scripted.quiet.
    split; reflexivity.
  - assert (E : fst (analyzeMarket Scripted.runtime Scripted.config "ETH"
                       (Scripted.initialized
                          (Scripted.mkScript [] 0
                             [Throw (mkError "inference failed")] [] [])))
                = Throw (mkError "inference failed")) by reflexivity.
    rewrite Hd in E. discriminate E.
Qed.

(** C6, as the code has it.  In the agent with the trading loop, a
    prediction failure is logged by [analyzeMarket] and thrown again; the
    [catch] of the loop logs it with the symbol and the iteration ends
    without a decision and without a trade request (the outside world is
    as the predictor left it).  In [ai-agents], the signal analysis never
    throws: a failure of the AI analysis yields the fallback signal HOLD
    with confidence 30 (of 100) and risk HIGH, which the loop's guard
    [confidence > 70] does not execute. *)
Theorem prediction_failure_handling :
  (forall (rt : Runtime) (config : Config) (symbol : string) (w w1 : World rt)
          (marketData : MarketData) (error : JsError) (e2 : Env rt),
      isInitialized w = true ->
      beforePrediction rt symbol w = (Return marketData, w1) ->
      predictor_predict rt [price marketData] (env w1) = (Throw error, e2) ->
      let w2 :=
        log_to rt ERROR "Market analysis failed"
          [("symbol", MString symbol); ("error", MError error)]
          (set_env rt w1 e2) in
      analyzeMarket rt config symbol w = (Throw error, w2)
      /\ iteration rt config symbol w
         = (Return tt,
            log_to rt ERROR "Trading loop error"
              [("symbol", MString symbol); ("error", MError error)] w2)
      /\ env (snd (iteration rt config symbol w)) = e2)
  /\ (forall (art : AiAgents.Runtime) (marketData : AiAgents.MarketData)
             (w : AiAgents.World art),
        (exists signal w',
            AiAgents.analyzeMarketAndGenerateSignal art marketData w
            = (Return signal, w'))
        /\ (forall error w1,
              AiAgents.askAgent art marketData w = (Throw error, w1) ->
              fst (AiAgents.analyzeMarketAndGenerateSignal art marketData w)
              = Return (AiAgents.mkSignal AiAgents.HOLD 30 None
                          (AiAgents.price marketData) AiAgents.HIGH false)
              /\ AiAgents.highConfidence
                   (AiAgents.generateFallbackSignal marketData) = false)).
Proof.
  split.
  - intros rt config symbol w w1 marketData error e2 Hi Hb Hp w2.
    pose proof (analyzeMarket_prediction_throws rt config symbol w marketData
                  w1 error e2 Hi Hb Hp) as Ha.
    fold w2 in Ha.
    pose proof (iteration_analysis_throws rt config symbol w w2 error Ha) as Hit.
    repeat split; [exact Ha | exact Hit |].
    rewrite Hit. reflexivity.
  - intros art marketData w. split.
    + apply analyzeMarketAndGenerateSignal_returns.
    + intros error w1 Hask. unfold AiAgents.analyzeMarketAndGenerateSignal.
      rewrite Hask. split; reflexivity.
Qed.

(** The predictor throws for "ETH": the analysis throws the same error,
    and the iteration of the loop returns after logging it. *)
Lemma prediction_failure_handling_witness :
  let w := Scripted.initialized
             (Scripted.mkScript [] 0 [Throw (mkError "inference failed")] [] []) in
  fst (analyzeMarket Scripted.runtime Scripted.config "ETH" w)
  = Throw (mkError "inference failed")
  /\ fst (iteration Scripted.runtime Scripted.config "ETH" w) = Return tt
  /\ fst (AiAgents.analyzeMarketAndGenerateSignal Scripted.aiRuntime
            (AiAgents.mkMarketData "ETH/USDC" "1000" "2000" 2 0 0)
            (@AiAgents.mkWorld Scripted.aiRuntime [] []))
     = Return (AiAgents.mkSignal AiAgents.HOLD 30 None 2 AiAgents.HIGH false).
Proof.
  intro w.
  destruct (proj1 prediction_failure_handling Scripted.runtime Scripted.config
              "ETH" w
              (log_to Scripted.runtime INFO "Analyzing market"
                 [("symbol", MString "ETH")] w)
              (Scripted.snapshot "ETH")
              (mkError "inference failed") Scripted.quiet
              eq_refl eq_refl eq_refl) as (Ha & Hit & _).
  split; [rewrite Ha; reflexivity|]. split; [rewrite Hit; reflexivity|].
  apply (proj2 (proj2 prediction_failure_handling Scripted.aiRuntime
                  (AiAgents.mkMarketData "ETH/USDC" "1000" "2000" 2 0 0)
                  (@AiAgents.mkWorld Scripted.aiRuntime [] []))
           (mkError "request failed") (@AiAgents.mkWorld Scripted.aiRuntime [] [])).
  reflexivity.
Defined.

(** ** Stop and the timer *)

Section StopFacts.

Variable rt : Runtime.
Variable config : Config.

Lemma stop_eq (w : World rt) :
  stop rt config w
  = (Return tt,
     set_isInitialized rt
       (log_to rt INFO "Stopping TradingAgent" [("name", MString (name config))] w)
       false).
Proof. reflexivity. Qed.

Lemma analyzeMarket_not_initialized (symbol : string) (w : World rt) :
  isInitialized w = false ->
  analyzeMarket rt config symbol w = (Throw (mkError "Agent not initialized"), w).
Proof. intro H. unfold analyzeMarket. rewrite H. reflexivity. Qed.

Lemma runPass_not_initialized (symbols : list string) (w : World rt) :
  isInitialized w = false ->
  runPass rt config symbols w = (None, rejected rt symbols w).
Proof.
  revert w. induction symbols as [|symbol rest IH]; intros w H.
  - reflexivity.
  - simpl. unfold bind. rewrite (analyzeMarket_not_initialized symbol w H).
    simpl. apply IH. exact H.
Qed.

Lemma rejected_frame (symbols : list string) (w : World rt) :
  isInitialized (rejected rt symbols w) = isInitialized w
  /\ env (rejected rt symbols w) = env w
  /\ agent (rejected rt symbols w) = agent w.
Proof.
  revert w. induction symbols as [|symbol rest IH]; intro w.
  - repeat split.
  - simpl. destruct (IH (log_to rt ERROR "Trading loop error"
                          [("symbol", MString symbol);
                           ("error", MError (mkError "Agent not initialized"))] w))
      as (H1 & H2 & H3).
    rewrite H1, H2, H3. repeat split.
Qed.

Lemma timer_fires_when_due (L : EventLoop rt) (i : nat) (iv : Interval) :
  nth_error (intervals L) i = Some iv ->
  (iv_due iv <= clock L)%Z ->
  step rt config (TimerFires i) L
  = Some (continuePass rt config (iv_symbols iv) None
            (mkEventLoop (world L) (clock L) (passes L)
               (replace_nth i
                  (mkInterval (iv_symbols iv) (iv_period iv)
                     (clock L + iv_period iv))
                  (intervals L)))).
Proof.
  intros Hn Hd. unfold step. rewrite Hn.
  apply Z.leb_le in Hd. rewrite Hd. reflexivity.
Qed.

End StopFacts.

Lemma executable_run (rt : Runtime) (config : Config) (evs : list Event)
  (L : EventLoop rt) :
  executable rt config evs L = true -> exists L', run rt config evs L = Some L'.
Proof.
  unfold executable. destruct (run rt config evs L) as [L'|]; [|discriminate].
  intros _. exists L'. reflexivity.
Qed.

(** C8, counterexample.  From an initialized agent: after [startTrading]
    with one symbol and [stop], the timer registered by [startTrading]
    fires and starts a run of [tradingLoop]; and with two symbols on a
    500 ms interval the timer starts a second run while the first one is
    paused before its second symbol. *)
Lemma stop_leaves_timer_running :
  ~ tick_discipline Scripted.runtime Scripted.config
      (Scripted.eventLoop Scripted.quiet)
  /\ (exists L, run Scripted.runtime Scripted.config Scripted.stopTrace
                  (Scripted.eventLoop Scripted.quiet) = Some L)
  /\ no_tick_after_stop false Scripted.stopTrace = false
  /\ (exists L, run Scripted.runtime Scripted.config Scripted.overlapTrace
                  (Scripted.eventLoop Scripted.quiet) = Some L)
  /\ no_tick_overlap Scripted.runtime Scripted.config Scripted.overlapTrace
       (Scripted.eventLoop Scripted.quiet) = false.
Proof.
  assert (Hs : exists L, run Scripted.runtime Scripted.config Scripted.stopTrace
                           (Scripted.eventLoop Scripted.quiet) = Some L).
  { apply executable_run. vm_compute. reflexivity. }
  assert (Ho : exists L, run Scripted.runtime Scripted.config Scripted.overlapTrace
                           (Scripted.eventLoop Scripted.quiet) = Some L).
  { apply executable_run. vm_compute. reflexivity. }
  split; [|split; [exact Hs|split; [reflexivity|split; [exact Ho|]]]].
  - intro H. destruct Hs as [L HL]. destruct (H _ _ HL) as [Hstop _].
    discriminate Hstop.
  - vm_compute. reflexivity.
Qed.

Section StopTheorem.

Variable rt : Runtime.
Variable config : Config.

(** C8, as the code has it.  [stop] logs one line and clears
    [isInitialized]; a second call changes nothing but the log
    (idempotent); it leaves the clock, the runs in flight, the registered
    timers and the outside world as they are, so nothing is interrupted
    and no timer is cancelled.  A registered timer fires whenever it is
    due, whether or not the agent is stopped and whether or not a run is
    in flight.  Once [isInitialized] is false, a run started by the timer
    and a run resumed from its pause reject every symbol they still have
    at the guard of [analyzeMarket]: one "Trading loop error" line per
    symbol, no analysis, no trade, no further pause. *)
Theorem stop_clears_flag_only :
  (forall w : World rt,
      fst (stop rt config w) = Return tt
      /\ isInitialized (snd (stop rt config w)) = false
      /\ snd (stop rt config (snd (stop rt config w)))
         = log_to rt INFO "Stopping TradingAgent"
             [("name", MString (name config))] (snd (stop rt config w)))
  /\ (forall L : EventLoop rt,
        exists L',
          step rt config CallStop L = Some L'
          /\ clock L' = clock L
          /\ passes L' = passes L
          /\ intervals L' = intervals L
          /\ env (world L') = env (world L))
  /\ (forall (L : EventLoop rt) (i : nat) (iv : Interval),
        nth_error (intervals L) i = Some iv ->
        (iv_due iv <= clock L)%Z ->
        exists L',
          step rt config (TimerFires i) L = Some L'
          /\ (isInitialized (world L) = false ->
              world L' = rejected rt (iv_symbols iv) (world L)
              /\ env (world L') = env (world L)
              /\ passes L' = passes L))
  /\ (forall (L : EventLoop rt) (j : nat) (p : Pass),
        nth_error (passes L) j = Some p ->
        (wakeAt p <= clock L)%Z ->
        isInitialized (world L) = false ->
        exists L',
          step rt config (PassWakes j) L = Some L'
          /\ world L' = rejected rt (remaining p) (world L)
          /\ env (world L') = env (world L)
          /\ passes L' = remove_nth j (passes L)).
Proof.
  split; [|split; [|split]].
  - intro w. rewrite !stop_eq. repeat split.
  - intro L. eexists. split; [reflexivity|]. repeat split.
  - intros L i iv Hn Hd. eexists. split.
    + apply timer_fires_when_due; eassumption.
    + intro Hi. unfold continuePass. cbn [world clock passes intervals].
      rewrite (runPass_not_initialized rt config _ _ Hi).
      cbn [world clock passes intervals set_world].
      repeat split. apply rejected_frame.
  - intros L j p Hn Hd Hi. unfold step. rewrite Hn.
    apply Z.leb_le in Hd. rewrite Hd. eexists. split; [reflexivity|].
    unfold continuePass. cbn [world clock passes intervals].
    rewrite (runPass_not_initialized rt config _ _ Hi).
    destruct (onDone p) as [[symbols' ms]|];
      cbn [world clock passes intervals set_world setInterval];
      repeat split; apply rejected_frame.
Qed.

End StopTheorem.

(** The timer of [stopTrace] fires after [stop]: the run it starts only
    logs the refusal of "ETH". *)
Lemma stop_clears_flag_only_witness :
  exists L',
    step Scripted.runtime Scripted.config (TimerFires 0) Scripted.afterStop
    = Some L'
    /\ (isInitialized (world Scripted.afterStop) = false ->
        world L' = rejected Scripted.runtime ["ETH"] (world Scripted.afterStop)
        /\ env (world L') = env (world Scripted.afterStop)
        /\ passes L' = passes Scripted.afterStop).
Proof.
  apply (proj1 (proj2 (proj2 (stop_clears_flag_only Scripted.runtime Scripted.config)))
           Scripted.afterStop 0%nat (mkInterval ["ETH"] 30000 31000)).
  - vm_compute. reflexivity.
  - vm_compute. discriminate.
Defined.

(** ** Further properties of the code *)

(** The amount grows with the confidence (for a non-negative balance and
    risk tolerance). *)
Lemma calculatePositionSize_monotone (config : Config)
  (balance confidence1 confidence2 : Q) :
  0 <= balance ->
  0 <= riskTolerance config ->
  confidence1 <= confidence2 ->
  calculatePositionSize config balance confidence1
  <= calculatePositionSize config balance confidence2.
Proof.
  intros Hb Hr Hc. unfold calculatePositionSize, Math_min. cbv zeta.
  apply Q.min_le_compat_r.
  rewrite (Qmult_comm _ confidence1), (Qmult_comm _ confidence2).
  apply Qmult_le_compat_r; [exact Hc|].
  apply Qmult_le_0_compat; assumption.
Qed.

Lemma calculatePositionSize_monotone_witness :
  calculatePositionSize Scripted.config 1000 0.2
  <= calculatePositionSize Scripted.config 1000 0.8.
Proof.
  apply (calculatePositionSize_monotone Scripted.config 1000 0.2 0.8);
    simpl; lra.
Defined.

(** A decision carries an amount exactly when it is not HOLD. *)
Lemma makeDecision_amount_iff_trade (rt : Runtime) (config : Config)
  (context : TradingContext) :
  amount (makeDecision rt config context) = None
  <-> action (makeDecision rt config context) = hold.
Proof.
  unfold makeDecision. cbv zeta.
  destruct (Qltb _ _); [simpl; tauto|].
  destruct (Qgtb _ _ && Qgtb _ _); [simpl; split; discriminate|].
  destruct (Qltb _ _ && Qgtb _ _); simpl; [split; discriminate|tauto].
Qed.

(** The suspended run of the scheduler and the uninterrupted
    [tradingLoop] agree: where a run pauses after a symbol, the loop goes
    on from the same world with the remaining symbols; where a run
    returns, the loop returns in the same world. *)
Lemma runPass_tradingLoop (rt : Runtime) (config : Config)
  (symbols : list string) (w : World rt) :
  match runPass rt config symbols w with
  | (Some rest, w') =>
      tradingLoop rt config symbols w = tradingLoop rt config rest w'
  | (None, w') => tradingLoop rt config symbols w = (Return tt, w')
  end.
Proof.
  revert w. induction symbols as [|symbol rest IH]; intro w.
  - reflexivity.
  - rewrite tradingLoop_cons. simpl runPass.
    unfold iteration, try_catch, symbolCycle, loopHandler, sleep.
    unfold bind at 2.
    destruct (bind rt (analyzeMarket rt config symbol)
                (fun decision => executeTrade rt decision symbol) w)
      as [[b|error] w'] eqn:E; unfold bind in E |- *.
    + destruct (analyzeMarket rt config symbol w) as [[d|e] w0]; [|discriminate E].
      destruct (executeTrade rt d symbol w0) as [[b'|e] w1]; [|discriminate E].
      inversion E; subst. reflexivity.
    + destruct (analyzeMarket rt config symbol w) as [[d|e] w0].
      * destruct (executeTrade rt d symbol w0) as [[b'|e] w1]; [discriminate E|].
        inversion E; subst. apply IH.
      * inversion E; subst. apply IH.
Qed.




(** ** The scenarios on IEEE doubles *)

(** Scenarios A, B and C give BUY, HOLD and HOLD, and the double
    computed for the amount of scenario D is exactly 50. *)
Lemma scenarios_binary64 :
  (Binary64.makeDecision_action 0.5 100 103 0.8)%float = buy
  /\ (Binary64.makeDecision_action 0.5 100 98.5 0.9)%float = hold
  /\ (Binary64.makeDecision_action 0.5 100 105 0.3)%float = hold
  /\ (Binary64.calculatePositionSize 0.1 0.05 1000 0.8 = 50)%float.
Proof. repeat split; vm_compute; reflexivity. Qed.

(** The least confidence, for a 24 h range as wide as the price, is the
    double nearest to 0.06; the mock snapshot of price 105 gives the
    double nearest to 0.54. *)
Lemma confidence_values_binary64 :
  (Binary64.calculateConfidence 100 (Some 200) (Some 100) None 103 = 0.06)%float
  /\ (0.05 <? Binary64.calculateConfidence 100 (Some 200) (Some 100) None 103)%float
     = true.
Proof. split; vm_compute; reflexivity. Qed.

(** At price 0 the quotient of the doubles is an infinity or NaN: a
    positive prediction gives BUY, a negative one SELL, and the
    prediction 0 gives HOLD. *)
Lemma zero_price_binary64 :
  (Binary64.makeDecision_action 0.5 0 1 0.8)%float = buy
  /\ (Binary64.makeDecision_action 0.5 0 (-1) 0.8)%float = sell
  /\ (Binary64.makeDecision_action 0.5 0 0 0.8)%float = hold.
Proof. repeat split; vm_compute; reflexivity. Qed.

(** On doubles too the confidence gate decides first: a confidence that
    compares below the threshold gives HOLD whatever the prices. *)
Lemma confidence_gate_binary64 (minConfidence price prediction confidence : float) :
  (confidence <? minConfidence)%float = true ->
  Binary64.makeDecision_action minConfidence price prediction confidence = hold.
Proof. intro H. unfold Binary64.makeDecision_action. rewrite H. reflexivity. Qed.


(** * Further properties *)

(** ** The trading agent: frames and shapes *)

Section AgentShapes.

Variable rt : Runtime.
Variable config : Config.

Lemma getMarketData_eq (symbol : string) (w : World rt) :
  getMarketData rt symbol w
  = (Return (fst (mockSnapshot rt symbol (env w))),
     set_env rt w (snd (mockSnapshot rt symbol (env w)))).
Proof.
  unfold getMarketData, mockSnapshot, bind, random, now, external, ret.
  destruct (Math_random rt (env w)) as [r1 e1]. cbn [env set_env].
  destruct (Math_random rt e1) as [r2 e2]. cbn [env set_env].
  destruct (Date_now rt e2) as [t e3]. cbn [env set_env].
  destruct (Math_random rt e3) as [r3 e4]. cbn [env set_env fst snd].
  reflexivity.
Qed.

(** [analyzeMarket] on an initialized agent, step by step. *)
Lemma analyzeMarket_initialized (symbol : string) (w : World rt) :
  isInitialized w = true ->
  analyzeMarket rt config symbol w
  = let w0 := log_to rt INFO "Analyzing market" [("symbol", MString symbol)] w in
    let marketData := fst (mockSnapshot rt symbol (env w)) in
    let w1 := set_env rt w0 (snd (mockSnapshot rt symbol (env w))) in
    match predictor_predict rt [price marketData] (env w1) with
    | (Return prediction, e2) =>
        let decision :=
          makeDecision rt config
            (mkContext marketData prediction
               (calculateConfidence marketData prediction) mockPortfolio) in
        (Return decision,
         log_to rt INFO "Market analysis complete" (analysisMeta symbol decision)
           (set_env rt w1 e2))
    | (Throw error, e2) =>
        (Throw error,
         log_to rt ERROR "Market analysis failed"
           [("symbol", MString symbol); ("error", MError error)]
           (set_env rt w1 e2))
    end.
Proof.
  intro Hi. unfold analyzeMarket. rewrite Hi. cbn [negb]. cbv zeta.
  unfold try_catch. unfold bind at 1. unfold logger_info at 1.
  unfold bind at 1. rewrite getMarketData_eq. cbn [env log_to set_logs].
  unfold bind at 1. unfold external at 1. cbn [env set_env log_to set_logs].
  destruct (predictor_predict rt _ _) as [[prediction|error] e2]; reflexivity.
Qed.

End AgentShapes.

Section AgentFrames.

Variable rt : Runtime.
Variable config : Config.

Lemma mockSnapshot_price (symbol : string) (e : Env rt) :
  price (fst (mockSnapshot rt symbol e)) = 100 + fst (Math_random rt e) * 10.
Proof.
  unfold mockSnapshot.
  destruct (Math_random rt e) as [r1 e1].
  destruct (Math_random rt e1) as [r2 e2].
  destruct (Date_now rt e2) as [t e3].
  destruct (Math_random rt e3) as [r3 e4].
  reflexivity.
Qed.

Lemma makeDecision_amount_cases (context : TradingContext) :
  amount (makeDecision rt config context) = None
  \/ amount (makeDecision rt config context)
     = Some (calculatePositionSize config (balance (ctx_portfolio context))
               (ctx_confidence context)).
Proof.
  unfold makeDecision. cbv zeta.
  destruct (Qltb _ _); [left; reflexivity|].
  destruct (Qgtb _ _ && Qgtb _ _); [right; reflexivity|].
  destruct (Qltb _ _ && Qgtb _ _); [right|left]; reflexivity.
Qed.

Lemma or_else_bounds (x : option Q) (lo hi : Q) :
  lo <= 0 <= hi ->
  (forall v, x = Some v -> lo <= v <= hi) ->
  lo <= or_else x 0 <= hi.
Proof.
  intros H0 Hx. unfold or_else. destruct x as [v|]; [|exact H0].
  destruct (Qeq_bool v 0); [exact H0|]. apply Hx. reflexivity.
Qed.

(** The risk cap at the boundary.  Whatever the predictor answers, the
    request that [executeTrade] builds from a decision returned by
    [analyzeMarket] asks for an amount between 0 and 1000 times
    [maxPositionSize] (1000 is the balance of the mock portfolio), with
    slippage 0.005; this needs only a non-negative random draw for the
    price and non-negative fractions in the configuration. *)
Theorem analysed_request_within_cap (symbol : string) (w w' : World rt)
  (decision : TradingDecision) :
  analyzeMarket rt config symbol w = (Return decision, w') ->
  0 <= fst (Math_random rt (env w)) ->
  0 <= riskTolerance config ->
  0 <= maxPositionSize config ->
  0 <= req_amount (tradeRequest decision symbol) <= 1000 * maxPositionSize config
  /\ req_maxSlippage (tradeRequest decision symbol) = 0.005
  /\ 0.06 <= confidence decision <= 0.8.
Proof.
  intros Ha Hr Hrt Hmp.
  destruct (isInitialized w) eqn:Hi.
  2:{ rewrite (analyzeMarket_not_initialized rt config symbol w Hi) in Ha.
      discriminate Ha. }
  rewrite (analyzeMarket_initialized rt config symbol w Hi) in Ha.
  cbv zeta in Ha.
  destruct (predictor_predict rt _ _) as [[prediction|error] e2];
    [|discriminate Ha].
  inversion Ha as [[Hd Hw]]. clear Ha Hw.
  set (marketData := fst (mockSnapshot rt symbol (env w))) in *.
  set (conf := calculateConfidence marketData prediction) in *.
  set (context := mkContext marketData prediction conf mockPortfolio) in *.
  assert (Hp : 0 < price marketData).
  { unfold marketData. rewrite mockSnapshot_price. lra. }
  assert (Hc : 0.06 <= conf <= 0.8).
  { unfold conf, calculateConfidence. cbv zeta.
    apply capped_product_bounds.
    - apply baseConfidence_bounds. apply volatility_nonneg. exact Hp.
    - apply trendConfidence_cases. }
  assert (Hconf : confidence (makeDecision rt config context) = conf).
  { unfold makeDecision. cbv zeta.
    destruct (Qltb _ _); [reflexivity|].
    destruct (Qgtb _ _ && Qgtb _ _); [reflexivity|].
    destruct (Qltb _ _ && Qgtb _ _); reflexivity. }
  split; [|split; [reflexivity|rewrite Hconf; exact Hc]].
  unfold tradeRequest. cbn [req_amount].
  assert (Hcap : 0 <= 1000 * maxPositionSize config).
  { apply Qmult_le_0_compat; [lra|exact Hmp]. }
  apply or_else_bounds; [split; [lra|exact Hcap]|].
  intros v Hv.
  destruct (makeDecision_amount_cases context) as [Hn|Hs];
    rewrite Hv in *; [discriminate Hn|].
  inversion Hs as [Hv']. cbn [ctx_portfolio ctx_confidence context mockPortfolio balance].
  unfold calculatePositionSize, Math_min. cbv zeta. split.
  - apply Q.min_glb; [|exact Hcap].
    apply Qmult_le_0_compat; [apply Qmult_le_0_compat; [lra|exact Hrt]|lra].
  - apply Q.le_min_r.
Qed.

End AgentFrames.

(** An analysis predicted at 110 for a price of 105: the request is
    within the cap 1000 * 0.05. *)
Lemma analysed_request_within_cap_witness :
  match analyzeMarket Scripted.runtime Scripted.config "ETH"
          (Scripted.initialized (Scripted.mkScript [] 0 [Return 110] [] [])) with
  | (Return decision, _) =>
      0 <= req_amount (tradeRequest decision "ETH") <= 1000 * 0.05
      /\ req_maxSlippage (tradeRequest decision "ETH") = 0.005
      /\ 0.06 <= confidence decision <= 0.8
  | (Throw _, _) => False
  end.
Proof.
  destruct (analyzeMarket Scripted.runtime Scripted.config "ETH"
              (Scripted.initialized (Scripted.mkScript [] 0 [Return 110] [] [])))
    as [[decision|error] w'] eqn:E.
  - apply (analysed_request_within_cap Scripted.runtime Scripted.config "ETH"
             (Scripted.initialized (Scripted.mkScript [] 0 [Return 110] [] []))
             w' decision E).
    + vm_compute. discriminate.
    + vm_compute. discriminate.
    + vm_compute. discriminate.
  - assert (H : fst (analyzeMarket Scripted.runtime Scripted.config "ETH"
                       (Scripted.initialized
                          (Scripted.mkScript [] 0 [Return 110] [] [])))
                <> Throw error).
    { intro H. discriminate H. }
    apply H. rewrite E. reflexivity.
Defined.

Section LoopFrames.

Variable rt : Runtime.
Variable config : Config.














End LoopFrames.


(** [stop] during the first pause of a run over three symbols: when the
    run resumes, the two symbols left are refused; the log has the one
    line of the first symbol and the agent is not initialized. *)
Lemma stop_during_pause :
  option_map
    (fun L => (filter is_analyzing (logs (world L)),
               isInitialized (world L), passes L))
    (run Scripted.runtime Scripted.config
       [CallStartTrading ["ETH"; "BTC"; "METIS"] defaultIntervalMs;
        CallStop; TimePasses 1000; PassWakes 0]
       (Scripted.eventLoop Scripted.quiet))
  = Some ([analyzingLine "ETH"], false, []).
Proof. vm_compute. reflexivity. Qed.

(** ** Initialization *)

Section Initialization.

Variable rt : Runtime.
Variable config : Config.

(** [initialize] either returns with the agent initialized and its Alith
    agent created, after both collaborators were initialized in order
    (predictor, then chain client); or it throws the error of the
    collaborator that failed, logged as "Failed to initialize
    TradingAgent", and leaves [isInitialized] as it was; when the
    predictor fails the chain client is not contacted. *)
Theorem initialize_outcome (w : World rt) :
  match initialize rt config w with
  | (Return _, w') =>
      isInitialized w' = true
      /\ agent w' = Some (mkAlithAgent (name config))
      /\ exists e1,
           predictor_initialize rt (env w) = (Return tt, e1)
           /\ hyperionClient_initialize rt e1 = (Return tt, env w')
  | (Throw error, w') =>
      isInitialized w' = isInitialized w
      /\ last (logs w') (mkLog INFO "" [])
         = mkLog ERROR "Failed to initialize TradingAgent" [("error", MError error)]
      /\ (predictor_initialize rt (env w) = (Throw error, env w')
          \/ exists e1,
               predictor_initialize rt (env w) = (Return tt, e1)
               /\ hyperionClient_initialize rt e1 = (Throw error, env w'))
  end.
Proof.
  unfold initialize, try_catch, createAlithAgent.
  unfold bind at 1. unfold logger_info at 1.
  unfold bind at 1. unfold external at 1. cbn [env log_to set_logs].
  destruct (predictor_initialize rt (env w)) as [[[]|error] e1] eqn:Ep.
  - unfold bind at 1. unfold logger_info at 1.
    unfold bind at 1. unfold external at 1. cbn [env log_to set_logs set_env].
    destruct (hyperionClient_initialize rt e1) as [[[]|error] e2] eqn:Eh.
    + cbn. repeat split. exists e1. split; first [reflexivity|assumption].
    + cbn. rewrite last_last. repeat split. right. exists e1.
      split; first [reflexivity|assumption].
  - cbn. rewrite last_last. repeat split. left. reflexivity.
Qed.

End Initialization.

(** ** Timers of the scheduler *)

Section Timers.

Variable rt : Runtime.
Variable config : Config.

Lemma replace_nth_length {A} (n : nat) (y : A) (l : list A) :
  List.length (replace_nth n y l) = List.length l.
Proof.
  revert n. induction l as [|x l IH]; intros [|n]; cbn; auto.
Qed.

Lemma remove_nth_awaited (j : nat) (l : list Pass) (p : Pass) :
  nth_error l j = Some p ->
  (List.length (filter awaited (remove_nth j l))
   + (if awaited p then 1 else 0))%nat
  = List.length (filter awaited l).
Proof.
  revert j. induction l as [|x l IH]; intros [|j] H; cbn in H; try discriminate.
  - inversion H; subst. cbn. destruct (awaited p); cbn; lia.
  - cbn. specialize (IH j H). destruct (awaited x); cbn; lia.
Qed.

Lemma continuePass_timers (symbols : list string)
  (after : option (list string * Z)) (L : EventLoop rt) :
  timers (continuePass rt config symbols after L)
  = (timers L + match after with Some _ => 1 | None => 0 end)%nat
  /\ (List.length (intervals L)
      <= List.length (intervals (continuePass rt config symbols after L)))%nat.
Proof.
  unfold continuePass, timers.
  destruct (runPass rt config symbols (world L)) as [[rest|] w'].
  - cbn [passes intervals]. rewrite filter_app, length_app. cbn [filter].
    unfold awaited at 2. cbn [onDone].
    destruct after as [[s ms]|]; cbn; lia.
  - destruct after as [[s ms]|]; unfold setInterval, set_world;
      cbn [passes intervals]; rewrite ?length_app; cbn; lia.
Qed.

(** No event removes a timer, and only an accepted [startTrading] adds
    one: over a step of the event loop the number of timers (registered,
    or to be registered by a run that [startTrading] awaits) grows by one
    exactly when the event is a call of [startTrading] on an initialized
    agent, and the registered timers never become fewer.  So calling
    [startTrading] twice leaves two timers running. *)
Theorem step_timers (ev : Event) (L L' : EventLoop rt) :
  step rt config ev L = Some L' ->
  timers L'
  = (timers L
     + match ev with
       | CallStartTrading _ _ => if isInitialized (world L) then 1 else 0
       | _ => 0
       end)%nat
  /\ (List.length (intervals L) <= List.length (intervals L'))%nat.
Proof.
  destruct ev as [symbols ms| |i|j|t]; cbn [step]; intro H.
  - inversion H; subst. unfold startTrading.
    destruct (isInitialized (world L)); cbn [negb].
    + match goal with
      | |- context [continuePass rt config ?s ?a ?L0] =>
          pose proof (continuePass_timers s a L0) as [Ht Hl]
      end.
      rewrite Ht. unfold timers, set_world in *. cbn [passes intervals] in *.
      split; lia.
    + split; lia.
  - inversion H; subst. unfold timers, set_world. cbn. split; lia.
  - destruct (nth_error (intervals L) i) as [iv|]; [|discriminate H].
    destruct (iv_due iv <=? clock L)%Z; [|discriminate H].
    inversion H; subst.
    match goal with
    | |- context [continuePass rt config ?s None ?L0] =>
        pose proof (continuePass_timers s None L0) as [Ht Hl]
    end.
    rewrite Ht. unfold timers in *. cbn [passes intervals] in *.
    rewrite replace_nth_length in *. split; lia.
  - destruct (nth_error (passes L) j) as [p|] eqn:Hn; [|discriminate H].
    destruct (wakeAt p <=? clock L)%Z; [|discriminate H].
    inversion H; subst.
    match goal with
    | |- context [continuePass rt config ?s ?a ?L0] =>
        pose proof (continuePass_timers s a L0) as [Ht Hl]
    end.
    rewrite Ht. unfold timers in *. cbn [passes intervals] in *.
    pose proof (remove_nth_awaited j (passes L) p Hn) as Hr.
    unfold awaited at 2 in Hr.
    destruct (onDone p); split; lia.
  - destruct ((clock L <=? t)%Z && nothing_due_before rt t L); [|discriminate H].
    inversion H; subst. unfold timers. cbn. split; lia.
Qed.

End Timers.

(** Two calls of [startTrading] on an initialized agent: two timers. *)
Lemma step_timers_witness :
  let L0 := Scripted.eventLoop Scripted.quiet in
  let L1 := startTrading Scripted.runtime Scripted.config ["ETH"] 30000 L0 in
  timers L1 = (timers L0 + 1)%nat
  /\ (List.length (intervals L0) <= List.length (intervals L1))%nat.
Proof.
  intros L0 L1.
  apply (step_timers Scripted.runtime Scripted.config
           (CallStartTrading ["ETH"] 30000) L0 L1).
  reflexivity.
Defined.

(** ** The price predictor *)

Section PredictorFacts.

Variable rt : Predictor.Runtime.
Variable config : Predictor.PredictorConfig.

Lemma slice_last_length {A} (n : nat) (l : list A) :
  List.length (Predictor.slice_last n l) = Nat.min n (List.length l).
Proof. unfold Predictor.slice_last. rewrite length_skipn. lia. Qed.

Lemma resize_length (n : nat) (priceSequence : list Q) :
  (0 < n)%nat -> List.length (Predictor.resize n priceSequence) = n.
Proof.
  intro Hn. unfold Predictor.resize. cbv zeta.
  rewrite slice_last_length, length_app, repeat_length. lia.
Qed.

Lemma resize_short (n : nat) (priceSequence : list Q) :
  (List.length priceSequence <= n)%nat ->
  Predictor.resize n priceSequence
  = repeat (or_else (hd_error priceSequence) 0)
      (n - List.length priceSequence) ++ priceSequence.
Proof.
  intro Hle. unfold Predictor.resize, Predictor.slice_last. cbv zeta.
  rewrite length_app, repeat_length.
  replace (n - List.length priceSequence + List.length priceSequence - n)%nat
    with 0%nat by lia.
  reflexivity.
Qed.

(** The sequence given to the network always has the configured length;
    a shorter input is completed in front with copies of its first value
    (0 when the input is empty or its first value is 0) and keeps all its
    values; of a longer input the last [n] values are kept. *)
Theorem resize_spec (n : nat) (priceSequence : list Q) :
  (0 < n)%nat ->
  List.length (Predictor.resize n priceSequence) = n
  /\ ((List.length priceSequence <= n)%nat ->
      Predictor.resize n priceSequence
      = repeat (or_else (hd_error priceSequence) 0)
          (n - List.length priceSequence) ++ priceSequence)
  /\ ((n <= List.length priceSequence)%nat ->
      Predictor.resize n priceSequence
      = skipn (List.length priceSequence - n) priceSequence).
Proof.
  intro Hn. split; [|split].
  - apply resize_length. exact Hn.
  - apply resize_short.
  - intro Hge. unfold Predictor.resize, Predictor.slice_last. cbv zeta.
    replace (n - List.length priceSequence)%nat with 0%nat by lia.
    reflexivity.
Qed.

Lemma resize_spec_witness :
  List.length (Predictor.resize 4 [7; 8]) = 4%nat
  /\ ((List.length [7; 8] <= 4)%nat ->
      Predictor.resize 4 [7; 8]
      = repeat (or_else (hd_error [7; 8]) 0) (4 - List.length [7; 8]) ++ [7; 8])
  /\ ((4 <= List.length [7; 8])%nat ->
      Predictor.resize 4 [7; 8] = skipn (List.length [7; 8] - 4) [7; 8]).
Proof.
  apply (resize_spec 4 [7; 8]). lia.
Defined.

Lemma predict_unfold (fuel : nat) (priceSequence : list Q)
  (s : Predictor.State rt) :
  (2 <= fuel)%nat ->
  Predictor.predict rt config fuel priceSequence s
  = Some
      (if negb (Predictor.model s) || negb (Predictor.isInitialized s) then
         (Throw (mkError "Model not initialized"), s)
       else if (List.length priceSequence
                =? Pos.to_nat (Predictor.sequenceLength config))%nat
       then Predictor.infer rt priceSequence s
       else Predictor.infer rt
              (Predictor.resize (Pos.to_nat (Predictor.sequenceLength config))
                 priceSequence) s).
Proof.
  intro Hf. destruct fuel as [|[|fuel]]; try lia.
  cbn [Predictor.predict].
  destruct (negb (Predictor.model s) || negb (Predictor.isInitialized s));
    [reflexivity|].
  destruct (List.length priceSequence
            =? Pos.to_nat (Predictor.sequenceLength config))%nat eqn:E;
    cbn [negb]; [reflexivity|].
  pose proof (Pos2Nat.is_pos (Predictor.sequenceLength config)) as Hpos.
  rewrite (resize_length _ priceSequence Hpos), Nat.eqb_refl. reflexivity.
Qed.

(** [predict] returns after at most one nested call: with fuel for two
    calls or more the result is there and does not depend on the fuel;
    it is the guard's error when the model is missing or not initialized,
    and otherwise the inference on the input, resized when its length is
    not the configured one. *)
Theorem predict_two_calls (fuel : nat) (priceSequence : list Q)
  (s : Predictor.State rt) :
  (2 <= fuel)%nat ->
  Predictor.predict rt config fuel priceSequence s
  = Some
      (if negb (Predictor.model s) || negb (Predictor.isInitialized s) then
         (Throw (mkError "Model not initialized"), s)
       else if (List.length priceSequence
                =? Pos.to_nat (Predictor.sequenceLength config))%nat
       then Predictor.infer rt priceSequence s
       else Predictor.infer rt
              (Predictor.resize (Pos.to_nat (Predictor.sequenceLength config))
                 priceSequence) s).
Proof. apply predict_unfold. Qed.

End PredictorFacts.

Lemma predict_two_calls_witness :
  Predictor.predict (Predictor.constant 0.5) Predictor.agentConfig 2 [105]
    (@Predictor.mkState (Predictor.constant 0.5) true true None [] tt)
  = Some
      (Predictor.infer (Predictor.constant 0.5) (Predictor.resize 60 [105])
         (@Predictor.mkState (Predictor.constant 0.5) true true None [] tt)).
Proof.
  apply (predict_two_calls (Predictor.constant 0.5) Predictor.agentConfig 2 [105]
           (@Predictor.mkState (Predictor.constant 0.5) true true None [] tt)).
  lia.
Defined.

Section PredictorScaling.

Variable rt : Predictor.Runtime.
Variable config : Predictor.PredictorConfig.

(** Normalizing and denormalizing with one scaler are inverse to each
    other as soon as the scaler's bounds differ (without a scaler both
    are the identity). *)
Theorem normalize_round_trip (k : Predictor.Scaler) (value : Q) :
  ~ Predictor.scaler_max k == Predictor.scaler_min k ->
  Predictor.denormalizePrediction (Some k) (Predictor.normalize (Some k) value)
    == value
  /\ Predictor.normalize (Some k) (Predictor.denormalizePrediction (Some k) value)
     == value
  /\ Predictor.denormalizePrediction None (Predictor.normalize None value) = value.
Proof.
  intro H. unfold Predictor.denormalizePrediction, Predictor.normalize.
  repeat split; try reflexivity; field; intro H0; apply H; lra.
Qed.

Lemma infer_scaler (priceSequence : list Q) (s : Predictor.State rt) :
  let s' := snd (Predictor.infer rt priceSequence s) in
  Predictor.scaler s'
  = match Predictor.scaler s with
    | Some k => Some k
    | None =>
        Some (Predictor.mkScaler (Predictor.list_min priceSequence * 0.9)
                (Predictor.list_max priceSequence * 1.1))
    end
  /\ Predictor.model s' = Predictor.model s
  /\ Predictor.isInitialized s' = Predictor.isInitialized s.
Proof.
  unfold Predictor.infer, Predictor.normalizeSequence. cbv zeta.
  destruct (Predictor.scaler s) as [k|] eqn:Ek;
    destruct (Predictor.tf_predict rt _ _) as [[y|error] e'];
    cbn; rewrite ?Ek; repeat split.
Qed.

(** The scaler is fixed by the first prediction and never changes
    afterwards: a prediction that passes the guard leaves an existing
    scaler as it is, and otherwise sets it to 0.9 times the least and 1.1
    times the greatest value of the (resized) input, also when the
    inference throws.  A prediction refused by the guard changes
    nothing. *)
Theorem predict_scaler (priceSequence : list Q) (s s' : Predictor.State rt)
  (r : completion Q) :
  Predictor.predict rt config 2 priceSequence s = Some (r, s') ->
  Predictor.model s' = Predictor.model s
  /\ Predictor.isInitialized s' = Predictor.isInitialized s
  /\ (Predictor.model s && Predictor.isInitialized s = false -> s' = s)
  /\ (Predictor.model s && Predictor.isInitialized s = true ->
      forall k, Predictor.scaler s = Some k -> Predictor.scaler s' = Some k)
  /\ (Predictor.model s && Predictor.isInitialized s = true ->
      Predictor.scaler s = None ->
      let input :=
        if (List.length priceSequence
            =? Pos.to_nat (Predictor.sequenceLength config))%nat
        then priceSequence
        else Predictor.resize (Pos.to_nat (Predictor.sequenceLength config))
               priceSequence in
      Predictor.scaler s'
      = Some (Predictor.mkScaler (Predictor.list_min input * 0.9)
                (Predictor.list_max input * 1.1))).
Proof.
  rewrite predict_unfold by lia. intro H. inversion H as [H']. clear H.
  destruct (Predictor.model s) eqn:Em, (Predictor.isInitialized s) eqn:Ei;
    cbn [negb orb andb] in *;
    try (inversion H'; subst; rewrite ?Em, ?Ei; repeat split;
         intros; congruence).
  destruct (List.length priceSequence
            =? Pos.to_nat (Predictor.sequenceLength config))%nat;
    match type of H' with
    | Predictor.infer rt ?seq s = _ =>
        destruct (infer_scaler seq s) as (Hs & Hm & Hi); rewrite H' in Hs, Hm, Hi;
        cbn [snd] in Hs, Hm, Hi
    end;
    (split; [congruence|]); (split; [congruence|]);
    (split; [discriminate|]);
    (split; [intros _ k Hk; rewrite Hs, Hk; reflexivity|]);
    intros _ Hn; rewrite Hs, Hn; reflexivity.
Qed.

End PredictorScaling.

Section PredictorFirstCall.

Variable rt : Predictor.Runtime.
Variable config : Predictor.PredictorConfig.

Lemma fold_Qmin_repeat (p : Q) (m : nat) : fold_left Qmin (repeat p m) p = p.
Proof.
  induction m as [|m IH]; [reflexivity|]. cbn [repeat fold_left].
  replace (Qmin p p) with p; [exact IH|].
  unfold Qmin, GenericMinMax.gmin. destruct (p ?= p); reflexivity.
Qed.

Lemma fold_Qmax_repeat (p : Q) (m : nat) : fold_left Qmax (repeat p m) p = p.
Proof.
  induction m as [|m IH]; [reflexivity|]. cbn [repeat fold_left].
  replace (Qmax p p) with p; [exact IH|].
  unfold Qmax, GenericMinMax.gmax. destruct (p ?= p); reflexivity.
Qed.

Lemma resize_single (n : nat) (p : Q) :
  (0 < n)%nat -> 0 < p -> Predictor.resize n [p] = repeat p n.
Proof.
  intros Hn Hp. rewrite resize_short by (cbn; lia).
  cbn [hd_error or_else List.length].
  destruct (Qeq_bool p 0) eqn:E.
  { apply Qeq_bool_iff in E. lra. }
  destruct n as [|n]; [lia|].
  replace (S n - 1)%nat with n by lia.
  rewrite <- repeat_cons. reflexivity.
Qed.

(** The first prediction from a single positive price [p] (no scaler
    yet): the network receives [sequenceLength] values that all equal
    0.5, whatever [p]; if it answers [y], the prediction is
    [p * (0.9 + 0.2 * y)], so the relative price change computed from it
    is [0.2 * y - 0.1], independent of the price. *)
Theorem first_prediction (p : Q) (s : Predictor.State rt) :
  0 < p ->
  Predictor.model s = true ->
  Predictor.isInitialized s = true ->
  Predictor.scaler s = None ->
  let n := Pos.to_nat (Predictor.sequenceLength config) in
  let x := (p - p * 0.9) / (p * 1.1 - p * 0.9) in
  x == 0.5
  /\ forall y e',
       Predictor.tf_predict rt (repeat x n) (Predictor.env s) = (Return y, e') ->
       exists v s',
         Predictor.predict rt config 2 [p] s = Some (Return v, s')
         /\ v == p * (0.9 + 0.2 * y)
         /\ (v - p) / p == 0.2 * y - 0.1.
Proof.
  intros Hp Hm Hi Hs n x. split.
  { unfold x. field. lra. }
  intros y e' Hy.
  rewrite predict_unfold by lia. rewrite Hm, Hi. cbn [negb orb].
  assert (Hpos : (0 < n)%nat) by apply Pos2Nat.is_pos.
  assert (Hin : Predictor.infer rt (repeat p n) s
                = (Return (y * (p * 1.1 - p * 0.9) + p * 0.9),
                   Predictor.set_env rt
                     (Predictor.mkState (Predictor.model s)
                        (Predictor.isInitialized s)
                        (Some (Predictor.mkScaler (p * 0.9) (p * 1.1)))
                        (Predictor.logs s) (Predictor.env s)) e')).
  { unfold Predictor.infer, Predictor.normalizeSequence. cbv zeta.
    rewrite Hs. cbn [Predictor.scaler Predictor.env].
    assert (Hmin : Predictor.list_min (repeat p n) = p).
    { destruct n as [|m]; [lia|]. cbn. apply fold_Qmin_repeat. }
    assert (Hmax : Predictor.list_max (repeat p n) = p).
    { destruct n as [|m]; [lia|]. cbn. apply fold_Qmax_repeat. }
    rewrite Hmin, Hmax, map_repeat.
    cbn [Predictor.normalize Predictor.scaler_min Predictor.scaler_max].
    fold x. rewrite Hy. reflexivity. }
  assert (Hv : y * (p * 1.1 - p * 0.9) + p * 0.9 == p * (0.9 + 0.2 * y)) by ring.
  destruct (List.length [p] =? Pos.to_nat (Predictor.sequenceLength config))%nat
    eqn:E.
  - apply Nat.eqb_eq in E. cbn [List.length] in E. fold n in E.
    rewrite <- E in Hin. cbn [repeat] in Hin. rewrite Hin.
    eexists; eexists. split; [reflexivity|]. split; [exact Hv|].
    rewrite Hv. field. lra.
  - fold n. rewrite (resize_single n p Hpos Hp), Hin.
    eexists; eexists. split; [reflexivity|]. split; [exact Hv|].
    rewrite Hv. field. lra.
Qed.

(** After [dispose] every prediction is refused with "Model not
    initialized", and a second [dispose] does nothing. *)
Theorem dispose_then_predict (fuel : nat) (priceSequence : list Q)
  (s : Predictor.State rt) :
  Predictor.predict rt config (S fuel) priceSequence (Predictor.dispose rt s)
  = Some (Throw (mkError "Model not initialized"), Predictor.dispose rt s)
  /\ Predictor.dispose rt (Predictor.dispose rt s) = Predictor.dispose rt s.
Proof.
  unfold Predictor.dispose. destruct (Predictor.model s) eqn:Em.
  - cbn. split; reflexivity.
  - cbn [Predictor.predict]. rewrite Em. cbn. split; reflexivity.
Qed.

End PredictorFirstCall.

(** Price 105 and a network that answers 0.5: the prediction is 105. *)
Lemma first_prediction_witness :
  let s := @Predictor.mkState (Predictor.constant 0.5) true true None [] tt in
  let x := (105 - 105 * 0.9) / (105 * 1.1 - 105 * 0.9) in
  x == 0.5
  /\ forall y e',
       Predictor.tf_predict (Predictor.constant 0.5) (repeat x 60) tt = (Return y, e') ->
       exists v s',
         Predictor.predict (Predictor.constant 0.5) Predictor.agentConfig 2 [105] s
         = Some (Return v, s')
         /\ v == 105 * (0.9 + 0.2 * y)
         /\ (v - 105) / 105 == 0.2 * y - 0.1.
Proof.
  intros s.
  apply (first_prediction (Predictor.constant 0.5) Predictor.agentConfig 105 s);
    reflexivity.
Defined.

(** ** The chain client *)

Section HyperionFacts.

Variable rt : Hyperion.Runtime.

(** The deadline sent with a trade lies between 299 and 300 seconds
    after the call, in whole seconds. *)
Lemma deadlineAt_bounds (nowMs : Z) :
  (nowMs + 299000 < Hyperion.deadlineAt nowMs * 1000 <= nowMs + 300000)%Z.
Proof.
  unfold Hyperion.deadlineAt.
  pose proof (Z.div_mod nowMs 1000 ltac:(lia)) as Hd.
  pose proof (Z.mod_pos_bound nowMs 1000 ltac:(lia)) as Hm.
  lia.
Qed.

(** [executeTrade] of the chain client: it returns the hash of the
    transaction exactly when the contract accepted the trade and the
    transaction was confirmed; the trade is submitted with the caller's
    tokens and amounts and a deadline 299 to 300 s ahead.  When the
    submission or the confirmation throws, the same error is thrown after
    the line "Trade execution failed:"; in the second case the
    transaction was already sent. *)
Theorem executeTrade_outcome (params : Hyperion.TradeParams)
  (s : Hyperion.State rt) :
  let (t, c0) := Hyperion.now rt (Hyperion.chain s) in
  let sent :=
    Hyperion.mkTradeCall (Hyperion.tokenIn params) (Hyperion.tokenOut params)
      (Hyperion.amountIn params) (Hyperion.minAmountOut params)
      (Hyperion.deadlineAt t) in
  (t + 299000 < Hyperion.call_deadline sent * 1000 <= t + 300000)%Z
  /\ match Hyperion.contract_trade rt sent c0 with
     | (Throw e, c1) =>
         fst (Hyperion.executeTrade rt params s) = Throw e
         /\ Hyperion.chain (snd (Hyperion.executeTrade rt params s)) = c1
         /\ last (Hyperion.lines (snd (Hyperion.executeTrade rt params s))) (Info "")
            = Error "Trade execution failed:" e
     | (Return hash, c1) =>
         match Hyperion.tx_wait rt hash c1 with
         | (Throw e, c2) =>
             fst (Hyperion.executeTrade rt params s) = Throw e
             /\ Hyperion.chain (snd (Hyperion.executeTrade rt params s)) = c2
             /\ In (Info ("Trade transaction sent: " ++ hash))
                  (Hyperion.lines (snd (Hyperion.executeTrade rt params s)))
         | (Return blockNumber, c2) =>
             fst (Hyperion.executeTrade rt params s) = Return hash
             /\ Hyperion.chain (snd (Hyperion.executeTrade rt params s)) = c2
         end
     end.
Proof.
  unfold Hyperion.executeTrade, catchS, bindS, Hyperion.info, Hyperion.error,
    Hyperion.call, throwS, retS.
  cbn [Hyperion.chain Hyperion.lines].
  destruct (Hyperion.now rt (Hyperion.chain s)) as [t c0].
  cbn [Hyperion.chain Hyperion.lines Hyperion.call_deadline].
  split; [apply deadlineAt_bounds|].
  destruct (Hyperion.contract_trade rt _ c0) as [[hash|e] c1];
    cbn [Hyperion.chain Hyperion.lines fst snd].
  - destruct (Hyperion.tx_wait rt hash c1) as [[blockNumber|e] c2];
      cbn [Hyperion.chain Hyperion.lines fst snd].
    + split; reflexivity.
    + split; [reflexivity|]. split; [reflexivity|].
      rewrite !in_app_iff. left. right. left. reflexivity.
  - split; [reflexivity|]. split; [reflexivity|]. apply last_last.
Qed.

(** The reading methods never throw: when the contract call throws,
    [getActivePairs] returns the empty list and [getPairDetails] returns
    null, after logging the error; otherwise they return what the
    contract gave (the details with their amounts as strings). *)
Theorem reads_never_throw (pairId : string) (s : Hyperion.State rt) :
  match Hyperion.contract_getActivePairs rt (Hyperion.chain s) with
  | (Return pairIds, c) =>
      Hyperion.getActivePairs rt s = (Return pairIds, Hyperion.mkState (Hyperion.lines s) c)
  | (Throw e, c) =>
      Hyperion.getActivePairs rt s
      = (Return [],
         Hyperion.mkState
           (Hyperion.lines s ++ [Error "Failed to get active pairs:" e]) c)
  end
  /\ match Hyperion.contract_getPairDetails rt pairId (Hyperion.chain s) with
     | (Return details, c) =>
         exists d,
           Hyperion.getPairDetails rt pairId s
           = (Return (Some d), Hyperion.mkState (Hyperion.lines s) c)
           /\ Hyperion.tokenA d = Hyperion.t_tokenA details
           /\ Hyperion.tokenB d = Hyperion.t_tokenB details
           /\ Hyperion.reserveA d = Hyperion.show rt (Hyperion.t_reserveA details)
           /\ Hyperion.isActive d = Hyperion.t_isActive details
     | (Throw e, c) =>
         Hyperion.getPairDetails rt pairId s
         = (Return None,
            Hyperion.mkState
              (Hyperion.lines s ++ [Error "Failed to get pair details:" e]) c)
     end.
Proof.
  unfold Hyperion.getActivePairs, Hyperion.getPairDetails, catchS, bindS,
    Hyperion.call, Hyperion.error, retS.
  split.
  - destruct (Hyperion.contract_getActivePairs rt (Hyperion.chain s))
      as [[pairIds|e] c]; reflexivity.
  - destruct (Hyperion.contract_getPairDetails rt pairId (Hyperion.chain s))
      as [[details|e] c]; [|reflexivity].
    eexists. split; [reflexivity|]. repeat split.
Qed.

End HyperionFacts.

(** ** The trading loop of the Alith agent *)

Lemma split_no_slash (s : string) :
  no_slash s = true -> split "/"%char s = [s].
Proof.
  induction s as [|c rest IH]; [reflexivity|]. cbn [no_slash split].
  intro H. apply andb_true_iff in H as [Hc Hr].
  apply negb_true_iff in Hc. rewrite Hc, (IH Hr). reflexivity.
Qed.

Lemma split_pair (a b : string) :
  no_slash a = true -> no_slash b = true ->
  split "/"%char (a ++ "/" ++ b) = [a; b].
Proof.
  intros Ha Hb. induction a as [|c rest IH].
  - cbn. rewrite (split_no_slash b Hb). reflexivity.
  - cbn [no_slash] in Ha. apply andb_true_iff in Ha as [Hc Hr].
    apply negb_true_iff in Hc. cbn [String.append split]. rewrite Hc.
    change (rest ++ String "/" b)%string with (rest ++ "/" ++ b)%string.
    rewrite (IH Hr). reflexivity.
Qed.

Section AiTradingFacts.

Variable art : AiAgents.Runtime.
Variable hrt : Hyperion.Runtime.
Variable sv : AiTrading.Services.

(** For a pair written "A/B" (no slash inside A or B) a BUY spends B to
    get A and any other action spends A to get B; the minimum amount out
    is always "0" and the amount defaults to 10^18 when the signal has
    none (or an empty one).  A pair without slash leaves the second
    token undefined. *)
Theorem tradeParams_tokens (a b : string) (signal : AiAgents.TradingSignal)
  (marketData : AiAgents.MarketData) :
  no_slash a = true ->
  no_slash b = true ->
  (AiAgents.pair marketData = (a ++ "/" ++ b)%string ->
   let p := AiTrading.tradeParams signal marketData in
   (AiAgents.action signal = AiAgents.BUY ->
    Hyperion.tokenIn p = Some b /\ Hyperion.tokenOut p = Some a)
   /\ (AiAgents.action signal <> AiAgents.BUY ->
       Hyperion.tokenIn p = Some a /\ Hyperion.tokenOut p = Some b)
   /\ Hyperion.minAmountOut p = "0"
   /\ (AiAgents.amount signal = None \/ AiAgents.amount signal = Some "" ->
       Hyperion.amountIn p = "1000000000000000000"))
  /\ (AiAgents.pair marketData = a ->
      AiAgents.action signal = AiAgents.BUY ->
      Hyperion.tokenIn (AiTrading.tradeParams signal marketData) = None
      /\ Hyperion.tokenOut (AiTrading.tradeParams signal marketData) = Some a).
Proof.
  intros Ha Hb. split.
  - intros Hp p. unfold p, AiTrading.tradeParams, splitPair.
    rewrite Hp, (split_pair a b Ha Hb). cbn [nth_error].
    cbn [Hyperion.tokenIn Hyperion.tokenOut Hyperion.minAmountOut
           Hyperion.amountIn].
    split; [|split; [|split]].
    + intro H. rewrite H. split; reflexivity.
    + intro H. destruct (AiAgents.action signal);
        try (split; reflexivity). congruence.
    + reflexivity.
    + intros [H|H]; rewrite H; reflexivity.
  - intros Hp Hbuy. unfold AiTrading.tradeParams, splitPair.
    rewrite Hp, (split_no_slash a Ha), Hbuy. split; reflexivity.
Qed.

Variable run :
  string -> AiAgents.MarketData -> AiTrading.Reach art hrt sv
  -> completion string * AiTrading.Reach art hrt sv.

(** Every analysis returns a signal that the guard of the loop refuses,
    keeps the running flag, and logs at most the error of the agent. *)
Lemma analyze_low_confidence (marketData : AiAgents.MarketData)
  (s : AiTrading.State art hrt sv) :
  exists signal,
    fst (AiTrading.analyze art hrt sv run marketData s) = Return signal
    /\ AiAgents.highConfidence signal = false
    /\ AiTrading.isRunning art hrt sv
         (snd (AiTrading.analyze art hrt sv run marketData s))
       = AiTrading.isRunning art hrt sv s
    /\ (AiTrading.lines art hrt sv
          (snd (AiTrading.analyze art hrt sv run marketData s))
        = AiTrading.lines art hrt sv s
        \/ exists e,
             AiTrading.lines art hrt sv
               (snd (AiTrading.analyze art hrt sv run marketData s))
             = AiTrading.lines art hrt sv s
               ++ [Error "Error generating trading signal:" e])
    /\ (AiTrading.leaves_client art hrt sv run ->
        AiTrading.client art hrt sv
          (snd (AiTrading.analyze art hrt sv run marketData s))
        = AiTrading.client art hrt sv s).
Proof.
  unfold AiTrading.analyze, AiAgents.analyzeMarketAndGenerateSignal,
    AiAgents.askAgent.
  cbn [AiAgents.renderPrompt AiAgents.agent_run AiTrading.agentWithTools
    AiAgents.env AiAgents.errors].
  destruct (AiAgents.renderPrompt art marketData) as [prompt|e].
  - pose proof (fun H : AiTrading.leaves_client art hrt sv run =>
                  H prompt marketData (AiTrading.agentEnv art hrt sv s)
                    (AiTrading.client art hrt sv s) (AiTrading.ext art hrt sv s))
      as Hk.
    destruct (run prompt marketData _) as [[content|e] [[a c] x]];
      cbn [fst snd AiAgents.env AiAgents.errors map app
        AiTrading.isRunning AiTrading.lines AiTrading.client] in *;
      eexists; (split; [reflexivity|]); (split; [reflexivity|]);
      (split; [reflexivity|]).
    + split; [left; apply app_nil_r | exact Hk].
    + split; [right; exists e; reflexivity | exact Hk].
  - cbn [fst snd AiAgents.env AiAgents.errors map app
      AiTrading.isRunning AiTrading.lines AiTrading.client].
    eexists. split; [reflexivity|]. split; [reflexivity|].
    split; [reflexivity|]. split; [right; exists e; reflexivity|].
    intros _. reflexivity.
Qed.

(** The loop over the markets is the analyses alone: no signal passes
    the guard. *)
Lemma forMarkets_analysed (markets : list AiAgents.MarketData)
  (s : AiTrading.State art hrt sv) :
  AiTrading.forMarkets art hrt sv run markets s
  = (Return tt, AiTrading.analysed art hrt sv run markets s).
Proof.
  revert s. induction markets as [|market rest IH]; intro s.
  - reflexivity.
  - cbn [AiTrading.forMarkets AiTrading.analysed fold_left].
    unfold bindS at 1.
    destruct (analyze_low_confidence market s) as (signal & Ha & Hc & _).
    destruct (AiTrading.analyze art hrt sv run market s) as [r s1].
    cbn [fst snd] in Ha |- *. subst r. rewrite Hc.
    unfold bindS at 1. unfold retS at 1. apply IH.
Qed.

Lemma analysed_frame (markets : list AiAgents.MarketData)
  (s : AiTrading.State art hrt sv) :
  AiTrading.isRunning art hrt sv (AiTrading.analysed art hrt sv run markets s)
  = AiTrading.isRunning art hrt sv s
  /\ (forall l,
        In l (AiTrading.lines art hrt sv
                (AiTrading.analysed art hrt sv run markets s)) ->
        In l (AiTrading.lines art hrt sv s)
        \/ exists e, l = Error "Error generating trading signal:" e)
  /\ (AiTrading.leaves_client art hrt sv run ->
      AiTrading.client art hrt sv (AiTrading.analysed art hrt sv run markets s)
      = AiTrading.client art hrt sv s).
Proof.
  revert s. induction markets as [|market rest IH]; intro s.
  - cbn. repeat split. intros l H. left. exact H.
  - cbn [AiTrading.analysed fold_left].
    destruct (analyze_low_confidence market s) as (signal & _ & _ & H1 & H2 & H3).
    destruct (IH (snd (AiTrading.analyze art hrt sv run market s)))
      as (I1 & I2 & I3).
    fold (AiTrading.analysed art hrt sv run rest
            (snd (AiTrading.analyze art hrt sv run market s))).
    split; [congruence|]. split.
    + intros l Hl. destruct (I2 l Hl) as [Hin|He]; [|right; exact He].
      destruct H2 as [H2|[e H2]]; rewrite H2 in Hin.
      * left. exact Hin.
      * apply in_app_or in Hin. destruct Hin as [Hin|[<-|[]]].
        { left. exact Hin. }
        { right. exists e. reflexivity. }
    + intro Hk. rewrite (I3 Hk). apply H3. exact Hk.
Qed.

(** A round of the trading loop never throws and never executes a
    signal: every signal the analysis returns has confidence 50 (parsed
    answer) or 30 (fallback), which the guard [confidence > 70] refuses.
    Whatever the markets and the answers of the Alith agent, the state
    after the round is the one the analyses alone leave, the running flag
    is as before, and the only lines the round adds to the agent's logger
    are error lines (none of "Executing trading signal").  The chain
    client can change during a round only through the tools the Alith
    agent calls: when it calls none that reaches the client, the client is
    as before the round. *)
Theorem round_executes_no_signal (s : AiTrading.State art hrt sv) :
  exists s',
    AiTrading.round art hrt sv run s = (Return tt, s')
    /\ AiTrading.isRunning art hrt sv s' = AiTrading.isRunning art hrt sv s
    /\ (forall markets x,
          AiTrading.provider_getAllMarketData sv (AiTrading.ext art hrt sv s)
          = (Return markets, x) ->
          s' = AiTrading.analysed art hrt sv run markets
                 (AiTrading.mkState art hrt sv (AiTrading.isRunning art hrt sv s)
                    (AiTrading.lines art hrt sv s)
                    (AiTrading.agentEnv art hrt sv s)
                    (AiTrading.client art hrt sv s) x))
    /\ (forall l,
          In l (AiTrading.lines art hrt sv s') ->
          In l (AiTrading.lines art hrt sv s)
          \/ exists e,
               l = Error "Error generating trading signal:" e
               \/ l = Error "Error in trading loop:" e)
    /\ (AiTrading.leaves_client art hrt sv run ->
        AiTrading.client art hrt sv s' = AiTrading.client art hrt sv s).
Proof.
  unfold AiTrading.round, catchS. unfold bindS at 1. unfold AiTrading.onExt.
  destruct (AiTrading.provider_getAllMarketData sv (AiTrading.ext art hrt sv s))
    as [[markets|e] x].
  - rewrite forMarkets_analysed.
    match goal with
    | |- context [AiTrading.analysed art hrt sv run markets ?s0] =>
        destruct (analysed_frame markets s0) as (H1 & H2 & H3)
    end.
    cbn [AiTrading.isRunning AiTrading.lines AiTrading.client] in H1, H2, H3.
    eexists. split; [reflexivity|]. split; [exact H1|]. split.
    + intros markets' x' E. inversion E; subst. reflexivity.
    + split; [|exact H3].
      intros l Hl. destruct (H2 l Hl) as [Hin|[e He]]; [left; exact Hin|].
      right. exists e. left. exact He.
  - eexists. split; [reflexivity|].
    cbn [AiTrading.error AiTrading.isRunning AiTrading.lines AiTrading.client].
    split; [reflexivity|]. split; [intros markets x' E; discriminate E|].
    split; [|intros _; reflexivity].
    intros l Hl. apply in_app_or in Hl. destruct Hl as [Hin|[<-|[]]].
    + left. exact Hin.
    + right. exists e. right. reflexivity.
Qed.

(** Executing a signal never throws: an error of the chain client or of
    the optimizer is logged as "Error executing trading signal:"; a HOLD
    signal only logs and leaves the chain client and the other
    collaborators untouched. *)
Theorem executeTradingSignal_never_throws (signal : AiAgents.TradingSignal)
  (marketData : AiAgents.MarketData) (s : AiTrading.State art hrt sv) :
  fst (AiTrading.executeTradingSignal art hrt sv signal marketData s) = Return tt
  /\ (AiAgents.action signal = AiAgents.HOLD ->
      AiTrading.client art hrt sv
        (snd (AiTrading.executeTradingSignal art hrt sv signal marketData s))
      = AiTrading.client art hrt sv s
      /\ AiTrading.ext art hrt sv
           (snd (AiTrading.executeTradingSignal art hrt sv signal marketData s))
         = AiTrading.ext art hrt sv s)
  /\ (forall e c,
        AiAgents.action signal = AiAgents.BUY \/ AiAgents.action signal = AiAgents.SELL ->
        Hyperion.executeTrade hrt (AiTrading.tradeParams signal marketData)
          (AiTrading.client art hrt sv s) = (Throw e, c) ->
        last (AiTrading.lines art hrt sv
                (snd (AiTrading.executeTradingSignal art hrt sv signal marketData s)))
             (Info "")
        = Error "Error executing trading signal:" e).
Proof.
  unfold AiTrading.executeTradingSignal, catchS.
  split; [|split].
  - unfold bindS, AiTrading.info.
    match goal with
    | |- fst (let (c, s') := ?m ?s0 in _) = _ => destruct (m s0) as [[[]|e] s']
    end; reflexivity.
  - intro H. rewrite H. split; reflexivity.
  - intros e c Hact Hc.
    assert (Hx : AiTrading.executeTrade art hrt sv signal marketData
                   (AiTrading.mkState art hrt sv (AiTrading.isRunning art hrt sv s)
                      (AiTrading.lines art hrt sv s
                       ++ [Info ("Executing trading signal: "
                                 ++ AiTrading.actionName (AiAgents.action signal)
                                 ++ " for " ++ AiAgents.pair marketData)])
                      (AiTrading.agentEnv art hrt sv s)
                      (AiTrading.client art hrt sv s) (AiTrading.ext art hrt sv s))
                 = (Throw e,
                    AiTrading.mkState art hrt sv (AiTrading.isRunning art hrt sv s)
                      (AiTrading.lines art hrt sv s
                       ++ [Info ("Executing trading signal: "
                                 ++ AiTrading.actionName (AiAgents.action signal)
                                 ++ " for " ++ AiAgents.pair marketData)])
                      (AiTrading.agentEnv art hrt sv s) c
                      (AiTrading.ext art hrt sv s))).
    { unfold AiTrading.executeTrade, bindS, AiTrading.onClient.
      cbn [AiTrading.client]. rewrite Hc. reflexivity. }
    destruct Hact as [Ha|Ha]; rewrite Ha in Hx |- *;
      unfold bindS, AiTrading.info; rewrite Hx; cbn; apply last_last.
Qed.

(** When the chain client cannot connect, [start] throws and leaves the
    agent flagged as running, although its loop was not launched. *)
Theorem start_failure_leaves_running (s : AiTrading.State art hrt sv)
  (e : JsError) (c : Hyperion.State hrt) :
  Hyperion.connect hrt (AiTrading.client art hrt sv s) = (Throw e, c) ->
  fst (AiTrading.start art hrt sv s) = Throw e
  /\ AiTrading.isRunning art hrt sv (snd (AiTrading.start art hrt sv s)) = true
  /\ AiTrading.ext art hrt sv (snd (AiTrading.start art hrt sv s))
     = AiTrading.ext art hrt sv s.
Proof.
  intro H. unfold AiTrading.start, bindS, AiTrading.info, AiTrading.set_isRunning,
    AiTrading.onClient.
  cbn [AiTrading.client]. rewrite H. repeat split.
Qed.

End AiTradingFacts.


(** ** The market predictor *)

Lemma lastn_length {A} (n : nat) (l : list A) :
  List.length (MarketPredictor.lastn n l) = Nat.min n (List.length l).
Proof. unfold MarketPredictor.lastn. rewrite length_skipn. lia. Qed.

Lemma lastn_all {A} (n : nat) (l : list A) :
  (List.length l <= n)%nat -> MarketPredictor.lastn n l = l.
Proof.
  intro H. unfold MarketPredictor.lastn.
  replace (List.length l - n)%nat with 0%nat by lia. reflexivity.
Qed.

Section MarketPredictorFacts.

Variable rt : MarketPredictor.Runtime.

(** What [predict] does when the model is there. *)
Lemma predict_with_model (md : AiAgents.MarketData) (s : MarketPredictor.State rt) :
  MarketPredictor.model s = true ->
  let h := MarketPredictor.lastn 1000 (MarketPredictor.historicalData s ++ [md]) in
  MarketPredictor.predict rt md s
  = if (List.length h <? MarketPredictor.sequenceLength)%nat then
      (Return (MarketPredictor.getBasicPrediction md),
       MarketPredictor.mkState true (MarketPredictor.isTraining s) h
         (MarketPredictor.lines s) (MarketPredictor.env s))
    else
      match MarketPredictor.tf_predict rt (MarketPredictor.prepareInputData rt h)
              (MarketPredictor.env s) with
      | (Return y, e) =>
          (Return (AiTrading.mkPricePrediction y
                     (MarketPredictor.calculateConfidence h)
                     (MarketPredictor.analyzeTrend (AiAgents.price md) y)
                     (MarketPredictor.calculateVolatility rt h)),
           MarketPredictor.mkState true (MarketPredictor.isTraining s) h
             (MarketPredictor.lines s) e)
      | (Throw err, e) =>
          (Return (MarketPredictor.getBasicPrediction md),
           MarketPredictor.mkState true (MarketPredictor.isTraining s) h
             (MarketPredictor.lines s ++ [Error "Prediction failed:" err]) e)
      end.
Proof.
  intro Hm. destruct s as [m t h0 l e0]. cbn [MarketPredictor.model] in Hm.
  subst m. intro h.
  unfold MarketPredictor.predict, catchS, bindS, MarketPredictor.get,
    MarketPredictor.set_history, retS, throwS, MarketPredictor.call,
    MarketPredictor.log.
  cbn [MarketPredictor.historicalData MarketPredictor.model
    MarketPredictor.isTraining MarketPredictor.lines MarketPredictor.env].
  assert (Hh :
    (if (1000 <? List.length (h0 ++ [md]))%nat
     then MarketPredictor.lastn 1000 (h0 ++ [md])
     else h0 ++ [md]) = h).
  { subst h. destruct (Nat.ltb_spec 1000 (List.length (h0 ++ [md]))) as [H|H];
      [reflexivity|]. symmetry. apply lastn_all. exact H. }
  destruct (1000 <? List.length (h0 ++ [md]))%nat;
    cbn [MarketPredictor.historicalData MarketPredictor.model
      MarketPredictor.isTraining MarketPredictor.lines MarketPredictor.env];
    rewrite Hh;
    (destruct (List.length h <? MarketPredictor.sequenceLength)%nat;
     [reflexivity|]);
    cbn [MarketPredictor.historicalData MarketPredictor.model
      MarketPredictor.isTraining MarketPredictor.lines MarketPredictor.env];
    destruct (MarketPredictor.tf_predict rt
      (MarketPredictor.prepareInputData rt h) e0) as [[y|err] e];
    reflexivity.
Qed.

Lemma predict_without_model (md : AiAgents.MarketData) (s : MarketPredictor.State rt) :
  MarketPredictor.model s = false ->
  MarketPredictor.predict rt md s
  = (Return (MarketPredictor.getBasicPrediction md),
     MarketPredictor.mkState false (MarketPredictor.isTraining s)
       (MarketPredictor.historicalData s)
       (MarketPredictor.lines s
        ++ [Error "Prediction failed:" (mkError "Model not initialized")])
       (MarketPredictor.env s)).
Proof.
  intro Hm. destruct s as [m t h0 l e0]. cbn [MarketPredictor.model] in Hm.
  subst m. reflexivity.
Qed.

Lemma of_nat_le (a b : nat) :
  (a <= b)%nat -> inject_Z (Z.of_nat a) <= inject_Z (Z.of_nat b).
Proof. intro H. rewrite <- Zle_Qle. lia. Qed.

Lemma calculateConfidence_bounds (h : list AiAgents.MarketData) :
  0 <= MarketPredictor.calculateConfidence h <= 80.
Proof.
  unfold MarketPredictor.calculateConfidence, Math_min.
  pose proof (of_nat_le 0 (List.length h) (Nat.le_0_l _)) as H0.
  change (inject_Z (Z.of_nat 0)) with 0 in H0.
  set (n := inject_Z (Z.of_nat (List.length h))) in *.
  assert (E : n == (n / 100) * 100) by field.
  set (m := n / 100) in *.
  assert (Hq : 0 <= Qmin m 1 <= 1).
  { split; [apply Q.min_glb; lra | apply Q.le_min_r]. }
  set (q := Qmin m 1) in *. lra.
Qed.

Lemma calculateConfidence_enough (h : list AiAgents.MarketData) :
  (60 <= List.length h)%nat -> 48 <= MarketPredictor.calculateConfidence h.
Proof.
  intro H. unfold MarketPredictor.calculateConfidence, Math_min.
  apply of_nat_le in H. change (inject_Z (Z.of_nat 60)) with 60 in H.
  set (n := inject_Z (Z.of_nat (List.length h))) in *.
  assert (E : n == (n / 100) * 100) by field.
  set (m := n / 100) in *.
  assert (Hq : 0.6 <= Qmin m 1) by (apply Q.min_glb; lra).
  set (q := Qmin m 1) in *. lra.
Qed.

Lemma calculateConfidence_high (h : list AiAgents.MarketData) :
  70 < MarketPredictor.calculateConfidence h -> (88 <= List.length h)%nat.
Proof.
  intro H. destruct (Nat.le_gt_cases 88 (List.length h)) as [Hn|Hn];
    [exact Hn|]. exfalso.
  assert (Hle : (List.length h <= 87)%nat) by lia.
  apply of_nat_le in Hle. change (inject_Z (Z.of_nat 87)) with 87 in Hle.
  unfold MarketPredictor.calculateConfidence, Math_min in H.
  set (n := inject_Z (Z.of_nat (List.length h))) in *.
  assert (E : n == (n / 100) * 100) by field.
  set (m := n / 100) in *.
  pose proof (Q.le_min_l m 1) as Hq.
  set (q := Qmin m 1) in *. lra.
Qed.

Lemma Qgtb_false (a b : Q) : a <= b -> Qgtb a b = false.
Proof. intro H. apply Qltb_ge. exact H. Qed.

Lemma basic_change (p : Q) : (p * 1.001 - p) / p == 0 \/ (p * 1.001 - p) / p == 0.001.
Proof.
  destruct (Qeq_dec p 0) as [E|E].
  - left. rewrite E. reflexivity.
  - right. field. exact E.
Qed.

(** The neutral trend of the basic prediction is the one [analyzeTrend]
    gives for its price. *)
Lemma analyzeTrend_basic (p : Q) : MarketPredictor.analyzeTrend p (p * 1.001) = 0.
Proof.
  unfold MarketPredictor.analyzeTrend.
  assert (H : Qgtb ((p * 1.001 - p) / p) 0.02 = false
              /\ Qltb ((p * 1.001 - p) / p) (-0.02) = false).
  { destruct (basic_change p) as [E|E]; split.
    - apply Qltb_ge. rewrite E. lra.
    - apply Qltb_ge. rewrite E. lra.
    - apply Qltb_ge. rewrite E. lra.
    - apply Qltb_ge. rewrite E. lra. }
  destruct H as [H1 H2]. rewrite H1, H2. reflexivity.
Qed.

Lemma predict_falls_back (md : AiAgents.MarketData) (s : MarketPredictor.State rt) :
  MarketPredictor.model s = false
  \/ (List.length (MarketPredictor.historicalData s) < 59)%nat
  \/ (exists err,
        fst (MarketPredictor.tf_predict rt
               (MarketPredictor.prepareInputData rt
                  (MarketPredictor.lastn 1000
                     (MarketPredictor.historicalData s ++ [md])))
               (MarketPredictor.env s)) = Throw err) ->
  fst (MarketPredictor.predict rt md s)
  = Return (MarketPredictor.getBasicPrediction md).
Proof.
  intro H. destruct (MarketPredictor.model s) eqn:Hm.
  - rewrite (predict_with_model md s Hm). cbv zeta.
    set (h := MarketPredictor.lastn 1000 (MarketPredictor.historicalData s ++ [md])) in *.
    destruct (Nat.ltb_spec (List.length h) MarketPredictor.sequenceLength) as [Hl|Hl];
      [reflexivity|].
    destruct H as [H|[H|[err H]]].
    + discriminate H.
    + exfalso. subst h. rewrite lastn_length, length_app in Hl.
      cbn [List.length] in Hl. unfold MarketPredictor.sequenceLength in Hl. lia.
    + destruct (MarketPredictor.tf_predict rt
        (MarketPredictor.prepareInputData rt h) (MarketPredictor.env s))
        as [[y|err'] e]; [discriminate H | reflexivity].
  - rewrite (predict_without_model md s Hm). reflexivity.
Qed.

(** [predict] returns the basic prediction (the price times 1.001,
    confidence 30, neutral trend, volatility 0.1) instead of throwing when
    the model is missing, when fewer than 60 data points are held after
    adding this one, and when the inference throws. *)
Theorem predict_basic (md : AiAgents.MarketData) (s : MarketPredictor.State rt) :
  MarketPredictor.model s = false
  \/ (List.length (MarketPredictor.historicalData s) < 59)%nat
  \/ (exists err,
        fst (MarketPredictor.tf_predict rt
               (MarketPredictor.prepareInputData rt
                  (MarketPredictor.lastn 1000
                     (MarketPredictor.historicalData s ++ [md])))
               (MarketPredictor.env s)) = Throw err) ->
  fst (MarketPredictor.predict rt md s)
  = Return (MarketPredictor.getBasicPrediction md).
Proof. apply predict_falls_back. Qed.

Lemma predict_result (md : AiAgents.MarketData) (s : MarketPredictor.State rt) :
  exists p,
    fst (MarketPredictor.predict rt md s) = Return p
    /\ 30 <= AiTrading.pp_confidence p <= 80
    /\ MarketPredictor.historicalData (snd (MarketPredictor.predict rt md s))
       = (if MarketPredictor.model s
          then MarketPredictor.lastn 1000 (MarketPredictor.historicalData s ++ [md])
          else MarketPredictor.historicalData s)
    /\ (MarketPredictor.model s = true ->
        List.length (MarketPredictor.historicalData
                       (snd (MarketPredictor.predict rt md s)))
        = Nat.min 1000 (S (List.length (MarketPredictor.historicalData s)))
        /\ last (map Some (MarketPredictor.historicalData
                             (snd (MarketPredictor.predict rt md s)))) None
           = Some md).
Proof.
  assert (Hlast : forall h : list AiAgents.MarketData,
    last (map Some (MarketPredictor.lastn 1000 (h ++ [md]))) None = Some md).
  { intro h. unfold MarketPredictor.lastn.
    rewrite skipn_app.
    replace (List.length (h ++ [md]) - 1000 - List.length h)%nat with 0%nat
      by (rewrite length_app; cbn [List.length]; lia).
    cbn [skipn]. rewrite map_app. cbn [map]. apply last_last. }
  destruct (MarketPredictor.model s) eqn:Hm.
  - rewrite (predict_with_model md s Hm). cbv zeta.
    set (h := MarketPredictor.lastn 1000 (MarketPredictor.historicalData s ++ [md])) in *.
    assert (Hlen : List.length h
                   = Nat.min 1000 (S (List.length (MarketPredictor.historicalData s)))).
    { subst h. rewrite lastn_length, length_app. cbn [List.length]. f_equal. lia. }
    destruct (Nat.ltb_spec (List.length h) MarketPredictor.sequenceLength) as [Hl|Hl].
    + eexists. split; [reflexivity|]. cbn [fst snd MarketPredictor.historicalData
        MarketPredictor.getBasicPrediction AiTrading.pp_confidence].
      split; [lra|]. split; [reflexivity|]. intros _. split; [exact Hlen|].
      subst h. apply Hlast.
    + destruct (MarketPredictor.tf_predict rt
        (MarketPredictor.prepareInputData rt h) (MarketPredictor.env s))
        as [[y|err] e]; eexists; (split; [reflexivity|]);
        cbn [fst snd MarketPredictor.historicalData
          MarketPredictor.getBasicPrediction AiTrading.pp_confidence].
      * split.
        { pose proof (calculateConfidence_bounds h) as [_ Hu].
          pose proof (calculateConfidence_enough h Hl). split; lra. }
        split; [reflexivity|]. intros _. split; [exact Hlen|].
        subst h. apply Hlast.
      * split; [lra|]. split; [reflexivity|]. intros _. split; [exact Hlen|].
        subst h. apply Hlast.
  - rewrite (predict_without_model md s Hm). eexists. split; [reflexivity|].
    cbn [fst snd MarketPredictor.historicalData
      MarketPredictor.getBasicPrediction AiTrading.pp_confidence].
    split; [lra|]. split; [reflexivity|]. intro H. discriminate H.
Qed.

(** [predict] always returns a prediction, with a confidence between
    30 and 80; with a model it leaves the last 1000 data points, this one
    last, in the history, and without a model it leaves the history as it
    was. *)
Theorem predict_returns (md : AiAgents.MarketData) (s : MarketPredictor.State rt) :
  exists p,
    fst (MarketPredictor.predict rt md s) = Return p
    /\ 30 <= AiTrading.pp_confidence p <= 80
    /\ MarketPredictor.historicalData (snd (MarketPredictor.predict rt md s))
       = (if MarketPredictor.model s
          then MarketPredictor.lastn 1000 (MarketPredictor.historicalData s ++ [md])
          else MarketPredictor.historicalData s)
    /\ (MarketPredictor.model s = true ->
        List.length (MarketPredictor.historicalData
                       (snd (MarketPredictor.predict rt md s)))
        = Nat.min 1000 (S (List.length (MarketPredictor.historicalData s)))
        /\ last (map Some (MarketPredictor.historicalData
                             (snd (MarketPredictor.predict rt md s)))) None
           = Some md).
Proof. apply predict_result. Qed.

(** A recommendation built from [predict]'s result passes the trading
    loop's threshold (confidence above 70) only when the model is there,
    at least 88 data points are held and the liquidity analysis is itself
    above 70. *)
Theorem recommendation_high_confidence (md : AiAgents.MarketData)
  (s : MarketPredictor.State rt) (p : AiTrading.PricePrediction)
  (liq : AiTrading.LiquidityAnalysis) (mev : AiTrading.MevRisk) :
  fst (MarketPredictor.predict rt md s) = Return p ->
  AiAgents.highConfidence (AiTrading.generateRecommendation p liq mev) = true ->
  MarketPredictor.model s = true
  /\ (88 <= List.length (MarketPredictor.historicalData
                           (snd (MarketPredictor.predict rt md s))))%nat
  /\ 70 < AiTrading.la_confidence liq.
Proof.
  intros Hp Hc. unfold AiAgents.highConfidence, AiTrading.generateRecommendation in Hc.
  cbn [AiAgents.confidence] in Hc. apply Qgtb_gt in Hc. unfold Math_min in Hc.
  assert (H1 : 70 < AiTrading.pp_confidence p)
    by (eapply Qlt_le_trans; [exact Hc | apply Q.le_min_l]).
  assert (H2 : 70 < AiTrading.la_confidence liq)
    by (eapply Qlt_le_trans; [exact Hc | apply Q.le_min_r]).
  clear Hc. revert Hp.
  destruct (MarketPredictor.model s) eqn:Hm.
  - rewrite (predict_with_model md s Hm). cbv zeta.
    set (h := MarketPredictor.lastn 1000 (MarketPredictor.historicalData s ++ [md])) in *.
    destruct (List.length h <? MarketPredictor.sequenceLength)%nat.
    + cbn [fst]. intro Hp. injection Hp as Hp. subst p.
      cbn [MarketPredictor.getBasicPrediction AiTrading.pp_confidence] in H1. lra.
    + destruct (MarketPredictor.tf_predict rt
        (MarketPredictor.prepareInputData rt h) (MarketPredictor.env s))
        as [[y|err] e]; cbn [fst snd MarketPredictor.historicalData];
        intro Hp; injection Hp as Hp; subst p.
      * cbn [AiTrading.pp_confidence] in H1.
        split; [reflexivity|]. split; [|exact H2].
        apply calculateConfidence_high. exact H1.
      * cbn [MarketPredictor.getBasicPrediction AiTrading.pp_confidence] in H1. lra.
  - rewrite (predict_without_model md s Hm). cbn [fst]. intro Hp.
    injection Hp as Hp. subst p.
    cbn [MarketPredictor.getBasicPrediction AiTrading.pp_confidence] in H1. lra.
Qed.

(** While fewer than 60 data points are held the recommendation built
    from [predict]'s result is to sell, at an expected price of 1.001
    times the current one, with a confidence of at most 30, which the
    trading loop's threshold rejects. *)
Theorem recommendation_with_short_history (md : AiAgents.MarketData)
  (s : MarketPredictor.State rt)
  (liq : AiTrading.LiquidityAnalysis) (mev : AiTrading.MevRisk) :
  (List.length (MarketPredictor.historicalData s) < 59)%nat ->
  exists p,
    fst (MarketPredictor.predict rt md s) = Return p
    /\ AiTrading.trend p = MarketPredictor.analyzeTrend (AiAgents.price md)
                             (AiTrading.predictedPrice p)
    /\ let signal := AiTrading.generateRecommendation p liq mev in
       AiAgents.action signal = AiAgents.SELL
       /\ AiAgents.expectedPrice signal == AiAgents.price md * 1.001
       /\ AiAgents.confidence signal <= 30
       /\ AiAgents.highConfidence signal = false.
Proof.
  intro H. exists (MarketPredictor.getBasicPrediction md).
  split; [apply predict_falls_back; right; left; exact H|].
  split.
  { cbn [MarketPredictor.getBasicPrediction AiTrading.trend AiTrading.predictedPrice].
    symmetry. apply analyzeTrend_basic. }
  cbv zeta. unfold AiTrading.generateRecommendation, AiAgents.highConfidence.
  cbn [MarketPredictor.getBasicPrediction AiTrading.trend AiTrading.predictedPrice
    AiTrading.pp_confidence AiAgents.action AiAgents.expectedPrice
    AiAgents.confidence].
  assert (Hc : Math_min 30 (AiTrading.la_confidence liq) <= 30)
    by (unfold Math_min; apply Q.le_min_l).
  split; [reflexivity|]. split; [reflexivity|]. split; [exact Hc|].
  apply Qgtb_false. lra.
Qed.

Lemma lastn_nonempty {A} (n : nat) (d : A) (l : list A) :
  MarketPredictor.lastn (S n) (d :: l) <> [].
Proof.
  intro H. apply (f_equal (@List.length A)) in H.
  rewrite lastn_length in H. cbn [List.length] in H. lia.
Qed.

Lemma last_some {A} (l : list A) (x : A) :
  last (map Some l) None = Some x -> exists l', l = l' ++ [x].
Proof.
  destruct l as [|a l].
  - intro H. discriminate H.
  - destruct (@exists_last A (a :: l)) as [l' [b E]]; [discriminate|].
    rewrite E. intro H. rewrite map_app in H. cbn [map] in H.
    rewrite last_last in H. injection H as ->. exists l'. reflexivity.
Qed.

(** What [predictMovement] does, by the last data point of the history it
    works on. *)
Lemma predictMovement_eq (pair timeframe : string)
  (provided : option (list AiAgents.MarketData)) (s : MarketPredictor.State rt) :
  let h1 := MarketPredictor.adopted provided (MarketPredictor.historicalData s) in
  let s1 := MarketPredictor.mkState (MarketPredictor.model s)
              (MarketPredictor.isTraining s) h1 (MarketPredictor.lines s)
              (MarketPredictor.env s) in
  MarketPredictor.predictMovement rt pair timeframe provided s
  = match last (map Some h1) None with
    | None =>
        (Return None,
         MarketPredictor.mkState (MarketPredictor.model s)
           (MarketPredictor.isTraining s) h1
           (MarketPredictor.lines s
            ++ [Error "Movement prediction failed:"
                  (mkError "No data available for prediction")])
           (MarketPredictor.env s))
    | Some x =>
        match MarketPredictor.predict rt x s1 with
        | (Return p, s2) =>
            (Return (Some (MarketPredictor.mkMovement pair timeframe
                             (AiAgents.price x)
                             (AiTrading.predictedPrice p
                              * MarketPredictor.getTimeframeMultiplier timeframe)
                             ((AiTrading.predictedPrice p - AiAgents.price x)
                              / AiAgents.price x * 100)
                             (AiTrading.pp_confidence p)
                             (AiTrading.trend p)
                             (AiTrading.volatility p)
                             (fst (MarketPredictor.Date_now rt
                                     (MarketPredictor.env s2))))),
             MarketPredictor.mkState (MarketPredictor.model s2)
               (MarketPredictor.isTraining s2)
               (MarketPredictor.historicalData s2) (MarketPredictor.lines s2)
               (snd (MarketPredictor.Date_now rt (MarketPredictor.env s2))))
        | (Throw e, s2) =>
            (Return None,
             MarketPredictor.mkState (MarketPredictor.model s2)
               (MarketPredictor.isTraining s2)
               (MarketPredictor.historicalData s2)
               (MarketPredictor.lines s2 ++ [Error "Movement prediction failed:" e])
               (MarketPredictor.env s2))
        end
    end.
Proof.
  destruct s as [m t h0 l e0]. cbv zeta.
  cbn [MarketPredictor.historicalData MarketPredictor.model
    MarketPredictor.isTraining MarketPredictor.lines MarketPredictor.env].
  unfold MarketPredictor.predictMovement, catchS, bindS, MarketPredictor.get,
    MarketPredictor.set_history, retS, throwS, MarketPredictor.call,
    MarketPredictor.log.
  destruct provided as [[|d l0]|];
    cbn [MarketPredictor.adopted MarketPredictor.historicalData
      MarketPredictor.model MarketPredictor.isTraining MarketPredictor.lines
      MarketPredictor.env];
    match goal with
    | |- context [last (map Some ?h) None] =>
        destruct (last (map Some h) None) as [x|]; [|reflexivity]
    end;
    match goal with
    | |- context [MarketPredictor.predict rt ?x ?s1] =>
        destruct (MarketPredictor.predict rt x s1) as [[p|e] s2]; [|reflexivity]
    end;
    match goal with
    | |- context [MarketPredictor.Date_now rt ?e] =>
        destruct (MarketPredictor.Date_now rt e) as [now e2]
    end;
    reflexivity.
Qed.

Lemma adopted_empty (provided : option (list AiAgents.MarketData))
  (h : list AiAgents.MarketData) :
  MarketPredictor.adopted provided h = []
  <-> (provided = None \/ provided = Some []) /\ h = [].
Proof.
  destruct provided as [[|d l]|]; cbn [MarketPredictor.adopted].
  - split; [intro H; split; [right; reflexivity | exact H] | intros [_ H]; exact H].
  - split.
    + intro H. exfalso. exact (lastn_nonempty 999 d l H).
    + intros [[H|H] _]; discriminate H.
  - split; [intro H; split; [left; reflexivity | exact H] | intros [_ H]; exact H].
Qed.

(** [predictMovement] never throws; it returns [null] exactly when it
    is given no data and holds none. *)
Theorem predictMovement_outcome (pair timeframe : string)
  (provided : option (list AiAgents.MarketData)) (s : MarketPredictor.State rt) :
  exists r,
    fst (MarketPredictor.predictMovement rt pair timeframe provided s) = Return r
    /\ (r = None
        <-> (provided = None \/ provided = Some [])
            /\ MarketPredictor.historicalData s = []).
Proof.
  rewrite predictMovement_eq. cbv zeta.
  pose proof (adopted_empty provided (MarketPredictor.historicalData s)) as Hae.
  set (h1 := MarketPredictor.adopted provided (MarketPredictor.historicalData s))
    in *.
  destruct (last (map Some h1) None) as [x|] eqn:Hl.
  - destruct (last_some h1 x Hl) as [l' E].
    match goal with
    | |- context [MarketPredictor.predict rt x ?s1] =>
        destruct (predict_result x s1) as [p [Hp _]];
        destruct (MarketPredictor.predict rt x s1) as [r s2]
    end.
    cbn [fst] in Hp. subst r. eexists. split; [reflexivity|].
    split; [intro H; discriminate H|].
    intro H. apply Hae in H. rewrite H in E. destruct l'; discriminate E.
  - eexists. split; [reflexivity|]. split; [intros _|reflexivity].
    apply Hae. destruct h1 as [|a l]; [reflexivity|]. exfalso.
    destruct (@exists_last _ (a :: l)) as [l' [b E]]; [discriminate|].
    rewrite E, map_app in Hl. cbn [map] in Hl. rewrite last_last in Hl.
    discriminate Hl.
Qed.

Lemma getTimeframeMultiplier_bounds (timeframe : string) :
  1.001 <= MarketPredictor.getTimeframeMultiplier timeframe <= 1.5.
Proof.
  unfold MarketPredictor.getTimeframeMultiplier.
  repeat match goal with
         | |- context [String.eqb ?a ?b] => destruct (String.eqb a b)
         end; split; lra.
Qed.

(** In what [predictMovement] returns, the predicted price is the
    price that the reported change gives, times the multiplier of the
    timeframe, which is at least 1.001: the two fields do not describe
    the same price.  The confidence is between 30 and 80. *)
Theorem predictMovement_fields (pair timeframe : string)
  (provided : option (list AiAgents.MarketData)) (s : MarketPredictor.State rt)
  (mv : MarketPredictor.Movement) :
  fst (MarketPredictor.predictMovement rt pair timeframe provided s)
  = Return (Some mv) ->
  ~ MarketPredictor.currentPrice mv == 0 ->
  MarketPredictor.m_predictedPrice mv
  == MarketPredictor.currentPrice mv
     * (1 + MarketPredictor.priceChange mv / 100)
     * MarketPredictor.getTimeframeMultiplier timeframe
  /\ 1.001 <= MarketPredictor.getTimeframeMultiplier timeframe <= 1.5
  /\ 30 <= MarketPredictor.m_confidence mv <= 80.
Proof.
  rewrite predictMovement_eq. cbv zeta.
  set (h1 := MarketPredictor.adopted provided (MarketPredictor.historicalData s)).
  destruct (last (map Some h1) None) as [x|]; [|intro H; discriminate H].
  match goal with
  | |- context [MarketPredictor.predict rt x ?s1] =>
      destruct (predict_result x s1) as [p [Hp [Hc _]]];
      destruct (MarketPredictor.predict rt x s1) as [r s2]
  end.
  cbn [fst] in Hp. subst r. cbn [fst]. intro H. injection H as H. subst mv.
  cbn [MarketPredictor.currentPrice MarketPredictor.m_predictedPrice
    MarketPredictor.priceChange MarketPredictor.m_confidence].
  intro Hx. split; [field; exact Hx|].
  split; [apply getTimeframeMultiplier_bounds | exact Hc].
Qed.

(** With a model, every [predictMovement] that returns a movement
    leaves the latest data point twice at the end of the history: it
    passes the point the history already ends with to [predict], which
    adds it again. *)
Theorem predictMovement_repeats_latest (pair timeframe : string)
  (provided : option (list AiAgents.MarketData)) (s : MarketPredictor.State rt)
  (mv : MarketPredictor.Movement) :
  MarketPredictor.model s = true ->
  fst (MarketPredictor.predictMovement rt pair timeframe provided s)
  = Return (Some mv) ->
  exists h x,
    MarketPredictor.historicalData
      (snd (MarketPredictor.predictMovement rt pair timeframe provided s))
    = h ++ [x; x]
    /\ AiAgents.price x = MarketPredictor.currentPrice mv.
Proof.
  intro Hm. rewrite predictMovement_eq. cbv zeta.
  set (h1 := MarketPredictor.adopted provided (MarketPredictor.historicalData s)).
  destruct (last (map Some h1) None) as [x|] eqn:Hl; [|intro H; discriminate H].
  destruct (last_some h1 x Hl) as [l' E].
  match goal with
  | |- context [MarketPredictor.predict rt x ?s1] =>
      destruct (predict_result x s1) as [p [Hp [_ [Hh _]]]];
      destruct (MarketPredictor.predict rt x s1) as [r s2]
  end.
  cbn [fst snd MarketPredictor.model MarketPredictor.historicalData] in Hp, Hh.
  subst r. rewrite Hm in Hh. cbn [fst snd MarketPredictor.historicalData].
  intro H. injection H as H. subst mv. cbn [MarketPredictor.currentPrice].
  rewrite Hh, E. rewrite <- app_assoc. cbn [app].
  unfold MarketPredictor.lastn. rewrite skipn_app.
  exists (skipn (List.length (l' ++ [x; x]) - 1000) l'), x.
  split; [|reflexivity]. f_equal.
  replace (List.length (l' ++ [x; x]) - 1000 - List.length l')%nat with 0%nat
    by (rewrite length_app; cbn [List.length]; lia).
  reflexivity.
Qed.

Lemma trainingPairs_length (h : list AiAgents.MarketData) :
  List.length (MarketPredictor.trainingPairs rt h)
  = (List.length h - MarketPredictor.sequenceLength)%nat.
Proof.
  unfold MarketPredictor.trainingPairs.
  set (f := fun i : nat => match nth_error h i with
                           | Some target => _
                           | None => []
                           end).
  assert (H : forall n a, (a + n <= List.length h)%nat ->
                          List.length (flat_map f (seq a n)) = n).
  { induction n as [|n IH]; intros a Ha; [reflexivity|].
    cbn [seq flat_map]. rewrite length_app, IH by lia.
    subst f. cbv beta.
    destruct (nth_error h a) eqn:E; [reflexivity|].
    apply nth_error_None in E. lia. }
  unfold MarketPredictor.sequenceLength.
  destruct (Nat.le_gt_cases 60 (List.length h)) as [Hl|Hl].
  - apply H. lia.
  - replace (List.length h - 60)%nat with 0%nat by lia. reflexivity.
Qed.

(** [trainIncremental] never throws and leaves the training flag and
    the model as they were, whatever TensorFlow does; when it is not
    already training and has a model it appends all the new data to the
    history, without the cap of 1000 that [predict] applies, and otherwise
    it leaves the history alone. *)
Theorem trainIncremental_outcome (newData : list AiAgents.MarketData)
  (s : MarketPredictor.State rt) :
  let (r, s') := MarketPredictor.trainIncremental rt newData s in
  r = Return tt
  /\ MarketPredictor.isTraining s' = MarketPredictor.isTraining s
  /\ MarketPredictor.model s' = MarketPredictor.model s
  /\ MarketPredictor.historicalData s'
     = (if MarketPredictor.isTraining s || negb (MarketPredictor.model s)
        then MarketPredictor.historicalData s
        else MarketPredictor.historicalData s ++ newData).
Proof.
  destruct s as [m t h l e]. unfold MarketPredictor.trainIncremental.
  cbn [MarketPredictor.isTraining MarketPredictor.model
    MarketPredictor.historicalData].
  destruct t; [cbn [orb]; repeat split|].
  destruct m; [|cbn [orb negb]; repeat split].
  cbn [orb negb].
  unfold catchS, bindS, MarketPredictor.get, MarketPredictor.set_history,
    MarketPredictor.set_isTraining, retS, MarketPredictor.call,
    MarketPredictor.log.
  cbn [MarketPredictor.isTraining MarketPredictor.model
    MarketPredictor.historicalData MarketPredictor.lines MarketPredictor.env].
  destruct (MarketPredictor.tf_tensors rt _ _ e) as [[[]|err] e1];
    [|cbn; repeat split].
  destruct (List.length (MarketPredictor.trainingPairs rt (h ++ newData)) <? 10)%nat;
    [cbn; repeat split|].
  cbn [MarketPredictor.isTraining MarketPredictor.model
    MarketPredictor.historicalData MarketPredictor.lines MarketPredictor.env].
  destruct (MarketPredictor.tf_fit rt e1) as [[[]|err] e2]; cbn; repeat split.
Qed.

(** [trainIncremental] does not fit the model while fewer than 70 data
    points are held after adding the new ones: it only makes the
    tensors, and warns of insufficient data, or logs the error if making
    them throws. *)
Theorem trainIncremental_small_history (newData : list AiAgents.MarketData)
  (s : MarketPredictor.State rt) :
  MarketPredictor.isTraining s = false ->
  MarketPredictor.model s = true ->
  (List.length (MarketPredictor.historicalData s ++ newData) < 70)%nat ->
  let pairs :=
    MarketPredictor.trainingPairs rt (MarketPredictor.historicalData s ++ newData) in
  let (r, e) :=
    MarketPredictor.tf_tensors rt (map fst pairs) (map snd pairs)
      (MarketPredictor.env s) in
  let s' := snd (MarketPredictor.trainIncremental rt newData s) in
  MarketPredictor.env s' = e
  /\ MarketPredictor.lines s'
     = MarketPredictor.lines s
       ++ [Info "Starting incremental training...";
           match r with
           | Return _ => Warn "Insufficient data for training"
           | Throw err => Error "Training failed:" err
           end].
Proof.
  destruct s as [m t h l e].
  cbn [MarketPredictor.isTraining MarketPredictor.model
    MarketPredictor.historicalData MarketPredictor.lines MarketPredictor.env].
  intros Ht Hm Hlen. subst t m. cbv zeta.
  unfold MarketPredictor.trainIncremental.
  cbn [MarketPredictor.isTraining MarketPredictor.model orb negb].
  unfold catchS, bindS, MarketPredictor.get, MarketPredictor.set_history,
    MarketPredictor.set_isTraining, retS, MarketPredictor.call,
    MarketPredictor.log.
  cbn [MarketPredictor.isTraining MarketPredictor.model
    MarketPredictor.historicalData MarketPredictor.lines MarketPredictor.env].
  assert (Hp : (List.length (MarketPredictor.trainingPairs rt (h ++ newData)) <? 10)%nat
               = true).
  { apply Nat.ltb_lt. rewrite trainingPairs_length.
    unfold MarketPredictor.sequenceLength. lia. }
  destruct (MarketPredictor.tf_tensors rt _ _ e) as [[[]|err] e1].
  - rewrite Hp.
    cbn [snd MarketPredictor.isTraining MarketPredictor.model
      MarketPredictor.historicalData MarketPredictor.lines MarketPredictor.env].
    split; [reflexivity|]. rewrite <- app_assoc. reflexivity.
  - cbn [snd MarketPredictor.isTraining MarketPredictor.model
      MarketPredictor.historicalData MarketPredictor.lines MarketPredictor.env].
    split; [reflexivity|]. rewrite <- app_assoc. reflexivity.
Qed.

End MarketPredictorFacts.

(** ** Training the predictor of price sequences *)

Lemma fold_Qmin_le (l : list Q) (x : Q) :
  fold_left Qmin l x <= x /\ forall v, In v l -> fold_left Qmin l x <= v.
Proof.
  revert x. induction l as [|a l IH]; intro x; cbn [fold_left].
  - split; [apply Qle_refl | intros v []].
  - destruct (IH (Qmin x a)) as [H1 H2]. split.
    + eapply Qle_trans; [exact H1 | apply Q.le_min_l].
    + intros v [<-|Hv]; [|apply H2; exact Hv].
      eapply Qle_trans; [exact H1 | apply Q.le_min_r].
Qed.

Lemma fold_Qmax_ge (l : list Q) (x : Q) :
  x <= fold_left Qmax l x /\ forall v, In v l -> v <= fold_left Qmax l x.
Proof.
  revert x. induction l as [|a l IH]; intro x; cbn [fold_left].
  - split; [apply Qle_refl | intros v []].
  - destruct (IH (Qmax x a)) as [H1 H2]. split.
    + eapply Qle_trans; [apply Q.le_max_l | exact H1].
    + intros v [<-|Hv]; [|apply H2; exact Hv].
      eapply Qle_trans; [apply Q.le_max_r | exact H1].
Qed.

Lemma list_min_max_bounds (l : list Q) (v : Q) :
  In v l -> Predictor.list_min l <= v <= Predictor.list_max l.
Proof.
  destruct l as [|x l]; [intros []|]. cbn [Predictor.list_min Predictor.list_max].
  destruct (fold_Qmin_le l x) as [H1 H2], (fold_Qmax_ge l x) as [H3 H4].
  intros [<-|Hv]; split; auto.
Qed.

Section PredictorTraining.

Variable rt : Predictor.Runtime.
Variable tf_tensors :
  list (list Q) -> list Q -> Predictor.Env rt -> completion unit * Predictor.Env rt.
Variable tf_fit :
  nat -> Predictor.Env rt -> list string * completion (Q * Q) * Predictor.Env rt.

Lemma epoch_lines_scaler (epochLines : list string) (s : Predictor.State rt) :
  Predictor.scaler
    (fold_left (fun st line => Predictor.log rt INFO line [] st) epochLines s)
  = Predictor.scaler s.
Proof.
  revert s. induction epochLines as [|l ls IH]; intro s; cbn [fold_left];
    [reflexivity|]. rewrite IH. reflexivity.
Qed.

(** With a model and at least one training value, [train] replaces the
    scaler, whatever it was, by the least and the greatest of all
    training values (sequences and targets), without the margins that [predict] puts around its own
    scaler, and keeps it when making the tensors or the fit throws; all
    training values lie between the two, and are normalized into [0, 1]
    when the two differ. *)
Theorem train_scaler (sequences : list (list Q)) (targets : list Q)
  (epochs : nat) (s : Predictor.State rt) :
  Predictor.model s = true ->
  List.concat sequences ++ targets <> [] ->
  let allValues := List.concat sequences ++ targets in
  let s' := snd (Predictor.train rt tf_tensors tf_fit sequences targets epochs s) in
  Predictor.scaler s'
  = Some (Predictor.mkScaler (Predictor.list_min allValues)
            (Predictor.list_max allValues))
  /\ (forall v, In v allValues ->
                Predictor.list_min allValues <= v <= Predictor.list_max allValues)
  /\ (Predictor.list_min allValues < Predictor.list_max allValues ->
      forall v, In v allValues -> 0 <= Predictor.normalize (Predictor.scaler s') v <= 1).
Proof.
  intros Hm _ allValues s'.
  assert (Hs : Predictor.scaler s'
               = Some (Predictor.mkScaler (Predictor.list_min allValues)
                         (Predictor.list_max allValues))).
  { subst s'. unfold Predictor.train. rewrite Hm. cbn [negb].
    unfold Predictor.normalizeData. cbv zeta.
    cbn [fst snd Predictor.scaler Predictor.env Predictor.log].
    destruct (tf_tensors _ _ _) as [[[]|e] e1]; [|reflexivity].
    destruct (tf_fit epochs e1) as [[epochLines [[l v]|e]] e2];
      cbn [snd Predictor.log Predictor.scaler]; rewrite epoch_lines_scaler;
      reflexivity. }
  split; [exact Hs|]. split; [intros v Hv; apply list_min_max_bounds; exact Hv|].
  intros Hlt v Hv. rewrite Hs.
  cbn [Predictor.normalize Predictor.scaler_min Predictor.scaler_max].
  destruct (list_min_max_bounds allValues v Hv) as [Hlo Hhi].
  set (lo := Predictor.list_min allValues) in *.
  set (hi := Predictor.list_max allValues) in *.
  split.
  - apply Qle_shift_div_l; lra.
  - apply Qle_shift_div_r; lra.
Qed.

End PredictorTraining.

(** ** Instances *)

Lemma normalize_round_trip_witness :
  Predictor.denormalizePrediction (Some (Predictor.mkScaler 90 110))
    (Predictor.normalize (Some (Predictor.mkScaler 90 110)) 100) == 100.
Proof.
  apply (normalize_round_trip (Predictor.mkScaler 90 110) 100).
  cbn [Predictor.scaler_max Predictor.scaler_min]. intro H. discriminate H.
Defined.

(** A first prediction on the price 105 fixes the scaler at 94.5 and
    115.5. *)
Lemma predict_scaler_witness :
  match Predictor.predict (Predictor.constant 0.5) Predictor.agentConfig 2 [105]
          (@Predictor.mkState (Predictor.constant 0.5) true true None [] tt) with
  | Some (_, s') => Predictor.model s' = true /\ Predictor.isInitialized s' = true
  | None => False
  end.
Proof.
  destruct (Predictor.predict (Predictor.constant 0.5) Predictor.agentConfig 2 [105]
              (@Predictor.mkState (Predictor.constant 0.5) true true None [] tt))
    as [[r s']|] eqn:E.
  - destruct (predict_scaler (Predictor.constant 0.5) Predictor.agentConfig [105]
                (@Predictor.mkState (Predictor.constant 0.5) true true None [] tt)
                s' r E) as (Hm & Hi & _).
    split; [exact Hm | exact Hi].
  - discriminate E.
Defined.

Lemma tradeParams_tokens_witness :
  let signal := AiAgents.mkSignal AiAgents.BUY 80 None 2 AiAgents.LOW false in
  let p := AiTrading.tradeParams signal (MarketPredictor.tick 2) in
  Hyperion.tokenIn p = Some "USDC" /\ Hyperion.tokenOut p = Some "METIS".
Proof.
  intros signal p.
  apply (proj1 (tradeParams_tokens "METIS" "USDC" signal (MarketPredictor.tick 2)
                  eq_refl eq_refl) eq_refl);
    reflexivity.
Defined.

(** The chain cannot be reached: [start] throws and the agent stays
    flagged as running. *)
Lemma start_failure_leaves_running_witness :
  let s := AiTrading.mkState Scripted.aiRuntime Hyperion.unreachable
             AiTrading.idle false [] []
             (@Hyperion.mkState Hyperion.unreachable [] tt) tt in
  fst (AiTrading.start Scripted.aiRuntime Hyperion.unreachable AiTrading.idle s)
  = Throw (mkError "network unreachable")
  /\ AiTrading.isRunning _ _ _
       (snd (AiTrading.start Scripted.aiRuntime Hyperion.unreachable
               AiTrading.idle s)) = true.
Proof.
  intros s.
  destruct (start_failure_leaves_running Scripted.aiRuntime Hyperion.unreachable
              AiTrading.idle s (mkError "network unreachable")
              (@Hyperion.mkState Hyperion.unreachable
                 [Error "Failed to connect to Hyperion:"
                    (mkError "network unreachable")] tt)
              eq_refl) as (H1 & H2 & _).
  split; [exact H1 | exact H2].
Defined.

(** The inference throws: the basic prediction. *)
Lemma predict_basic_witness :
  fst (MarketPredictor.predict MarketPredictor.broken (MarketPredictor.tick 2)
         (@MarketPredictor.mkState MarketPredictor.broken true false
            (repeat (MarketPredictor.tick 2) 60) [] tt))
  = Return (MarketPredictor.getBasicPrediction (MarketPredictor.tick 2)).
Proof.
  apply (predict_basic MarketPredictor.broken (MarketPredictor.tick 2)
           (@MarketPredictor.mkState MarketPredictor.broken true false
              (repeat (MarketPredictor.tick 2) 60) [] tt)).
  right. right. exists (mkError "tf"). reflexivity.
Defined.

(** With 87 data points held the 88th gives a confidence of 70.4. *)
Lemma recommendation_high_confidence_witness :
  (88 <= List.length
           (MarketPredictor.historicalData
              (snd (MarketPredictor.predict (MarketPredictor.constant 3)
                      (MarketPredictor.tick 2)
                      (@MarketPredictor.mkState (MarketPredictor.constant 3)
                         true false (repeat (MarketPredictor.tick 2) 87) [] tt)))))%nat.
Proof.
  refine (proj1 (proj2
    (recommendation_high_confidence (MarketPredictor.constant 3)
       (MarketPredictor.tick 2)
       (@MarketPredictor.mkState (MarketPredictor.constant 3) true false
          (repeat (MarketPredictor.tick 2) 87) [] tt)
       _ (AiTrading.mkLiquidityAnalysis 90)
       (AiTrading.mkMevRisk AiAgents.LOW false) _ _))).
  - reflexivity.
  - vm_compute. reflexivity.
Defined.

Lemma recommendation_with_short_history_witness :
  exists p,
    fst (MarketPredictor.predict (MarketPredictor.constant 3)
           (MarketPredictor.tick 2)
           (MarketPredictor.fresh (MarketPredictor.constant 3) tt))
    = Return p
    /\ AiAgents.action
         (AiTrading.generateRecommendation p (AiTrading.mkLiquidityAnalysis 90)
            (AiTrading.mkMevRisk AiAgents.LOW false))
       = AiAgents.SELL.
Proof.
  destruct (recommendation_with_short_history (MarketPredictor.constant 3)
              (MarketPredictor.tick 2)
              (MarketPredictor.fresh (MarketPredictor.constant 3) tt)
              (AiTrading.mkLiquidityAnalysis 90)
              (AiTrading.mkMevRisk AiAgents.LOW false))
    as [p (Hp & _ & Hs & _)].
  - cbn. lia.
  - exists p. split; [exact Hp | exact Hs].
Defined.

(** One data point at price 2 and the timeframe of one day: the reported
    change is that of the basic prediction, the predicted price is one
    and a half times it. *)
Lemma predictMovement_fields_witness :
  match fst (MarketPredictor.predictMovement (MarketPredictor.constant 3)
               "METIS/USDC" "1d" (Some [MarketPredictor.tick 2])
               (MarketPredictor.fresh (MarketPredictor.constant 3) tt)) with
  | Return (Some mv) =>
      MarketPredictor.m_predictedPrice mv
      == MarketPredictor.currentPrice mv
         * (1 + MarketPredictor.priceChange mv / 100) * 1.5
  | _ => False
  end.
Proof.
  destruct (fst (MarketPredictor.predictMovement (MarketPredictor.constant 3)
                   "METIS/USDC" "1d" (Some [MarketPredictor.tick 2])
                   (MarketPredictor.fresh (MarketPredictor.constant 3) tt)))
    as [[mv|]|e] eqn:E.
  - assert (Hx : ~ MarketPredictor.currentPrice mv == 0).
    { vm_compute in E. injection E as E. subst mv. vm_compute. discriminate. }
    exact (proj1 (predictMovement_fields (MarketPredictor.constant 3)
                    "METIS/USDC" "1d" (Some [MarketPredictor.tick 2])
                    (MarketPredictor.fresh (MarketPredictor.constant 3) tt)
                    mv E Hx)).
  - vm_compute in E. discriminate E.
  - vm_compute in E. discriminate E.
Defined.

Lemma predictMovement_repeats_latest_witness :
  exists h x,
    MarketPredictor.historicalData
      (snd (MarketPredictor.predictMovement (MarketPredictor.constant 3)
              "METIS/USDC" "1d" (Some [MarketPredictor.tick 2])
              (MarketPredictor.fresh (MarketPredictor.constant 3) tt)))
    = h ++ [x; x].
Proof.
  destruct (fst (MarketPredictor.predictMovement (MarketPredictor.constant 3)
                   "METIS/USDC" "1d" (Some [MarketPredictor.tick 2])
                   (MarketPredictor.fresh (MarketPredictor.constant 3) tt)))
    as [[mv|]|e] eqn:E.
  - destruct (predictMovement_repeats_latest (MarketPredictor.constant 3)
                "METIS/USDC" "1d" (Some [MarketPredictor.tick 2])
                (MarketPredictor.fresh (MarketPredictor.constant 3) tt)
                mv eq_refl E) as [h [x [H _]]].
    exists h, x. exact H.
  - vm_compute in E. discriminate E.
  - vm_compute in E. discriminate E.
Defined.

(** Sixty-nine new data points: tensors are made, nothing is fitted. *)
Lemma trainIncremental_small_history_witness :
  MarketPredictor.lines
    (snd (MarketPredictor.trainIncremental (MarketPredictor.constant 3)
            (repeat (MarketPredictor.tick 2) 69)
            (MarketPredictor.fresh (MarketPredictor.constant 3) tt)))
  = [Info "Starting incremental training...";
     Warn "Insufficient data for training"].
Proof.
  apply (trainIncremental_small_history (MarketPredictor.constant 3)
           (repeat (MarketPredictor.tick 2) 69)
           (MarketPredictor.fresh (MarketPredictor.constant 3) tt)
           eq_refl eq_refl).
  cbn. lia.
Defined.

(** Two sequences with targets 3 and 4: the scaler is 1 and 4. *)
Lemma train_scaler_witness :
  Predictor.scaler
    (snd (Predictor.train (Predictor.constant 0.5)
            (fun _ _ e => (Return tt, e))
            (fun _ e => ([], Return (0, 0), e))
            [[1; 2]; [2; 3]] [3; 4] 50
            (@Predictor.mkState (Predictor.constant 0.5) true true None [] tt)))
  = Some (Predictor.mkScaler
            (Predictor.list_min (List.concat [[1; 2]; [2; 3]] ++ [3; 4]))
            (Predictor.list_max (List.concat [[1; 2]; [2; 3]] ++ [3; 4]))).
Proof.
  apply (train_scaler (Predictor.constant 0.5)
           (fun _ _ e => (Return tt, e))
           (fun _ e => ([], Return (0, 0), e))
           [[1; 2]; [2; 3]] [3; 4] 50
           (@Predictor.mkState (Predictor.constant 0.5) true true None [] tt)
           eq_refl).
  discriminate.
Defined.
